(** * AddressCards: the postcard generator [generate_multi_image.py]

    A shallow embedding of the batch pipeline: calendar strings, card
    stamping, sheet naming, grouping of UPRNs, text wrapping and the PDF
    merge, followed by the properties established about them. *)

From Stdlib Require Import List String Ascii ZArith Arith Lia Bool.
From Stdlib Require Import Permutation Sorted DecimalString.
From Equations Require Import Equations.
Import ListNotations.
Open Scope string_scope.
Open Scope list_scope.

(** ** Python outcomes: a value or a raised exception *)

Inductive exn : Type :=
| KeyError | TypeError | AttributeError | IndexError | ValueError
| UnboundLocalError.

Inductive outcome (A : Type) : Type :=
| Ok (a : A)
| Raise (e : exn).
Arguments Ok {A} a.
Arguments Raise {A} e.

Definition bind {A B : Type} (m : outcome A) (k : A -> outcome B) : outcome B :=
  match m with
  | Ok a => k a
  | Raise e => Raise e
  end.

Notation "x <- m ;; k" := (bind m (fun x => k))
  (at level 61, m at next level, right associativity).

Fixpoint mapM {A B : Type} (f : A -> outcome B) (l : list A) : outcome (list B) :=
  match l with
  | [] => Ok []
  | a :: r => b <- f a ;; bs <- mapM f r ;; Ok (b :: bs)
  end.

(** ** The Python builtins the program relies on *)

Module Py.

(** [len(s)] *)
Definition len (s : string) : Z := Z.of_nat (String.length s).

(** [str(n)] for an [int] *)
Definition str (n : Z) : string := NilZero.string_of_int (Z.to_int n).

(** [sep.join(l)] *)
Definition join (sep : string) (l : list string) : string := String.concat sep l.

(** [''.join(l)] *)
Fixpoint cat (l : list string) : string :=
  match l with
  | [] => ""
  | s :: r => (s ++ cat r)%string
  end.

(** [s.split(sep)] for a separator of one character *)
Fixpoint split (sep : ascii) (s : string) : list string :=
  match s with
  | "" => [""]
  | String c s' =>
      if Ascii.eqb c sep then "" :: split sep s'
      else match split sep s' with
           | x :: r => String c x :: r
           | [] => [String c ""]
           end
  end.

(** [l[i]]: an index out of range raises [IndexError] *)
Definition index {A : Type} (l : list A) (i : nat) : outcome A :=
  match nth_error l i with
  | Some a => Ok a
  | None => Raise IndexError
  end.

(** [l[i:j]] for [0 <= i <= j]: a slice is clipped, it never raises *)
Definition slice {A : Type} (l : list A) (i j : nat) : list A :=
  firstn (j - i) (skipn i l).

(** [range(0, stop, step)] for a positive [step] *)
Definition range_step (stop step : nat) : list nat :=
  map (fun k => k * step) (seq 0 ((stop + step - 1) / step)).

(** [enumerate(l, start)] *)
Fixpoint enumerate {A : Type} (l : list A) (start : Z) : list (Z * A) :=
  match l with
  | [] => []
  | a :: r => (start, a) :: enumerate r (start + 1)%Z
  end.

(** [sorted(l)] on strings: ordered by code points, a prefix first *)
Fixpoint insert (x : string) (l : list string) : list string :=
  match l with
  | [] => [x]
  | y :: r => if String.leb x y then x :: l else y :: insert x r
  end.

Fixpoint sorted (l : list string) : list string :=
  match l with
  | [] => []
  | x :: r => insert x (sorted r)
  end.

(** The characters [str.strip()] removes, among code points below 256 *)
Definition isspace (c : ascii) : bool :=
  let n := nat_of_ascii c in
  (((9 <=? n) && (n <=? 13)) || ((28 <=? n) && (n <=? 32))
   || (n =? 133) || (n =? 160))%nat.

Fixpoint all_space (s : string) : bool :=
  match s with
  | "" => true
  | String c r => isspace c && all_space r
  end.

(** [s.strip() == ''] *)
Definition strip_is_empty (s : string) : bool := all_space s.

Fixpoint spaces (n : nat) : string :=
  match n with
  | 0 => ""
  | S k => String " " (spaces k)
  end.

(** [s.expandtabs(tabsize)], the column restarting after a line break *)
Fixpoint expandtabs_from (tabsize col : nat) (s : string) : string :=
  match s with
  | "" => ""
  | String ch r =>
      if Ascii.eqb ch "009" then
        if (0 <? tabsize)%nat then
          let incr := tabsize - col mod tabsize in
          (spaces incr ++ expandtabs_from tabsize (col + incr) r)%string
        else expandtabs_from tabsize col r
      else
        String ch
          (expandtabs_from tabsize
             (if Ascii.eqb ch "010" || Ascii.eqb ch "013" then 0 else S col) r)
  end.

Definition expandtabs (s : string) (tabsize : nat) : string :=
  expandtabs_from tabsize 0 s.

Fixpoint startswith (s prefix : string) : bool :=
  match prefix, s with
  | "", _ => true
  | String p prefix', String c s' => Ascii.eqb c p && startswith s' prefix'
  | String _ _, "" => false
  end.

(** [s.replace(old, new)] for a non-empty [old]; [skip] counts the
    characters of a match still to be passed over. *)
Fixpoint replace_from (skip : nat) (old new s : string) : string :=
  match s with
  | "" => ""
  | String c r =>
      match skip with
      | S k => replace_from k old new r
      | 0 =>
          if startswith s old
          then (new ++ replace_from (String.length old - 1) old new r)%string
          else String c (replace_from 0 old new r)
      end
  end.

Definition replace (s old new : string) : string := replace_from 0 old new s.

(** [s.endswith(suffix)]: some tail of [s] is [suffix] *)
Fixpoint endswith (s suffix : string) : bool :=
  if String.eqb s suffix then true
  else match s with
       | "" => false
       | String _ r => endswith r suffix
       end.

(** [s[:-n]] for a positive [n] *)
Definition drop_last (n : nat) (s : string) : string :=
  String.substring 0 (String.length s - n) s.

(** Reading an attribute or a local that may not have been set *)
Definition getattr {A : Type} (a : option A) : outcome A :=
  match a with
  | Some v => Ok v
  | None => Raise AttributeError
  end.

Definition getlocal {A : Type} (a : option A) : outcome A :=
  match a with
  | Some v => Ok v
  | None => Raise UnboundLocalError
  end.

End Py.

(** ** [textwrap.wrap] with the options [wrap_text] passes

    [replace_whitespace=False], [break_long_words=False]; the remaining
    options keep their defaults: [expand_tabs=True], [tabsize=8],
    [drop_whitespace=True], [break_on_hyphens=True], [max_lines=None] and
    empty indents. *)

Module textwrap.

(** What the wrapping loop asks of the chunker: [re.split] with one
    capturing group returns pieces that concatenate to the text, and
    [_split] keeps the non-empty ones.  The chunker of the library,
    [split] below, is made the instance [wordsep_re] once this law is
    proved of it. *)
Class WordSep : Type := {
  wordsep_split : string -> list string;
  wordsep_cat : forall text, Py.cat (wordsep_split text) = text
}.

(** The regular expression's [whitespace] class: [_whitespace] *)
Definition is_whitespace (c : ascii) : bool :=
  let n := nat_of_ascii c in
  (((9 <=? n) && (n <=? 13)) || (n =? 32))%nat.

(** The character classes of [wordsep_re], for code points below 256:
    [\w], [\d], [letter], which is [\w] without [\d], and [word_punct],
    which is [\w] and the seven marks of codes 33, 34, 38, 39, 44, 46
    and 63. *)
Definition between (lo hi n : nat) : bool := ((lo <=? n) && (n <=? hi))%nat.

Definition is_word (c : ascii) : bool :=
  let n := nat_of_ascii c in
  between 48 57 n || between 65 90 n || between 95 95 n || between 97 122 n
  || between 170 170 n || between 178 179 n || between 181 181 n
  || between 185 186 n || between 188 190 n || between 192 214 n
  || between 216 246 n || between 248 255 n.

Definition is_digit (c : ascii) : bool := between 48 57 (nat_of_ascii c).

Definition is_letter (c : ascii) : bool := is_word c && negb (is_digit c).

Definition is_word_punct (c : ascii) : bool :=
  is_word c
  || existsb (Nat.eqb (nat_of_ascii c)) [33; 34; 38; 39; 44; 46; 63]%nat.

Definition is_hyphen (c : ascii) : bool := Ascii.eqb c "-".

(** A class test on the character before the position, if there is one *)
Definition before (class : ascii -> bool) (p : option ascii) : bool :=
  match p with
  | Some c => class c
  | None => false
  end.

(** [-{2,}(?=\w)] on the text from the position on, [n] hyphens in *)
Fixpoint dashes_word (n : nat) (s : string) : bool :=
  match s with
  | "" => false
  | String c r =>
      if is_hyphen c then dashes_word (S n) r
      else (2 <=? n)%nat && is_word c
  end.

(** [(?= letter -? letter)] on the text after the hyphen *)
Definition hyphen_ahead (r : string) : bool :=
  match r with
  | String a (String b r') =>
      is_letter a
      && (is_letter b
          || (is_hyphen b
              && match r' with
                 | String c _ => is_letter c
                 | "" => false
                 end))
  | _ => false
  end.

(** Where the scan of [wordsep_re.split] stands: before any chunk, in a
    run of whitespace, in a run of hyphens matched as an em-dash, in a
    word, or just after the hyphen that ends a piece of a hyphenated
    word. *)
Inductive mode : Type := Begin | Space | Dash | Word | Closed.

(** The third alternative ends with the hyphen [c]: [c] follows two
    letters, or a letter, a hyphen and a letter, and is followed by
    [letter -? letter].  [p3], [p2], [p1] are the three characters
    before [c], the nearest last. *)
Definition hyphenates (m : mode) (p3 p2 p1 : option ascii) (c : ascii)
  (r : string) : bool :=
  match m with
  | Word =>
      is_hyphen c
      && ((before is_letter p2 && before is_letter p1)
          || (before is_letter p3 && before is_hyphen p2
              && before is_letter p1))
      && hyphen_ahead r
  | _ => false
  end.

(** The chunk under way ends before [c], the first character of [s]:
    a run ends with its kind of character; a word ends at whitespace,
    or, after a [word_punct], where two or more hyphens and a [\w]
    follow. *)
Definition ends (m : mode) (p1 : option ascii) (c : ascii) (s : string)
  : bool :=
  match m with
  | Begin | Closed => true
  | Space => negb (is_whitespace c)
  | Dash => negb (is_hyphen c)
  | Word => is_whitespace c || (before is_word_punct p1 && dashes_word 0 s)
  end.

(** The alternative that matches at [c], the first character of [s] *)
Definition starts (p1 : option ascii) (c : ascii) (s : string) : mode :=
  if is_whitespace c then Space
  else if before is_word_punct p1 && dashes_word 0 s then Dash
  else Word.

Definition emit (cur : string) (chunks : list string) : list string :=
  match cur with
  | "" => chunks
  | _ => cur :: chunks
  end.

(** The scan: [cur] is the chunk under way, [s] the text still to read. *)
Fixpoint split_from (m : mode) (p3 p2 p1 : option ascii) (cur s : string)
  : list string :=
  match s with
  | "" => emit cur []
  | String c r =>
      if hyphenates m p3 p2 p1 c r
      then split_from Closed p2 p1 (Some c) (cur ++ String c "") r
      else if ends m p1 c s
      then emit cur
             (split_from (starts p1 c s) p2 p1 (Some c) (String c "") r)
      else split_from m p2 p1 (Some c) (cur ++ String c "") r
  end.

(** [[c for c in wordsep_re.split(text) if c]], what [_split] returns
    with [break_on_hyphens] left true *)
Definition split (text : string) : list string :=
  split_from Begin None None None "" text.

(** [_handle_long_word] when [break_long_words] is false: the long
    chunk goes on a line of its own, and only when the line is empty.
    The chunk stack is kept with its top first. *)
Definition handle_long_word (reversed_chunks cur_line : list string)
  : list string * list string :=
  match cur_line, reversed_chunks with
  | [], c :: rest => (rest, [c])
  | _, _ => (reversed_chunks, cur_line)
  end.

(** The inner [while chunks:] loop: squeeze chunks onto the line. *)
Fixpoint fill_line (width : Z) (chunks cur_line : list string) (cur_len : Z)
  : list string * list string * Z :=
  match chunks with
  | [] => ([], cur_line, cur_len)
  | c :: rest =>
      let l := Py.len c in
      if (cur_len + l <=? width)%Z
      then fill_line width rest (cur_line ++ [c]) (cur_len + l)
      else (chunks, cur_line, cur_len)
  end.

(** [if cur_line and cur_line[-1].strip() == '': del cur_line[-1]] *)
Definition drop_trailing (cur_line : list string) : list string :=
  match cur_line with
  | [] => []
  | _ => if Py.strip_is_empty (last cur_line "")
         then removelast cur_line else cur_line
  end.

(** One pass of the outer [while chunks:] loop: the chunks left and
    the lines so far. *)
Definition wrap_pass (width : Z) (chunks lines : list string)
  : list string * list string :=
  let chunks1 :=
    match chunks, lines with
    | c :: rest, _ :: _ => if Py.strip_is_empty c then rest else chunks
    | _, _ => chunks
    end in
  let '(chunks2, cur_line, cur_len) := fill_line width chunks1 [] 0%Z in
  let '(chunks3, cur_line3) :=
    match chunks2 with
    | c :: _ => if (width <? Py.len c)%Z
                then handle_long_word chunks2 cur_line
                else (chunks2, cur_line)
    | [] => (chunks2, cur_line)
    end in
  let cur_line4 := drop_trailing cur_line3 in
  match cur_line4 with
  | [] => (chunks3, lines)
  | _ => (chunks3, lines ++ [Py.cat cur_line4])
  end.

Lemma fill_line_length (width : Z) (chunks : list string) :
  forall cur_line cur_len,
    (List.length (fst (fst (fill_line width chunks cur_line cur_len)))
     <= List.length chunks)%nat.
Proof.
  induction chunks as [|c rest IH]; intros cur_line cur_len; simpl.
  - lia.
  - destruct (cur_len + Py.len c <=? width)%Z.
    + specialize (IH (cur_line ++ [c]) (cur_len + Py.len c)%Z). lia.
    + simpl. lia.
Qed.

Lemma fill_line_first (width : Z) (c : string) (rest : list string) :
  forall chunks2 cl n,
    fill_line width (c :: rest) [] 0%Z = (chunks2, cl, n) ->
    (chunks2 = c :: rest /\ cl = [] /\ (width < Py.len c)%Z)
    \/ (List.length chunks2 < List.length (c :: rest))%nat.
Proof.
  intros chunks2 cl n. simpl.
  destruct (Py.len c <=? width)%Z eqn:E.
  - intros H. right.
    pose proof (fill_line_length width rest ([] ++ [c]) (0 + Py.len c)%Z) as L.
    simpl in L. rewrite H in L. simpl in *. lia.
  - intros [= <- <- <-]. left. apply Z.leb_gt in E. auto.
Qed.

Lemma wrap_pass_decreases (width : Z) (c : string) (rest lines : list string) :
  (List.length (fst (wrap_pass width (c :: rest) lines))
   < List.length (c :: rest))%nat.
Proof.
  unfold wrap_pass.
  set (chunks1 := match lines with
                  | [] => c :: rest
                  | _ :: _ => if Py.strip_is_empty c then rest else c :: rest
                  end).
  assert (H1 : chunks1 = c :: rest \/ chunks1 = rest).
  { subst chunks1. destruct lines; [auto|].
    destruct (Py.strip_is_empty c); auto. }
  destruct (fill_line width chunks1 [] 0%Z) as [[chunks2 cur_line] cur_len] eqn:F.
  assert (H3 : forall p : list string * list string,
             (List.length (fst p) < List.length (c :: rest))%nat ->
             (List.length
                (fst (let '(chunks3, cur_line3) := p in
                      match drop_trailing cur_line3 with
                      | [] => (chunks3, lines)
                      | _ :: _ => (chunks3, lines ++ [Py.cat (drop_trailing cur_line3)])
                      end)) < List.length (c :: rest))%nat).
  { intros [a b] H; simpl in *. destruct (drop_trailing b); simpl; exact H. }
  apply H3. clear H3.
  destruct H1 as [H1 | H1]; rewrite H1 in F.
  - destruct (fill_line_first _ _ _ _ _ _ F) as [(-> & -> & Hw) | Hlt].
    + apply Z.ltb_lt in Hw. rewrite Hw. simpl. lia.
    + destruct chunks2 as [|d r]; [simpl in *; lia|].
      destruct (width <? Py.len d)%Z; [|exact Hlt].
      unfold handle_long_word. destruct cur_line; simpl in *; lia.
  - pose proof (fill_line_length width rest [] 0%Z) as L. rewrite F in L.
    simpl in L.
    destruct chunks2 as [|d r]; [simpl in *; lia|].
    destruct (width <? Py.len d)%Z; [|simpl in *; lia].
    unfold handle_long_word. destruct cur_line; simpl in *; lia.
Qed.

(** The outer [while chunks:] loop. *)
Equations wrap_loop (width : Z) (chunks lines : list string) : list string
  by wf (List.length chunks) lt :=
  wrap_loop width [] lines := lines;
  wrap_loop width (c :: rest) lines :=
    wrap_loop width (fst (wrap_pass width (c :: rest) lines))
                    (snd (wrap_pass width (c :: rest) lines)).
Next Obligation. apply wrap_pass_decreases. Qed.

(** [TextWrapper._wrap_chunks] *)
Definition wrap_chunks (width : Z) (chunks : list string)
  : outcome (list string) :=
  if (width <=? 0)%Z then Raise ValueError
  else Ok (wrap_loop width chunks []).

(** [TextWrapper.wrap]: [_munge_whitespace], [_split], [_wrap_chunks] *)
Definition wrap {W : WordSep} (text : string) (width : Z)
  : outcome (list string) :=
  wrap_chunks width (wordsep_split (Py.expandtabs text 8)).

End textwrap.

Export textwrap(WordSep, wordsep_split, wordsep_cat).

(** ** Pillow images, as the record of what was drawn and pasted *)

Module PIL.

Record font : Type := { font_file : string; font_size : Z }.

Definition truetype (file : string) (size : Z) : font :=
  {| font_file := file; font_size := size |}.

(** What [create_text_box] is handed as [string]: the list of wrapped
    lines, or one string with its own line breaks. *)
Inductive text : Type :=
| Lines (lines : list string)
| Text (s : string).

Definition rgb : Type := (Z * Z * Z)%type.

Record text_box : Type := {
  tb_string : text; tb_width : Z; tb_height : Z; tb_rotation : Z;
  tb_font : font; tb_fill : Z; tb_multiline : bool }.

Record stamp : Type := {
  st_box : text_box; st_x : Z; st_y : Z; st_black : rgb; st_white : rgb }.

(** A postcard face: the template opened and the text boxes pasted on
    it, oldest first. *)
Record card : Type := { card_file : string; card_stamps : list stamp }.

(** A sheet: the blank page opened and the cards pasted on it. *)
Record sheet : Type := {
  sheet_file : string; sheet_cards : list (card * Z * Z) }.

Definition open_card (file : string) : card :=
  {| card_file := file; card_stamps := [] |}.

Definition open_sheet (file : string) : sheet :=
  {| sheet_file := file; sheet_cards := [] |}.

End PIL.

(** ** The record source: one row per UPRN *)

Record Row : Type := {
  REFDay : option string; REFWeek : option Z;
  RECYDay : option string; RECYWeek : option Z;
  GWDay : option string; GWWeek : option Z;
  addressBlock : option string }.

(** [cursor.execute(query, uprn); cursor.fetchone()] *)
Definition database : Type := string -> option Row.

(** ** The files written, and what was printed *)

Record world : Type := {
  out_dir : list (string * PIL.sheet);
  pdfs : list (string * list string);
  stdout : list string }.

Definition io (A : Type) : Type := world -> world * outcome A.

Definition ret {A : Type} (a : A) : io A := fun w => (w, Ok a).

Definition lift {A : Type} (m : outcome A) : io A := fun w => (w, m).

Definition iobind {A B : Type} (m : io A) (k : A -> io B) : io B :=
  fun w => match m w with
           | (w', Ok a) => k a w'
           | (w', Raise e) => (w', Raise e)
           end.

Notation "x <~ m ;; k" := (iobind m (fun x => k))
  (at level 61, m at next level, right associativity).

Definition print (line : string) : io unit :=
  fun w => ({| out_dir := out_dir w; pdfs := pdfs w;
               stdout := stdout w ++ [line] |}, Ok tt).

(** Writing a file replaces the file of that name, if there is one. *)
Fixpoint write {A : Type} (name : string) (a : A) (dir : list (string * A))
  : list (string * A) :=
  match dir with
  | [] => [(name, a)]
  | (n, b) :: r => if String.eqb n name then (name, a) :: r
                   else (n, b) :: write name a r
  end.

(** ** Free functions of the module *)

(** [get_uprns], from the column the query returned *)
Definition get_uprns (uprn_col : list string) : list (list string) :=
  let uprns := uprn_col in
  map (fun i => Py.slice uprns i (i + 4))
      (Py.range_step (List.length uprns) 4).

Definition wrap_text {W : WordSep} (string : string) (width : Z)
  : outcome (list String.string) :=
  textwrap.wrap string width.

(** The text drawing depends on the font's metrics; the box keeps what
    it was asked to draw. *)
Definition create_text_box (string : PIL.text) (width height rotation : Z)
  (font : PIL.font) (fill : Z) (multiline : bool) : PIL.text_box :=
  {| PIL.tb_string := string; PIL.tb_width := width; PIL.tb_height := height;
     PIL.tb_rotation := rotation; PIL.tb_font := font; PIL.tb_fill := fill;
     PIL.tb_multiline := multiline |}.

Definition paste_text_box (base_image : PIL.card) (text_box : PIL.text_box)
  (x_coord y_coord : Z) (rgb_black rgb_white : PIL.rgb) : PIL.card :=
  {| PIL.card_file := PIL.card_file base_image;
     PIL.card_stamps := PIL.card_stamps base_image ++
       [{| PIL.st_box := text_box; PIL.st_x := x_coord; PIL.st_y := y_coord;
           PIL.st_black := rgb_black; PIL.st_white := rgb_white |}] |}.

Definition paste_image (base_image : PIL.sheet) (image_to_paste : PIL.card)
  (x_coord y_coord : Z) : PIL.sheet :=
  {| PIL.sheet_file := PIL.sheet_file base_image;
     PIL.sheet_cards := PIL.sheet_cards base_image ++
       [(image_to_paste, x_coord, y_coord)] |}.

(** [save_image]: the file lands in [./out] under [filename] and the
    extension; the path is returned.  [./out] is a flat directory that
    exists and [filename] is read as a plain file name, which it is when
    the UPRNs are numbers ([is_uprn] below); on a name that holds ['/']
    [image.save] raises [FileNotFoundError], and such names are not
    modelled: what is stated of a whole run is stated for numbers. *)
Definition save_image (filename : string) (image : PIL.sheet) : io string :=
  fun w =>
    let out_path := ("./out/" ++ filename ++ ".jpg")%string in
    ({| out_dir := write (filename ++ ".jpg")%string image (out_dir w);
        pdfs := pdfs w; stdout := stdout w |}, Ok out_path).

(** ** [class Calendar] *)

Module Calendar.

Record t : Type := {
  uprn : string;
  black_bin_day : option string; black_bin_week : option Z;
  recycling_bin_day : option string; recycling_bin_week : option Z;
  recycling_box_day : option string; recycling_box_week : option Z;
  green_bin_day : option string; green_bin_week : option Z;
  black_bin_str : string; recycling_bin_str : string;
  recycling_box_str : string; green_bin_str : string }.

(** [self.dates] *)
Definition dates : list (string * Z) :=
  [("Monday", 0%Z); ("Tuesday", 1%Z); ("Wednesday", 2%Z);
   ("Thursday", 3%Z); ("Friday", 4%Z)].

Fixpoint lookup (d : list (string * Z)) (key : string) : option Z :=
  match d with
  | [] => None
  | (k, v) :: r => if String.eqb k key then Some v else lookup r key
  end.

(** [self.dates[day]]: a day that is no key, [None] included, raises *)
Definition dates_item (day : option string) : outcome Z :=
  match day with
  | Some d => match lookup dates d with
              | Some v => Ok v
              | None => Raise KeyError
              end
  | None => Raise KeyError
  end.

(** [week * 7] on what the row holds; [None * 7] raises *)
Definition times7 (week : option Z) : outcome Z :=
  match week with
  | Some n => Ok (n * 7)%Z
  | None => Raise TypeError
  end.

(** ['{}'.format(day)] *)
Definition fmt (day : option string) : string :=
  match day with
  | Some d => d
  | None => "None"
  end.

(** ['{}   from   {} June 2018'.format(day,
      str((week * 7) + self.dates[index_day] + 4))] *)
Definition from_june (day : option string) (week : option Z)
  (index_day : option string) : outcome string :=
  w7 <- times7 week ;;
  i <- dates_item index_day ;;
  Ok (fmt day ++ "   from   " ++ Py.str (w7 + i + 4) ++ " June 2018")%string.

(** The attributes [get_calendar_data] sets from the row. *)
Record data : Type := {
  d_black_bin_day : option string; d_black_bin_week : option Z;
  d_recycling_bin_day : option string; d_recycling_bin_week : option Z;
  d_recycling_box_day : option string; d_recycling_box_week : option Z;
  d_green_bin_day : option string; d_green_bin_week : option Z }.

Definition get_calendar_data (connection : database) (uprn : string)
  : outcome data :=
  row <- Py.getattr (connection uprn) ;;
  Ok {| d_black_bin_day := REFDay row;
        d_black_bin_week := REFWeek row;
        d_recycling_bin_day := RECYDay row;
        d_recycling_bin_week := RECYWeek row;
        d_recycling_box_day := RECYDay row;
        d_recycling_box_week := RECYWeek row;
        d_green_bin_day := GWDay row;
        d_green_bin_week := GWWeek row |}.

Definition option_string_eqb (a b : option string) : bool :=
  match a, b with
  | Some x, Some y => String.eqb x y
  | None, None => true
  | _, _ => false
  end.

Definition format_calendar_strings (uprn : string) (self : data)
  : outcome t :=
  black_bin_str <-
    from_june (d_black_bin_day self) (d_black_bin_week self)
              (d_black_bin_day self) ;;
  recycling_bin_str <-
    from_june (d_recycling_bin_day self) (d_recycling_bin_week self)
              (d_recycling_bin_day self) ;;
  recycling_box_str <-
    (if option_string_eqb (d_recycling_box_day self)
                          (d_recycling_bin_day self)
     then Ok ""
     else from_june (d_recycling_box_day self) (d_recycling_box_week self)
                    (d_recycling_bin_day self)) ;;
  green_bin_str <-
    (match d_green_bin_day self with
     | None => Ok "Not collected"
     | Some _ =>
         from_june (d_green_bin_day self) (d_green_bin_week self)
                   (d_green_bin_day self)
     end) ;;
  Ok {| uprn := uprn;
        black_bin_day := d_black_bin_day self;
        black_bin_week := d_black_bin_week self;
        recycling_bin_day := d_recycling_bin_day self;
        recycling_bin_week := d_recycling_bin_week self;
        recycling_box_day := d_recycling_box_day self;
        recycling_box_week := d_recycling_box_week self;
        green_bin_day := d_green_bin_day self;
        green_bin_week := d_green_bin_week self;
        black_bin_str := black_bin_str;
        recycling_bin_str := recycling_bin_str;
        recycling_box_str := recycling_box_str;
        green_bin_str := green_bin_str |}.

(** [Calendar(connection, uprn)] *)
Definition init (connection : database) (uprn : string) : outcome t :=
  self <- get_calendar_data connection uprn ;;
  format_calendar_strings uprn self.

End Calendar.

(** ** [class CalendarImage] *)

Module CalendarImage.

(** An attribute is [None] here while the constructor has not set it. *)
Record t : Type := {
  calendar : Calendar.t;
  index : option Z;
  calendar_font : PIL.font;
  index_font : PIL.font;
  image_type : option string;
  calendar_image : option PIL.card;
  image : option PIL.card }.

(** The [if index == 1: ... elif index == 4: ...] chain of [__init__] *)
Definition init_index (index : Z) : option Z :=
  if (index =? 1)%Z then Some 2%Z
  else if (index =? 2)%Z then Some 1%Z
  else if (index =? 3)%Z then Some 4%Z
  else if (index =? 4)%Z then Some 3%Z
  else None.

Definition load_calendar_image (self : t) : t :=
  if String.eqb (Calendar.recycling_box_str (calendar self)) ""
  then {| calendar := calendar self; index := index self;
          calendar_font := calendar_font self;
          index_font := index_font self;
          image_type := Some "SAME_COLLECTION";
          calendar_image :=
            Some (PIL.open_card "./in/postcard-back-same-dates.jpg");
          image := image self |}
  else self.

Definition white : PIL.rgb := (255, 255, 255)%Z.
Definition black : PIL.rgb := (0, 0, 0)%Z.

(** [build_calendar_image] reads the bin strings from the module's
    global [calendar], which the main loop has just bound to the
    calendar it passes to the constructor; it is an argument here. *)
Definition build_calendar_image {W : WordSep} (calendar : Calendar.t) (self : t)
  : outcome PIL.card :=
  image_type <- Py.getattr (image_type self) ;;
  drawn <-
    (if String.eqb image_type "SAME_COLLECTION" then
       black_bin_str <- wrap_text (Calendar.black_bin_str calendar) 7 ;;
       let black_bin_text :=
         create_text_box (PIL.Lines black_bin_str) 300 450 4
                         (calendar_font self) 255 false in
       image0 <- Py.getattr (calendar_image self) ;;
       let image1 :=
         paste_text_box image0 black_bin_text 380 710 white white in
       recycling_bin_str <- wrap_text (Calendar.recycling_bin_str calendar) 7 ;;
       let recycling_bin_text :=
         create_text_box (PIL.Lines recycling_bin_str) 300 450 4
                         (calendar_font self) 255 false in
       let image2 :=
         paste_text_box image1 recycling_bin_text 1070 710 white white in
       recycling_box_str <- wrap_text (Calendar.recycling_box_str calendar) 7 ;;
       let recycling_box_text :=
         create_text_box (PIL.Lines recycling_box_str) 400 250 4
                         (calendar_font self) 255 false in
       let image3 :=
         paste_text_box image2 recycling_box_text 935 710 white white in
       green_bin_str <- wrap_text (Calendar.green_bin_str calendar) 7 ;;
       let green_bin_text :=
         create_text_box (PIL.Lines green_bin_str) 300 450 4
                         (calendar_font self) 255 false in
       let image4 :=
         paste_text_box image3 green_bin_text 1975 710 white white in
       index <- Py.getattr (index self) ;;
       let number :=
         create_text_box (PIL.Text (Py.str index)) 100 100 0
                         (index_font self) 255 true in
       let image5 := paste_text_box image4 number 0 0 black black in
       let uprn :=
         create_text_box (PIL.Text (Calendar.uprn (CalendarImage.calendar self)))
                         1000 100 0 (index_font self) 255 true in
       Ok (Some (paste_text_box image5 uprn 750 0 black black))
     else Ok (calendar_image self)) ;;
  (* the 'DIFFERENT_COLLECTION' branch only prints a reminder *)
  Py.getattr drawn.

(** [CalendarImage(calendar, index)], with the global [calendar] on
    the left *)
Definition init {W : WordSep} (global_calendar calendar : Calendar.t)
  (index : Z) : outcome t :=
  let self :=
    {| CalendarImage.calendar := calendar;
       CalendarImage.index := init_index index;
       calendar_font :=
         PIL.truetype "futura bold condensed italic bt.ttf" 59;
       index_font := PIL.truetype "consola.ttf" 40;
       image_type := None; calendar_image := None; image := None |} in
  let self := load_calendar_image self in
  built <- build_calendar_image global_calendar self ;;
  Ok {| CalendarImage.calendar := CalendarImage.calendar self;
        CalendarImage.index := CalendarImage.index self;
        calendar_font := calendar_font self;
        index_font := index_font self;
        image_type := image_type self;
        calendar_image := Some built;
        image := Some built |}.

End CalendarImage.

(** X and Y offsets for top-left, top-right, bottom-left, bottom-right *)
Definition positions : list (Z * Z) :=
  [(82, 47); (2657, 47); (82, 1890); (2657, 1890)]%Z.

(** ** [class CalendarSide] *)

Module CalendarSide.

Record t : Type := {
  calendar_image_list : list CalendarImage.t;
  calendar_side_image : PIL.sheet;
  new_file : string }.

(** The loop of [build_calendar_side], from [position] on *)
Fixpoint build_calendar_side (position : nat)
  (calendar_image_list : list CalendarImage.t) (calendar_side_image : PIL.sheet)
  : outcome PIL.sheet :=
  match calendar_image_list with
  | [] => Ok calendar_side_image
  | calendar_image :: r =>
      image <- Py.getattr (CalendarImage.image calendar_image) ;;
      xy <- Py.index positions position ;;
      build_calendar_side (S position) r
        (paste_image calendar_side_image image (fst xy) (snd xy))
  end.

(** [CalendarSide(calendar_image_list)] *)
Definition init (calendar_image_list : list CalendarImage.t) : io t :=
  sheet <~ lift (build_calendar_side 0 calendar_image_list
                   (PIL.open_sheet "./in/blank_sra3.jpg")) ;;
  let uprns :=
    map (fun calendar_image =>
           Calendar.uprn (CalendarImage.calendar calendar_image))
        calendar_image_list in
  (* Reverts the UPRNs back to normal so filenames are the same *)
  u2 <~ lift (Py.index uprns 2) ;;
  u3 <~ lift (Py.index uprns 3) ;;
  u0 <~ lift (Py.index uprns 0) ;;
  u1 <~ lift (Py.index uprns 1) ;;
  let unflipped_uprns := [u2; u3; u0; u1; "cal"] in
  new_file <~ save_image (Py.join "-" unflipped_uprns) sheet ;;
  ret {| calendar_image_list := calendar_image_list;
         calendar_side_image := sheet;
         new_file := new_file |}.

End CalendarSide.

(** ** [class Address] *)

Module Address.

Record t : Type := { uprn : string; address_block : string }.

Definition get_address_data (connection : database) (uprn : string)
  : outcome (option string) :=
  row <- Py.getattr (connection uprn) ;;
  Ok (addressBlock row).

(** [None.replace] raises *)
Definition format_address_string (address_block : option string)
  : outcome string :=
  block <- Py.getattr address_block ;;
  Ok (Py.replace block "<br>" (String "010" "")).

Definition init (connection : database) (uprn : string) : outcome t :=
  block <- get_address_data connection uprn ;;
  address_block <- format_address_string block ;;
  Ok {| uprn := uprn; address_block := address_block |}.

End Address.

(** ** [class AddressImage] *)

Module AddressImage.

Record t : Type := {
  address : Address.t;
  index : Z;
  address_font : PIL.font;
  index_font : PIL.font;
  address_image : PIL.card }.

Definition black : PIL.rgb := (0, 0, 0)%Z.

Definition build_address_image (self : t) : PIL.card :=
  let text_box :=
    create_text_box (PIL.Text (Address.address_block (address self)))
                    1900 850 0 (address_font self) 255 true in
  let image1 :=
    paste_text_box (address_image self) text_box 500 700 black black in
  let number :=
    create_text_box (PIL.Text (Py.str (index self))) 100 100 0
                    (index_font self) 255 true in
  let image2 := paste_text_box image1 number 0 0 black black in
  let uprn :=
    create_text_box (PIL.Text (Address.uprn (address self))) 1000 100 0
                    (index_font self) 255 true in
  paste_text_box image2 uprn 750 0 black black.

(** [AddressImage(address, index)] *)
Definition init (address : Address.t) (index : Z) : t :=
  let self :=
    {| AddressImage.address := address; AddressImage.index := index;
       address_font := PIL.truetype "arial.ttf" 45;
       index_font := PIL.truetype "consola.ttf" 40;
       address_image := PIL.open_card "./in/postcard-front.jpg" |} in
  {| AddressImage.address := address; AddressImage.index := index;
     address_font := address_font self;
     index_font := index_font self;
     address_image := build_address_image self |}.

End AddressImage.

(** ** [class AddressSide] *)

Module AddressSide.

Record t : Type := {
  address_image_list : list AddressImage.t;
  address_side_image : PIL.sheet;
  new_file : string }.

Fixpoint build_address_side (position : nat)
  (address_image_list : list AddressImage.t) (address_side_image : PIL.sheet)
  : outcome PIL.sheet :=
  match address_image_list with
  | [] => Ok address_side_image
  | address_image :: r =>
      xy <- Py.index positions position ;;
      build_address_side (S position) r
        (paste_image address_side_image
           (AddressImage.address_image address_image) (fst xy) (snd xy))
  end.

(** [for address_image in ...: filename = [uprn] + filename] *)
Fixpoint prepend_uprns (address_image_list : list AddressImage.t)
  (filename : list string) : list string :=
  match address_image_list with
  | [] => filename
  | address_image :: r =>
      prepend_uprns r
        (Address.uprn (AddressImage.address address_image) :: filename)
  end.

(** [AddressSide(address_image_list)] *)
Definition init (address_image_list : list AddressImage.t) : io t :=
  sheet <~ lift (build_address_side 0 address_image_list
                   (PIL.open_sheet "./in/blank_sra3.jpg")) ;;
  let filename := prepend_uprns address_image_list ["addr"] in
  new_file <~ save_image (Py.join "-" filename) sheet ;;
  ret {| address_image_list := address_image_list;
         address_side_image := sheet;
         new_file := new_file |}.

End AddressSide.

(** ** [convert_to_pdf] *)

(** [os.path.join('./out', f)], with the separator of a POSIX system;
    any separator gives the paths the same order as the file names. *)
Definition path_join (dir f : string) : string := (dir ++ "/" ++ f)%string.

(** The inner [for image in sublist:] loop *)
Fixpoint open_sublist (sublist : list string) (img_count : nat)
  (first_image : option string) (loaded_images : list string)
  : nat * option string * list string :=
  match sublist with
  | [] => (img_count, first_image, loaded_images)
  | image :: r =>
      if (img_count mod 150 =? 0)%nat
      then open_sublist r (img_count + 1) (Some image) loaded_images
      else open_sublist r (img_count + 1) first_image (loaded_images ++ [image])
  end.

Definition save_pdf (path : string) (pages : list string) : io unit :=
  fun w => ({| out_dir := out_dir w; pdfs := pdfs w ++ [(path, pages)];
               stdout := stdout w |}, Ok tt).

(** The outer [for sublist in paths:] loop; a document is its path and
    the images saved in it, page by page. *)
Fixpoint merge_sublists (paths : list (list string)) (list_count img_count : nat)
  (first_image : option string) : io unit :=
  match paths with
  | [] => ret tt
  | sublist :: r =>
      let '(img_count, first_image, loaded_images) :=
        open_sublist sublist img_count first_image [] in
      let list_count := (list_count + 1)%nat in
      let path :=
        ("./" ++ Py.str (Z.of_nat list_count) ++ "-output.pdf")%string in
      first <~ lift (Py.getlocal first_image) ;;
      _ <~ save_pdf path (first :: loaded_images) ;;
      _ <~ print ("Saved " ++ Py.str (Z.of_nat img_count) ++ " images")%string ;;
      merge_sublists r list_count img_count first_image
  end.

Definition convert_to_pdf : io unit :=
  fun w =>
    let files := map fst (out_dir w) in
    let paths := Py.sorted (map (path_join "./out") files) in
    let paths :=
      map (fun i => Py.slice paths i (i + 150))
          (Py.range_step (List.length paths) 150) in
    merge_sublists paths 0 0 None w.

(** ** The main program *)

(** The body of [for index, uprn_list in enumerate(UPRN_LISTS, 1):] *)
Definition process_group {W : WordSep} (CONN : database) (index : Z)
  (uprn_list : list string) : io unit :=
  u1 <~ lift (Py.index uprn_list 1) ;;
  u0 <~ lift (Py.index uprn_list 0) ;;
  u3 <~ lift (Py.index uprn_list 3) ;;
  u2 <~ lift (Py.index uprn_list 2) ;;
  let swapped_list := [u1; u0; u3; u2] in
  address_images <~
    lift (mapM (fun '(number, uprn) =>
                  address <- Address.init CONN uprn ;;
                  Ok (AddressImage.init address number))
               (Py.enumerate uprn_list 1)) ;;
  calendar_images <~
    lift (mapM (fun '(number, uprn) =>
                  calendar <- Calendar.init CONN uprn ;;
                  CalendarImage.init calendar calendar number)
               (Py.enumerate swapped_list 1)) ;;
  address_side <~ AddressSide.init address_images ;;
  calendar_side <~ CalendarSide.init calendar_images ;;
  _ <~ print (Py.str index ++ ": " ++ AddressSide.new_file address_side)%string ;;
  print (Py.str index ++ ": " ++ CalendarSide.new_file calendar_side)%string.

Fixpoint process_groups {W : WordSep} (CONN : database)
  (groups : list (Z * list string)) : io unit :=
  match groups with
  | [] => ret tt
  | (index, uprn_list) :: r =>
      _ <~ process_group CONN index uprn_list ;;
      process_groups CONN r
  end.

(** [__main__], from the connection and the column of UPRNs the query
    returns *)
Definition main {W : WordSep} (CONN : database) (uprn_col : list string)
  : io unit :=
  let UPRN_LISTS := get_uprns uprn_col in
  _ <~ process_groups CONN (Py.enumerate UPRN_LISTS 1) ;;
  convert_to_pdf.

Definition empty_world : world := {| out_dir := []; pdfs := []; stdout := [] |}.

(** ** The script [get_lost_uprns.py] *)

Module get_lost_uprns.

(** [proc_uprns], from the listing of [./out]: the names that end in
    [-addr.jpg], trimmed of their last nine characters, split on ['-']
    and flattened. *)
Definition proc_uprns (listing : list string) : list string :=
  let files := filter (fun f => Py.endswith f "-addr.jpg") listing in
  let trimmed := map (Py.drop_last 9) files in
  let proc_uprns := map (Py.split "-") trimmed in
  List.concat proc_uprns.

(** [uprn not in uprn_set] *)
Definition not_in (uprn_set : list string) (uprn : string) : bool :=
  negb (existsb (String.eqb uprn) uprn_set).

(** [uprn_diff], from the listing of [./out] and the rows of the batch
    file; [row[0]] raises on a row without a field. *)
Definition uprn_diff (listing : list string) (csv_read : list (list string))
  : outcome (list string) :=
  let proc_uprns := proc_uprns listing in
  batch_uprns <- mapM (fun row => Py.index row 0) csv_read ;;
  let uprn_set := proc_uprns in
  Ok (filter (not_in uprn_set) batch_uprns).

End get_lost_uprns.

(** ** Notions used to state the properties *)

(** A collection stream the calendar can print: a day that is a key of
    [dates], with its index, and a week number. *)
Definition stream_ok (day : option string) (week : option Z) : Prop :=
  exists d i w,
    day = Some d /\ Calendar.lookup Calendar.dates d = Some i /\ week = Some w.

(** A row every card of the property can be made from. *)
Definition row_ok (r : Row) : Prop :=
  stream_ok (REFDay r) (REFWeek r)
  /\ stream_ok (RECYDay r) (RECYWeek r)
  /\ (GWDay r = None \/ stream_ok (GWDay r) (GWWeek r))
  /\ addressBlock r <> None.

(** The date formula as the specification words it. *)
Definition spec_weekday_index (day : string) : option Z :=
  if String.eqb day "Monday" then Some 0%Z
  else if String.eqb day "Tuesday" then Some 1%Z
  else if String.eqb day "Wednesday" then Some 2%Z
  else if String.eqb day "Thursday" then Some 3%Z
  else if String.eqb day "Friday" then Some 4%Z
  else None.

Definition spec_computed_date (week_offset weekday_index epoch_offset : Z) : Z :=
  ((week_offset * 7) + weekday_index + epoch_offset)%Z.

(** The texts pasted on a card at a given offset. *)
Definition stamped_at (x y : Z) (c : PIL.card) : list PIL.text :=
  map (fun s => PIL.tb_string (PIL.st_box s))
      (filter (fun s => (PIL.st_x s =? x)%Z && (PIL.st_y s =? y)%Z)
              (PIL.card_stamps c)).

(** The two markers of a card: the positional index at the corner and
    the UPRN next to it. *)
Definition markers (c : PIL.card) : list PIL.text * list PIL.text :=
  (stamped_at 0 0 c, stamped_at 750 0 c).

Definition marked (index : Z) (uprn : string) : list PIL.text * list PIL.text :=
  ([PIL.Text (Py.str index)], [PIL.Text uprn]).

(** A string without a given character. *)
Fixpoint lacks (sep : ascii) (s : string) : Prop :=
  match s with
  | "" => True
  | String c r => c <> sep /\ lacks sep r
  end.

(** What a sheet shows, cell by cell: the markers of the card and the
    offset it was pasted at. *)
Definition sheet_layout (s : PIL.sheet)
  : list ((list PIL.text * list PIL.text) * (Z * Z)) :=
  map (fun p => (markers (fst (fst p)), (snd (fst p), snd p)))
      (PIL.sheet_cards s).

(** The index each UPRN of a list is stamped with on the calendar side. *)
Definition calendar_stamps (l : list string) : list (option Z * string) :=
  map (fun p => (CalendarImage.init_index (fst p), snd p)) (Py.enumerate l 1).

(** The index each UPRN of a list is stamped with on the address side. *)
Definition address_stamps (l : list string) : list (option Z * string) :=
  map (fun p => (Some (fst p), snd p)) (Py.enumerate l 1).

(** [[l[i:i + n] for i in range(0, len(l), n)]] *)
Definition chunked {A : Type} (n : nat) (l : list A) : list (list A) :=
  map (fun i => Py.slice l i (i + n)) (Py.range_step (List.length l) n).

(** The documents the specification asks for: one per chunk, numbered
    from [n] on. *)
Fixpoint spec_documents (n : nat) (chunks : list (list string))
  : list (string * list string) :=
  match chunks with
  | [] => []
  | c :: r =>
      (("./" ++ Py.str (Z.of_nat n) ++ "-output.pdf")%string, c)
        :: spec_documents (S n) r
  end.

(** The order [sorted] puts strings in. *)
Definition str_le (a b : string) : Prop := String.leb a b = true.

Definition seventeen : list string :=
  ["u01"; "u02"; "u03"; "u04"; "u05"; "u06"; "u07"; "u08"; "u09"; "u10";
   "u11"; "u12"; "u13"; "u14"; "u15"; "u16"; "u17"].

(** A directory of 320 sheets. *)
Definition three_hundred_twenty : world :=
  {| out_dir :=
       map (fun i => ((Py.str (Z.of_nat i) ++ "-addr.jpg")%string,
                      PIL.open_sheet "./in/blank_sra3.jpg"))
           (seq 1000 320);
     pdfs := []; stdout := [] |}.

(** A string [str.strip] empties. *)
Definition blank (s : string) : Prop := Py.strip_is_empty s = true.

(** The chunks of a text laid out as lines: a chunk is dropped only if it
    is blank, and a line is a run of whole consecutive chunks that fits
    the width, or one chunk that is longer than the width. *)
Inductive wrapped (width : Z) : list string -> list string -> Prop :=
| wrapped_nil : wrapped width [] []
| wrapped_drop (c : string) (chunks lines : list string) :
    blank c -> wrapped width chunks lines -> wrapped width (c :: chunks) lines
| wrapped_line (g chunks lines : list string) :
    g <> [] ->
    (Py.len (Py.cat g) <= width)%Z \/ (exists c, g = [c] /\ (width < Py.len c)%Z) ->
    wrapped width chunks lines ->
    wrapped width (g ++ chunks) (Py.cat g :: lines).

(** Lines put back between their separators: [s0 l1 s1 ... ln sn]. *)
Fixpoint interleave (seps lines : list string) : string :=
  match seps, lines with
  | s :: seps', l :: lines' => (s ++ l ++ interleave seps' lines')%string
  | s :: _, [] => s
  | [], _ => ""
  end.

(** The last character of a string, if it has one. *)
Fixpoint last_char (s : string) : option ascii :=
  match s with
  | "" => None
  | String c r => match last_char r with
                  | None => Some c
                  | Some x => Some x
                  end
  end.

(** A place where a text may be cut without cutting a word, the text
    before it being [a] and the text after it [b]: an end of the text,
    next to a whitespace character, just after a hyphen, or just before
    two hyphens. *)
Definition seam (a b : string) : bool :=
  match last_char a, b with
  | None, _ => true
  | Some _, "" => true
  | Some x, String y r =>
      textwrap.is_whitespace x || textwrap.is_hyphen x
      || textwrap.is_whitespace y
      || (textwrap.is_hyphen y
          && match r with
             | String z _ => textwrap.is_hyphen z
             | "" => false
             end)
  end.

(** Where the lines begin and end in the text they interleave to, after
    the text [pre]: for each line, the text before it and from it on,
    then the text up to its end and after it. *)
Fixpoint cuts (pre : string) (seps lines : list string)
  : list (string * string) :=
  match seps, lines with
  | s :: seps', l :: lines' =>
      ((pre ++ s)%string, (l ++ interleave seps' lines')%string)
      :: ((pre ++ s ++ l)%string, interleave seps' lines')
      :: cuts (pre ++ s ++ l) seps' lines'
  | _, _ => []
  end.

(** Chunks, none empty, each of which ends at a seam of their text. *)
Fixpoint seamed (chunks : list string) : Prop :=
  match chunks with
  | [] => True
  | x :: rest => x <> "" /\ seam x (Py.cat rest) = true /\ seamed rest
  end.

(** What the scan of the chunker knows of the chunk under way [cur] and
    of the character [p1] before the position. *)
Definition scan_inv (m : textwrap.mode) (p1 : option ascii) (cur : string)
  : Prop :=
  match m with
  | textwrap.Begin => cur = ""
  | textwrap.Space =>
      last_char cur = p1 /\ textwrap.before textwrap.is_whitespace p1 = true
  | textwrap.Dash | textwrap.Closed =>
      last_char cur = p1 /\ textwrap.before textwrap.is_hyphen p1 = true
  | textwrap.Word => last_char cur = p1
  end.

(** A UPRN as the batch holds it: a number of up to twelve digits. *)
Fixpoint all_digits (s : string) : bool :=
  match s with
  | "" => true
  | String c r => textwrap.is_digit c && all_digits r
  end.

Definition is_uprn (u : string) : bool :=
  all_digits u && (String.length u <=? 12)%nat.

(** The names of the two sheets of a group: its UPRNs in reverse order
    and the side, joined by ['-']. *)
Definition sheet_names (uprn_list : list string) : list string :=
  [(Py.join "-" (rev uprn_list ++ ["addr"]) ++ ".jpg")%string;
   (Py.join "-" (rev uprn_list ++ ["cal"]) ++ ".jpg")%string].

(** The sublists of [get_uprns] that hold four UPRNs. *)
Definition full_groups (uprn_col : list string) : list (list string) :=
  filter (fun g => (List.length g =? 4)%nat) (get_uprns uprn_col).

(** A batch of nine UPRNs: two groups of four and one left over. *)
Definition batch : list string :=
  ["100012345671"; "100012345672"; "100012345673"; "100012345674";
   "100012345675"; "100012345676"; "100012345677"; "100012345678";
   "100012345679"].

(** A row, a record source and a calendar to try the program on. *)
Definition sample_row : Row :=
  {| REFDay := Some "Wednesday"; REFWeek := Some 1%Z;
     RECYDay := Some "Monday"; RECYWeek := Some 0%Z;
     GWDay := None; GWWeek := None;
     addressBlock := Some "1 High Street<br>Anytown<br>AB1 2CD" |}.

Definition sample_db : database := fun _ => Some sample_row.

Definition different_days_calendar : Calendar.t :=
  {| Calendar.uprn := "100012345678";
     Calendar.black_bin_day := Some "Monday";
     Calendar.black_bin_week := Some 0%Z;
     Calendar.recycling_bin_day := Some "Monday";
     Calendar.recycling_bin_week := Some 1%Z;
     Calendar.recycling_box_day := Some "Tuesday";
     Calendar.recycling_box_week := Some 1%Z;
     Calendar.green_bin_day := None;
     Calendar.green_bin_week := None;
     Calendar.black_bin_str := "Monday   from   4 June 2018";
     Calendar.recycling_bin_str := "Monday   from   11 June 2018";
     Calendar.recycling_box_str := "Tuesday   from   11 June 2018";
     Calendar.green_bin_str := "Not collected" |}.

(** The calendar of [sample_row], bins and box on the same day. *)
Definition same_day_calendar : Calendar.t :=
  {| Calendar.uprn := "100012345678";
     Calendar.black_bin_day := Some "Wednesday";
     Calendar.black_bin_week := Some 1%Z;
     Calendar.recycling_bin_day := Some "Monday";
     Calendar.recycling_bin_week := Some 0%Z;
     Calendar.recycling_box_day := Some "Monday";
     Calendar.recycling_box_week := Some 0%Z;
     Calendar.green_bin_day := None;
     Calendar.green_bin_week := None;
     Calendar.black_bin_str := "Wednesday   from   13 June 2018";
     Calendar.recycling_bin_str := "Monday   from   4 June 2018";
     Calendar.recycling_box_str := "";
     Calendar.green_bin_str := "Not collected" |}.

(** ** The chunker of [textwrap] *)

Lemma emit_cat (cur : string) (chunks : list string) :
  Py.cat (textwrap.emit cur chunks) = (cur ++ Py.cat chunks)%string.
Proof. destruct cur; reflexivity. Qed.

Lemma append_snoc (cur : string) (c : ascii) (r : string) :
  ((cur ++ String c "") ++ r)%string = (cur ++ String c r)%string.
Proof. induction cur as [|x cur IH]; simpl; [reflexivity | now rewrite IH]. Qed.

Lemma split_from_cat (s : string) :
  forall m p3 p2 p1 cur,
    Py.cat (textwrap.split_from m p3 p2 p1 cur s) = (cur ++ s)%string.
Proof.
  induction s as [|c r IH]; intros m p3 p2 p1 cur.
  - cbn [textwrap.split_from]. rewrite emit_cat. reflexivity.
  - cbn [textwrap.split_from].
    destruct (textwrap.hyphenates m p3 p2 p1 c r);
      [now rewrite IH, append_snoc|].
    destruct (textwrap.ends m p1 c (String c r)).
    + rewrite emit_cat, IH. reflexivity.
    + now rewrite IH, append_snoc.
Qed.

(** The chunks of [wordsep_re] put end to end are the text. *)
Lemma split_cat (text : string) : Py.cat (textwrap.split text) = text.
Proof. unfold textwrap.split. now rewrite split_from_cat. Qed.

(** [wordsep_re] as the chunker of the wrapping loop. *)
Definition wordsep_re : WordSep :=
  {| wordsep_split := textwrap.split;
     wordsep_cat := split_cat |}.

(** ** Calendar strings *)

Lemma spec_weekday_index_dates (day : string) :
  Calendar.lookup Calendar.dates day = spec_weekday_index day.
Proof.
  unfold spec_weekday_index, Calendar.dates, Calendar.lookup.
  rewrite !(String.eqb_sym day).
  repeat match goal with |- context [String.eqb ?a ?b] =>
    destruct (String.eqb a b); [reflexivity|] end.
  reflexivity.
Qed.

Lemma from_june_ok (day : string) (week i : Z) :
  Calendar.lookup Calendar.dates day = Some i ->
  Calendar.from_june (Some day) (Some week) (Some day)
  = Ok (day ++ "   from   " ++ Py.str (week * 7 + i + 4) ++ " June 2018")%string.
Proof.
  intros H. unfold Calendar.from_june, Calendar.dates_item, Calendar.times7, bind.
  rewrite H. reflexivity.
Qed.

Lemma from_june_stream (day : option string) (week : option Z) :
  stream_ok day week ->
  exists s, Calendar.from_june day week day = Ok s.
Proof.
  intros (d & i & w & -> & Hd & ->). rewrite (from_june_ok _ _ _ Hd). eauto.
Qed.

(** A calendar is made from every row whose streams can be printed, and
    its strings are the ones [from_june] gives. *)
Lemma Calendar_init_ok (CONN : database) (uprn : string) (r : Row) :
  CONN uprn = Some r ->
  stream_ok (REFDay r) (REFWeek r) ->
  stream_ok (RECYDay r) (RECYWeek r) ->
  GWDay r = None \/ stream_ok (GWDay r) (GWWeek r) ->
  exists c,
    Calendar.init CONN uprn = Ok c
    /\ Calendar.uprn c = uprn
    /\ Calendar.from_june (REFDay r) (REFWeek r) (REFDay r)
       = Ok (Calendar.black_bin_str c)
    /\ Calendar.from_june (RECYDay r) (RECYWeek r) (RECYDay r)
       = Ok (Calendar.recycling_bin_str c)
    /\ Calendar.recycling_box_str c = ""
    /\ (GWDay r = None -> Calendar.green_bin_str c = "Not collected")
    /\ (GWDay r <> None ->
        Calendar.from_june (GWDay r) (GWWeek r) (GWDay r)
        = Ok (Calendar.green_bin_str c)).
Proof.
  intros Hr H1 H2 H3.
  destruct (from_june_stream _ _ H1) as [s1 E1].
  destruct (from_june_stream _ _ H2) as [s2 E2].
  unfold Calendar.init, Calendar.get_calendar_data. rewrite Hr. simpl.
  unfold Calendar.format_calendar_strings. simpl. rewrite E1, E2. simpl.
  assert (Hb : Calendar.option_string_eqb (RECYDay r) (RECYDay r) = true).
  { destruct (RECYDay r); simpl; [apply String.eqb_refl | reflexivity]. }
  rewrite Hb. simpl.
  destruct H3 as [H3 | H3].
  - rewrite H3. simpl. eexists. split; [reflexivity|]. simpl.
    repeat split; auto. congruence.
  - destruct (from_june_stream _ _ H3) as [s3 E3].
    destruct H3 as (d & i & w & Hd & _ & _). rewrite Hd in *. simpl.
    rewrite E3. simpl. eexists. split; [reflexivity|]. simpl.
    repeat split; auto. discriminate.
Qed.

(** C5. For a calendar record with a present day name, the date in the
    display string is [(week_offset * 7) + weekday_index + 4], the index
    mapping Monday to Friday to 0 to 4: for the expression of the source,
    and so for the black-bin, recycling-bin and garden-waste strings of
    every calendar made from a row.  With week 1 and Wednesday the date is
    13 and the string is "Wednesday   from   13" and the period label. *)
Theorem calendar_computed_date :
  (forall (day : string) (week i : Z),
      Calendar.lookup Calendar.dates day = Some i ->
      spec_weekday_index day = Some i
      /\ Calendar.from_june (Some day) (Some week) (Some day)
         = Ok (day ++ "   from   " ++ Py.str (spec_computed_date week i 4)
                   ++ " June 2018")%string
      /\ forall (CONN : database) (uprn : string) (r : Row),
          CONN uprn = Some r ->
          stream_ok (REFDay r) (REFWeek r) ->
          stream_ok (RECYDay r) (RECYWeek r) ->
          GWDay r = None \/ stream_ok (GWDay r) (GWWeek r) ->
          exists c,
            Calendar.init CONN uprn = Ok c
            /\ (REFDay r = Some day -> REFWeek r = Some week ->
                Calendar.black_bin_str c
                = (day ++ "   from   " ++ Py.str (spec_computed_date week i 4)
                       ++ " June 2018")%string)
            /\ (RECYDay r = Some day -> RECYWeek r = Some week ->
                Calendar.recycling_bin_str c
                = (day ++ "   from   " ++ Py.str (spec_computed_date week i 4)
                       ++ " June 2018")%string)
            /\ (GWDay r = Some day -> GWWeek r = Some week ->
                Calendar.green_bin_str c
                = (day ++ "   from   " ++ Py.str (spec_computed_date week i 4)
                       ++ " June 2018")%string))
  /\ spec_weekday_index "Wednesday" = Some 2%Z
  /\ spec_computed_date 1 2 4 = 13%Z
  /\ Calendar.from_june (Some "Wednesday") (Some 1%Z) (Some "Wednesday")
     = Ok ("Wednesday   from   13" ++ " June 2018")%string.
Proof.
  split; [|repeat split; reflexivity].
  intros day week i Hd. split; [now rewrite <- spec_weekday_index_dates|].
  split; [exact (from_june_ok day week i Hd)|].
  intros CONN uprn r Hr H1 H2 H3.
  destruct (Calendar_init_ok CONN uprn r Hr H1 H2 H3)
    as (c & Hc & _ & Eb & Er & _ & _ & Eg).
  exists c. split; [exact Hc|].
  pose proof (from_june_ok day week i Hd) as F.
  unfold spec_computed_date.
  repeat split; intros Ed Ew.
  - rewrite Ed, Ew, F in Eb. congruence.
  - rewrite Ed, Ew, F in Er. congruence.
  - rewrite Ed, Ew, F in Eg. assert (Some day <> None) as N by discriminate.
    specialize (Eg N). congruence.
Qed.

Lemma sample_row_ok : row_ok sample_row.
Proof.
  repeat split.
  - exists "Wednesday", 2%Z, 1%Z. repeat split; reflexivity.
  - exists "Monday", 0%Z, 0%Z. repeat split; reflexivity.
  - left; reflexivity.
  - discriminate.
Defined.

Lemma calendar_computed_date_witness :
  Calendar.lookup Calendar.dates "Wednesday" = Some 2%Z
  /\ exists c,
      Calendar.init sample_db "100012345678" = Ok c
      /\ Calendar.black_bin_str c = "Wednesday   from   13 June 2018".
Proof.
  split; [reflexivity|].
  destruct (proj1 calendar_computed_date "Wednesday" 1%Z 2%Z eq_refl)
    as (_ & _ & H).
  destruct (H sample_db "100012345678" sample_row eq_refl
              (proj1 sample_row_ok) (proj1 (proj2 sample_row_ok))
              (proj1 (proj2 (proj2 sample_row_ok))))
    as (c & Hc & Hb & _).
  exists c. split; [exact Hc|]. exact (Hb eq_refl eq_refl).
Defined.

(** Equal days give the empty string. *)
Lemma recycling_box_same_day (uprn : string) (self : Calendar.data)
  (c : Calendar.t) :
  Calendar.d_recycling_box_day self = Calendar.d_recycling_bin_day self ->
  Calendar.format_calendar_strings uprn self = Ok c ->
  Calendar.recycling_box_str c = "".
Proof.
  intros E. unfold Calendar.format_calendar_strings. rewrite E.
  assert (Hb : forall d, Calendar.option_string_eqb d d = true).
  { intros [d|]; simpl; [apply String.eqb_refl | reflexivity]. }
  rewrite Hb.
  destruct (Calendar.from_june _ _ _); simpl; [|discriminate].
  destruct (Calendar.from_june _ _ _); simpl; [|discriminate].
  destruct (match Calendar.d_green_bin_day self with
            | Some _ => _ | None => _ end); simpl; [|discriminate].
  intros [= <-]. reflexivity.
Qed.

(** What [Calendar(connection, uprn)] returns comes from a row, with the
    box fields read from the columns of the bin. *)
Lemma Calendar_init_inv (CONN : database) (uprn : string) (c : Calendar.t) :
  Calendar.init CONN uprn = Ok c ->
  exists r,
    CONN uprn = Some r
    /\ Calendar.uprn c = uprn
    /\ Calendar.recycling_bin_day c = RECYDay r
    /\ Calendar.recycling_box_day c = RECYDay r
    /\ Calendar.recycling_bin_week c = RECYWeek r
    /\ Calendar.recycling_box_week c = RECYWeek r
    /\ Calendar.recycling_box_str c = "".
Proof.
  unfold Calendar.init, Calendar.get_calendar_data.
  destruct (CONN uprn) as [r|]; simpl; [|discriminate].
  intros H. exists r. split; [reflexivity|].
  assert (Hs : Calendar.recycling_box_str c = "")
    by (apply (recycling_box_same_day uprn _ c) in H; [exact H | reflexivity]).
  unfold Calendar.format_calendar_strings in H. simpl in H.
  destruct (Calendar.from_june _ _ _); simpl in H; [|discriminate].
  destruct (Calendar.from_june _ _ _); simpl in H; [|discriminate].
  destruct (if Calendar.option_string_eqb _ _ then _ else _);
    simpl in H; [|discriminate].
  destruct (match GWDay r with Some _ => _ | None => _ end);
    simpl in H; [|discriminate].
  injection H as <-. simpl. repeat split; auto.
Qed.



(** The branch for different days, which no calendar made reaches: run
    by hand on a box collected on Tuesday of week 1 and a bin collected
    on Monday, it takes the day name and the week of the box but the
    weekday index of the bin, and reads 11 June where the formula of the
    other streams gives 12 June. *)
Lemma recycling_box_takes_bin_weekday :
  let self :=
    {| Calendar.d_black_bin_day := Some "Monday";
       Calendar.d_black_bin_week := Some 0%Z;
       Calendar.d_recycling_bin_day := Some "Monday";
       Calendar.d_recycling_bin_week := Some 1%Z;
       Calendar.d_recycling_box_day := Some "Tuesday";
       Calendar.d_recycling_box_week := Some 1%Z;
       Calendar.d_green_bin_day := None;
       Calendar.d_green_bin_week := None |} in
  (c <- Calendar.format_calendar_strings "100012345678" self ;;
   Ok (Calendar.recycling_box_str c))
  = Ok "Tuesday   from   11 June 2018"
  /\ Calendar.from_june (Calendar.d_recycling_box_day self)
                        (Calendar.d_recycling_box_week self)
                        (Calendar.d_recycling_box_day self)
     = Ok "Tuesday   from   12 June 2018".
Proof. split; reflexivity. Qed.

(** C7. An absent garden-waste day is no error: the calendar is made and
    its garden-waste string is "Not collected"; a present day gives the
    string formatted from the garden-waste day and week. *)
Theorem garden_waste_absent_is_handled (CONN : database) (uprn : string)
  (r : Row) :
  CONN uprn = Some r ->
  stream_ok (REFDay r) (REFWeek r) ->
  stream_ok (RECYDay r) (RECYWeek r) ->
  (GWDay r = None ->
   exists c, Calendar.init CONN uprn = Ok c
             /\ Calendar.green_bin_str c = "Not collected")
  /\ (forall (day : string) (week i : Z),
         GWDay r = Some day -> GWWeek r = Some week ->
         Calendar.lookup Calendar.dates day = Some i ->
         exists c, Calendar.init CONN uprn = Ok c
                   /\ Calendar.green_bin_str c
                      = (day ++ "   from   " ++ Py.str (week * 7 + i + 4)
                             ++ " June 2018")%string).
Proof.
  intros Hr H1 H2. split.
  - intros Hg.
    destruct (Calendar_init_ok CONN uprn r Hr H1 H2 (or_introl Hg))
      as (c & Hc & _ & _ & _ & _ & Eg & _).
    exists c. auto.
  - intros day week i Ed Ew Hd.
    assert (H3 : stream_ok (GWDay r) (GWWeek r)) by (exists day, i, week; auto).
    destruct (Calendar_init_ok CONN uprn r Hr H1 H2 (or_intror H3))
      as (c & Hc & _ & _ & _ & _ & _ & Eg).
    exists c. split; [exact Hc|].
    rewrite Ed, Ew, (from_june_ok day week i Hd) in Eg.
    assert (Some day <> None) as N by discriminate.
    specialize (Eg N). congruence.
Qed.

Lemma garden_waste_absent_is_handled_witness :
  exists c, Calendar.init sample_db "100012345678" = Ok c
            /\ Calendar.green_bin_str c = "Not collected".
Proof.
  exact (proj1 (garden_waste_absent_is_handled sample_db "100012345678"
                  sample_row eq_refl (proj1 sample_row_ok)
                  (proj1 (proj2 sample_row_ok))) eq_refl).
Defined.

(** ** Calendar cards *)

Lemma wrap_text_ok {W : WordSep} (s : string) (width : Z) :
  (0 < width)%Z -> exists lines, wrap_text s width = Ok lines.
Proof.
  intros H. unfold wrap_text, textwrap.wrap, textwrap.wrap_chunks.
  destruct (width <=? 0)%Z eqn:E; [apply Z.leb_le in E; lia|]. eauto.
Qed.

(** A calendar whose box string is empty gives a card of the
    same-collection layout, stamped with the remapped index and with the
    calendar's UPRN. *)
Lemma CalendarImage_init_same {W : WordSep} (g c : Calendar.t) (index m : Z) :
  Calendar.recycling_box_str c = "" ->
  CalendarImage.init_index index = Some m ->
  exists ci card,
    CalendarImage.init g c index = Ok ci
    /\ CalendarImage.calendar ci = c
    /\ CalendarImage.index ci = Some m
    /\ CalendarImage.image_type ci = Some "SAME_COLLECTION"
    /\ CalendarImage.image ci = Some card
    /\ markers card = marked m (Calendar.uprn c).
Proof.
  intros Hb Hi.
  unfold CalendarImage.init, CalendarImage.load_calendar_image.
  cbn [CalendarImage.calendar]. rewrite Hb. cbn [String.eqb].
  unfold CalendarImage.build_calendar_image.
  cbn [CalendarImage.image_type CalendarImage.calendar_image
       CalendarImage.index CalendarImage.calendar CalendarImage.index_font
       CalendarImage.calendar_font Py.getattr bind].
  cbn [String.eqb Ascii.eqb Bool.eqb andb].
  destruct (wrap_text_ok (Calendar.black_bin_str g) 7 eq_refl) as [l1 ->].
  destruct (wrap_text_ok (Calendar.recycling_bin_str g) 7 eq_refl) as [l2 ->].
  destruct (wrap_text_ok (Calendar.recycling_box_str g) 7 eq_refl) as [l3 ->].
  destruct (wrap_text_ok (Calendar.green_bin_str g) 7 eq_refl) as [l4 ->].
  rewrite Hi. cbn [bind Py.getattr].
  do 2 eexists. split; [reflexivity|]. cbn.
  repeat split; reflexivity.
Qed.

(** C10. The box day and week are read from the columns of the bin, so
    for every calendar the program makes the two days are equal, the box
    string is empty, and every calendar card takes the same-collection
    layout: no card has the type ['DIFFERENT_COLLECTION']. *)
Theorem box_always_same_collection {W : WordSep} (CONN : database)
  (uprn : string) :
  (forall self,
      Calendar.get_calendar_data CONN uprn = Ok self ->
      Calendar.d_recycling_box_day self = Calendar.d_recycling_bin_day self
      /\ Calendar.d_recycling_box_week self = Calendar.d_recycling_bin_week self)
  /\ (forall c,
         Calendar.init CONN uprn = Ok c ->
         Calendar.recycling_box_day c = Calendar.recycling_bin_day c
         /\ Calendar.recycling_box_week c = Calendar.recycling_bin_week c
         /\ Calendar.recycling_box_str c = ""
         /\ (forall self,
                CalendarImage.calendar self = c ->
                CalendarImage.image_type (CalendarImage.load_calendar_image self)
                = Some "SAME_COLLECTION")
         /\ (forall g index ci,
                CalendarImage.init g c index = Ok ci ->
                CalendarImage.image_type ci = Some "SAME_COLLECTION"
                /\ CalendarImage.image_type ci <> Some "DIFFERENT_COLLECTION")).
Proof.
  split.
  - unfold Calendar.get_calendar_data.
    destruct (CONN uprn) as [r|]; simpl; [|discriminate].
    intros self [= <-]. simpl. auto.
  - intros c Hc.
    destruct (Calendar_init_inv CONN uprn c Hc)
      as (r & _ & _ & E1 & E2 & E3 & E4 & Es).
    repeat split; try congruence.
    + intros self <-. unfold CalendarImage.load_calendar_image.
      rewrite Es. reflexivity.
    + revert H. unfold CalendarImage.init, CalendarImage.load_calendar_image.
      cbn [CalendarImage.calendar]. rewrite Es. cbn [String.eqb].
      destruct (CalendarImage.build_calendar_image _ _); simpl; [|discriminate].
      intros [= <-]. reflexivity.
    + revert H. unfold CalendarImage.init, CalendarImage.load_calendar_image.
      cbn [CalendarImage.calendar]. rewrite Es. cbn [String.eqb].
      destruct (CalendarImage.build_calendar_image _ _); simpl; [|discriminate].
      intros [= <-]. simpl. discriminate.
Qed.

Lemma box_always_same_collection_witness :
  exists c ci,
    Calendar.init sample_db "100012345678" = Ok c
    /\ Calendar.recycling_box_str c = ""
    /\ CalendarImage.init (W := wordsep_re) c c 1 = Ok ci
    /\ CalendarImage.image_type ci = Some "SAME_COLLECTION".
Proof.
  destruct (Calendar_init_ok sample_db "100012345678" sample_row eq_refl
              (proj1 sample_row_ok) (proj1 (proj2 sample_row_ok))
              (proj1 (proj2 (proj2 sample_row_ok))))
    as (c & Hc & _ & _ & _ & Hs & _).
  destruct (CalendarImage_init_same (W := wordsep_re) c c 1 2 Hs eq_refl)
    as (ci & card & Hci & _).
  exists c, ci. split; [exact Hc|]. split; [exact Hs|]. split; [exact Hci|].
  exact (proj1 (proj2 (proj2 (proj2 (proj2
    (proj2 (box_always_same_collection (W := wordsep_re)
              sample_db "100012345678") c Hc)))) c 1%Z ci Hci)).
Defined.

(** C8. A calendar whose recycling-box string is not empty, the case of
    different collection days, gets no card at all: the constructor of
    the calendar card raises, whatever the index. *)
Theorem different_collection_raises {W : WordSep} (g c : Calendar.t)
  (index : Z) :
  Calendar.recycling_box_str c <> "" ->
  CalendarImage.init g c index = Raise AttributeError.
Proof.
  intros H. apply String.eqb_neq in H.
  unfold CalendarImage.init, CalendarImage.load_calendar_image.
  cbn [CalendarImage.calendar]. rewrite H.
  unfold CalendarImage.build_calendar_image. reflexivity.
Qed.

Lemma different_collection_raises_witness :
  Calendar.recycling_box_str different_days_calendar <> ""
  /\ CalendarImage.init (W := wordsep_re) different_days_calendar
       different_days_calendar 1
     = Raise AttributeError.
Proof.
  split; [discriminate|].
  apply (different_collection_raises (W := wordsep_re)). discriminate.
Defined.

(** ** One group of four: the two sheets *)

Lemma Address_init_ok (CONN : database) (uprn : string) (r : Row) :
  CONN uprn = Some r -> addressBlock r <> None ->
  exists a, Address.init CONN uprn = Ok a /\ Address.uprn a = uprn.
Proof.
  intros Hr Hb. unfold Address.init, Address.get_address_data.
  rewrite Hr. simpl. destruct (addressBlock r) as [b|]; [|congruence].
  simpl. eexists. split; reflexivity.
Qed.

Lemma AddressImage_markers (a : Address.t) (index : Z) :
  markers (AddressImage.address_image (AddressImage.init a index))
  = marked index (Address.uprn a).
Proof. reflexivity. Qed.

(** A group whose four rows are usable gives its two sheets: the state
    afterwards, and what each sheet shows in each cell. *)
Lemma process_group_ok {W : WordSep} (CONN : database) (index : Z)
  (u0 u1 u2 u3 : string) (w : world) :
  (forall u, In u [u0; u1; u2; u3] -> exists r, CONN u = Some r /\ row_ok r) ->
  exists addr_sheet cal_sheet,
    process_group CONN index [u0; u1; u2; u3] w
    = ({| out_dir :=
            write (Py.join "-" [u3; u2; u1; u0; "cal"] ++ ".jpg")%string cal_sheet
              (write (Py.join "-" [u3; u2; u1; u0; "addr"] ++ ".jpg")%string
                 addr_sheet (out_dir w));
          pdfs := pdfs w;
          stdout := stdout w ++
            [(Py.str index ++ ": " ++ "./out/"
                ++ Py.join "-" [u3; u2; u1; u0; "addr"] ++ ".jpg")%string] ++
            [(Py.str index ++ ": " ++ "./out/"
                ++ Py.join "-" [u3; u2; u1; u0; "cal"] ++ ".jpg")%string] |},
       Ok tt)
    /\ sheet_layout addr_sheet
       = [(marked 1 u0, (82, 47)%Z); (marked 2 u1, (2657, 47)%Z);
          (marked 3 u2, (82, 1890)%Z); (marked 4 u3, (2657, 1890)%Z)]
    /\ sheet_layout cal_sheet
       = [(marked 2 u1, (82, 47)%Z); (marked 1 u0, (2657, 47)%Z);
          (marked 4 u3, (82, 1890)%Z); (marked 3 u2, (2657, 1890)%Z)].
Proof.
  intros H.
  assert (HA : forall u, In u [u0; u1; u2; u3] ->
             exists a, Address.init CONN u = Ok a /\ Address.uprn a = u).
  { intros u Hu. destruct (H u Hu) as (r & Hr & _ & _ & _ & Hb).
    eapply Address_init_ok; eauto. }
  assert (HC : forall u n m, In u [u0; u1; u2; u3] ->
             CalendarImage.init_index n = Some m ->
             exists c ci card, Calendar.init CONN u = Ok c
               /\ CalendarImage.init c c n = Ok ci
               /\ Calendar.uprn (CalendarImage.calendar ci) = u
               /\ CalendarImage.image ci = Some card
               /\ markers card = marked m u).
  { intros u n m Hu Hn. destruct (H u Hu) as (r & Hr & H1 & H2 & H3 & _).
    destruct (Calendar_init_ok CONN u r Hr H1 H2 H3)
      as (c & Hc & Hu' & _ & _ & Hs & _).
    destruct (CalendarImage_init_same c c n m Hs Hn)
      as (ci & card & Hci & Hcc & _ & _ & Hi & Hm).
    exists c, ci, card. rewrite Hcc, Hu'. rewrite Hu' in Hm. auto. }
  destruct (HA u0) as (a0 & Ea0 & Ua0); [simpl; auto|].
  destruct (HA u1) as (a1 & Ea1 & Ua1); [simpl; auto|].
  destruct (HA u2) as (a2 & Ea2 & Ua2); [simpl; auto|].
  destruct (HA u3) as (a3 & Ea3 & Ua3); [simpl; auto 6|].
  destruct (HC u1 1%Z 2%Z) as (c1 & i1 & k1 & Ec1 & Ei1 & Uc1 & Ek1 & Em1);
    [simpl; auto|reflexivity|].
  destruct (HC u0 2%Z 1%Z) as (c0 & i0 & k0 & Ec0 & Ei0 & Uc0 & Ek0 & Em0);
    [simpl; auto|reflexivity|].
  destruct (HC u3 3%Z 4%Z) as (c3 & i3 & k3 & Ec3 & Ei3 & Uc3 & Ek3 & Em3);
    [simpl; auto 6|reflexivity|].
  destruct (HC u2 4%Z 3%Z) as (c2 & i2 & k2 & Ec2 & Ei2 & Uc2 & Ek2 & Em2);
    [simpl; auto|reflexivity|].
  unfold process_group, iobind, lift.
  cbn [Py.index nth_error Py.enumerate mapM Z.add Pos.add Pos.succ].
  rewrite Ea0, Ea1, Ea2, Ea3. cbn [bind mapM].
  rewrite Ec1. cbn [bind]. rewrite Ei1. cbn [bind].
  rewrite Ec0. cbn [bind]. rewrite Ei0. cbn [bind].
  rewrite Ec3. cbn [bind]. rewrite Ei3. cbn [bind].
  rewrite Ec2. cbn [bind]. rewrite Ei2. cbn [bind].
  unfold AddressSide.init, CalendarSide.init, iobind, lift, save_image, ret, print.
  cbn [AddressSide.build_address_side Py.index nth_error positions bind fst snd
       AddressSide.prepend_uprns].
  cbn [CalendarSide.build_calendar_side Py.index nth_error positions bind
       fst snd map].
  rewrite Ek1, Ek0, Ek3, Ek2.
  cbn [CalendarSide.build_calendar_side Py.index nth_error positions bind
       fst snd map Py.getattr].
  rewrite Uc0, Uc1, Uc2, Uc3.
  cbn [AddressImage.address AddressImage.init].
  rewrite Ua0, Ua1, Ua2, Ua3.
  cbn [out_dir pdfs stdout AddressSide.new_file CalendarSide.new_file].
  do 2 eexists. split.
  - rewrite <- app_assoc. reflexivity.
  - unfold sheet_layout.
    cbn [PIL.sheet_cards paste_image PIL.open_sheet app map fst snd].
    rewrite !AddressImage_markers, Ua0, Ua1, Ua2, Ua3, Em0, Em1, Em2, Em3.
    split; reflexivity.
Qed.

Lemma split_lacks (sep : ascii) (x : string) :
  lacks sep x -> Py.split sep x = [x].
Proof.
  induction x as [|c x IH]; simpl; [reflexivity|].
  intros [Hc Hx]. apply Ascii.eqb_neq in Hc. rewrite Hc, (IH Hx). reflexivity.
Qed.

Lemma split_append (sep : ascii) (x rest : string) :
  lacks sep x ->
  Py.split sep (x ++ String sep rest)%string = x :: Py.split sep rest.
Proof.
  induction x as [|c x IH]; simpl.
  - intros _. rewrite Ascii.eqb_refl. reflexivity.
  - intros [Hc Hx]. apply Ascii.eqb_neq in Hc. rewrite Hc, (IH Hx). reflexivity.
Qed.

(** Splitting undoes joining when no piece holds the delimiter. *)
Lemma split_join (sep : ascii) (l : list string) :
  l <> [] -> Forall (lacks sep) l ->
  Py.split sep (Py.join (String sep "") l) = l.
Proof.
  induction l as [|x l IH]; [congruence|].
  intros _ H. inversion H as [|? ? Hx Hl]; subst.
  destruct l as [|y l].
  - simpl. apply split_lacks, Hx.
  - change (Py.join (String sep "") (x :: y :: l))
      with (x ++ String sep (Py.join (String sep "") (y :: l)))%string.
    rewrite (split_append _ _ _ Hx), IH; [reflexivity|discriminate|exact Hl].
Qed.

Lemma write_In {A : Type} (name : string) (a : A) (dir : list (string * A)) :
  In name (map fst (write name a dir)).
Proof.
  induction dir as [|[n b] dir IH]; simpl; [auto|].
  destruct (String.eqb n name); simpl; auto.
Qed.

Lemma write_keeps {A : Type} (name other : string) (a : A)
  (dir : list (string * A)) :
  In other (map fst dir) -> In other (map fst (write name a dir)).
Proof.
  induction dir as [|[n b] dir IH]; simpl; [tauto|].
  destruct (String.eqb n name) eqn:E; simpl.
  - apply String.eqb_eq in E. subst. tauto.
  - tauto.
Qed.

Lemma sample_rows (l : list string) :
  forall u, In u l -> exists r, sample_db u = Some r /\ row_ok r.
Proof.
  intros u _. exists sample_row. split; [reflexivity | exact sample_row_ok].
Defined.

(** C1, as the code has it.  For a group of four usable records whose
    identifiers hold no '-', both sheets are written, and the name of
    each, split on '-', gives the four identifiers in the reverse of
    their input order, then the side tag; the order is the same on the
    address side and on the calendar side. *)
Theorem sheet_filenames_reverse_order {W : WordSep} (CONN : database)
  (index : Z) (u0 u1 u2 u3 : string) (w : world) :
  (forall u, In u [u0; u1; u2; u3] -> exists r, CONN u = Some r /\ row_ok r) ->
  Forall (lacks "-") [u0; u1; u2; u3] ->
  exists w' addr_name cal_name,
    process_group CONN index [u0; u1; u2; u3] w = (w', Ok tt)
    /\ In (addr_name ++ ".jpg")%string (map fst (out_dir w'))
    /\ In (cal_name ++ ".jpg")%string (map fst (out_dir w'))
    /\ Py.split "-" addr_name = [u3; u2; u1; u0; "addr"]
    /\ Py.split "-" cal_name = [u3; u2; u1; u0; "cal"].
Proof.
  intros H L.
  destruct (process_group_ok CONN index u0 u1 u2 u3 w H)
    as (addr_sheet & cal_sheet & E & _).
  eexists. exists (Py.join "-" [u3; u2; u1; u0; "addr"]).
  exists (Py.join "-" [u3; u2; u1; u0; "cal"]).
  split; [exact E|]. cbn [out_dir].
  inversion L as [|? ? L0 L']; subst. inversion L' as [|? ? L1 L'']; subst.
  inversion L'' as [|? ? L2 L''']; subst. inversion L''' as [|? ? L3 _]; subst.
  split; [apply write_keeps, write_In|].
  split; [apply write_In|].
  split; apply split_join; try discriminate;
    repeat constructor; auto; simpl; repeat split; discriminate.
Qed.

Lemma sheet_filenames_reverse_order_witness :
  exists w' addr_name cal_name,
    process_group (W := wordsep_re) sample_db 1
      ["1001"; "1002"; "1003"; "1004"] empty_world = (w', Ok tt)
    /\ In (addr_name ++ ".jpg")%string (map fst (out_dir w'))
    /\ In (cal_name ++ ".jpg")%string (map fst (out_dir w'))
    /\ Py.split "-" addr_name = ["1004"; "1003"; "1002"; "1001"; "addr"]
    /\ Py.split "-" cal_name = ["1004"; "1003"; "1002"; "1001"; "cal"].
Proof.
  apply (sheet_filenames_reverse_order (W := wordsep_re)).
  - apply sample_rows.
  - repeat constructor; simpl; repeat split; discriminate.
Defined.

(** C1, as it is worded, fails: for the group 1001, 1002, 1003, 1004 the
    two names written split into 1004, 1003, 1002, 1001 and the tag, not
    into the identifiers in their input order. *)
Lemma sheet_filenames_not_input_order :
  let group := ["1001"; "1002"; "1003"; "1004"] in
  let w' := fst (process_group (W := wordsep_re) sample_db 1 group
                   empty_world) in
  map (fun f => Py.split "-" (Py.drop_last 4 (fst f))) (out_dir w')
  = [["1004"; "1003"; "1002"; "1001"; "addr"];
     ["1004"; "1003"; "1002"; "1001"; "cal"]]
  /\ map (fun f => Py.split "-" (Py.drop_last 4 (fst f))) (out_dir w')
     <> [group ++ ["addr"]; group ++ ["cal"]].
Proof.
  split; [vm_compute; reflexivity|].
  vm_compute. discriminate.
Qed.

(** C9. The main loop hands the calendar side the records with the
    pairs (0,1) and (2,3) swapped and the calendar card remaps the number
    it is given by 1<->2, 3<->4; together they stamp each record's calendar
    card with the index of its address card.  On the two sheets of a
    group: the calendar sheet shows the same (index, UPRN) markers as the
    address sheet, in the left-right mirrored cells. *)
Theorem calendar_index_matches_address {W : WordSep} (CONN : database)
  (index : Z) (u0 u1 u2 u3 : string) (w : world) :
  (forall u, In u [u0; u1; u2; u3] -> exists r, CONN u = Some r /\ row_ok r) ->
  calendar_stamps [u1; u0; u3; u2]
  = [(Some 2%Z, u1); (Some 1%Z, u0); (Some 4%Z, u3); (Some 3%Z, u2)]
  /\ Permutation (calendar_stamps [u1; u0; u3; u2])
                 (address_stamps [u0; u1; u2; u3])
  /\ exists w' addr_sheet cal_sheet,
      process_group CONN index [u0; u1; u2; u3] w = (w', Ok tt)
      /\ out_dir w'
         = write (Py.join "-" [u3; u2; u1; u0; "cal"] ++ ".jpg")%string cal_sheet
             (write (Py.join "-" [u3; u2; u1; u0; "addr"] ++ ".jpg")%string
                addr_sheet (out_dir w))
      /\ sheet_layout addr_sheet
         = [(marked 1 u0, (82, 47)%Z); (marked 2 u1, (2657, 47)%Z);
            (marked 3 u2, (82, 1890)%Z); (marked 4 u3, (2657, 1890)%Z)]
      /\ sheet_layout cal_sheet
         = [(marked 2 u1, (82, 47)%Z); (marked 1 u0, (2657, 47)%Z);
            (marked 4 u3, (82, 1890)%Z); (marked 3 u2, (2657, 1890)%Z)]
      /\ forall m, In m (map fst (sheet_layout cal_sheet))
                   <-> In m (map fst (sheet_layout addr_sheet)).
Proof.
  intros H. split; [reflexivity|]. split.
  - unfold calendar_stamps, address_stamps. simpl.
    apply perm_trans with
      ((Some 1%Z, u0) :: (Some 2%Z, u1) :: (Some 4%Z, u3) :: [(Some 3%Z, u2)]).
    + apply perm_swap.
    + do 2 apply perm_skip. apply perm_swap.
  - destruct (process_group_ok CONN index u0 u1 u2 u3 w H)
      as (addr_sheet & cal_sheet & E & La & Lc).
    eexists. exists addr_sheet, cal_sheet.
    split; [exact E|]. split; [reflexivity|].
    split; [exact La|]. split; [exact Lc|].
    intros m. rewrite La, Lc. simpl. tauto.
Qed.

Lemma calendar_index_matches_address_witness :
  calendar_stamps ["1002"; "1001"; "1004"; "1003"]
  = [(Some 2%Z, "1002"); (Some 1%Z, "1001");
     (Some 4%Z, "1004"); (Some 3%Z, "1003")]
  /\ exists w',
      process_group (W := wordsep_re) sample_db 1
        ["1001"; "1002"; "1003"; "1004"] empty_world = (w', Ok tt).
Proof.
  destruct (calendar_index_matches_address (W := wordsep_re) sample_db 1
              "1001" "1002" "1003" "1004" empty_world
              (sample_rows ["1001"; "1002"; "1003"; "1004"]))
    as (S & _ & w' & _ & _ & E & _).
  split; [exact S|]. exists w'. exact E.
Defined.

(** ** Slicing a list into runs of [n] *)

Section Chunks.
Context {A : Type}.
Variable n : nat.
Hypothesis n_pos : 0 < n.

Lemma range_count (len : nat) :
  0 < len -> (len + n - 1) / n = S ((len - n + n - 1) / n).
Proof.
  intros Hl. destruct (Nat.le_gt_cases len n) as [Hs | Hg].
  - replace (len - n) with 0 by lia.
    rewrite (Nat.div_small (0 + n - 1) n) by lia.
    symmetry. apply (Nat.div_unique _ _ _ (len - 1)); lia.
  - replace (len + n - 1) with ((len - n + n - 1) + 1 * n) by lia.
    rewrite Nat.div_add by lia. lia.
Qed.

Lemma chunked_nil : chunked n (@nil A) = [].
Proof.
  unfold chunked, Py.range_step. simpl.
  rewrite Nat.div_small by lia. reflexivity.
Qed.

Lemma chunked_cons (l : list A) :
  l <> [] -> chunked n l = firstn n l :: chunked n (skipn n l).
Proof.
  intros Hl. unfold chunked, Py.range_step.
  assert (0 < List.length l) by (destruct l; simpl; [congruence | lia]).
  rewrite range_count by assumption.
  rewrite length_skipn. cbn [seq map].
  rewrite <- seq_shift, !map_map. f_equal.
  - unfold Py.slice. simpl. now rewrite Nat.sub_0_r.
  - apply map_ext. intros k. unfold Py.slice.
    rewrite skipn_skipn.
    replace (S k * n + n - S k * n) with (k * n + n - k * n) by lia.
    replace (S k * n) with (k * n + n) by lia. reflexivity.
Qed.

Lemma chunked_ind (P : list A -> Prop) :
  P [] -> (forall l, l <> [] -> P (skipn n l) -> P l) -> forall l, P l.
Proof.
  intros P0 Pstep l.
  remember (List.length l) as m eqn:Hm. revert l Hm.
  induction m as [m IH] using lt_wf_ind. intros l Hm.
  destruct l as [|x l]; [exact P0|].
  apply Pstep; [discriminate|].
  apply (IH (List.length (skipn n (x :: l)))); [|reflexivity].
  rewrite length_skipn. subst m. cbn [List.length]. lia.
Qed.

Lemma chunked_concat (l : list A) : List.concat (chunked n l) = l.
Proof.
  induction l as [|l Hl IH] using chunked_ind.
  - now rewrite chunked_nil.
  - rewrite (chunked_cons l Hl). simpl. rewrite IH. apply firstn_skipn.
Qed.

Lemma chunked_sizes (l : list A) :
  Forall (fun c => 0 < List.length c <= n) (chunked n l).
Proof.
  induction l as [|l Hl IH] using chunked_ind.
  - rewrite chunked_nil. constructor.
  - rewrite (chunked_cons l Hl). constructor; [|exact IH].
    rewrite length_firstn. destruct l; simpl in *; [congruence|lia].
Qed.

Lemma chunked_full (l : list A) :
  forall i, S i < List.length (chunked n l) ->
            List.length (nth i (chunked n l) []) = n.
Proof.
  induction l as [|l Hl IH] using chunked_ind; intros i.
  - rewrite chunked_nil. simpl. lia.
  - rewrite (chunked_cons l Hl). simpl. intros Hi.
    destruct i as [|i].
    + rewrite length_firstn.
      destruct (skipn n l) as [|y r] eqn:E.
      * rewrite chunked_nil in Hi. simpl in Hi. lia.
      * assert (List.length (skipn n l) > 0) by (rewrite E; simpl; lia).
        rewrite length_skipn in *. lia.
    + apply IH. lia.
Qed.

End Chunks.

(** ** Grouping the UPRNs *)

Lemma get_uprns_chunked (uprn_col : list string) :
  get_uprns uprn_col = chunked 4 uprn_col.
Proof. reflexivity. Qed.

Lemma process_group_short {W : WordSep} (CONN : database) (index : Z)
  (uprn_list : list string) (w : world) :
  List.length uprn_list < 4 ->
  process_group CONN index uprn_list w = (w, Raise IndexError).
Proof.
  intros H. unfold process_group, iobind, lift.
  destruct uprn_list as [|a [|b [|c [|d r]]]]; simpl in H; try lia; reflexivity.
Qed.

(** [get_uprns] drops nothing: the sublists, put end to end, are the
    column it was given. *)
Lemma get_uprns_keeps_all (uprn_col : list string) :
  List.concat (get_uprns uprn_col) = uprn_col.
Proof. rewrite get_uprns_chunked. apply chunked_concat. lia. Qed.

(** C2, at seventeen identifiers.  [get_uprns] returns five sublists,
    the last holding the one identifier left over; the main loop writes
    the sheets of the four full groups, raises [IndexError] on the fifth
    and never reaches the merge. *)
Theorem trailing_group_is_kept_and_raises :
  get_uprns seventeen
  = [["u01"; "u02"; "u03"; "u04"]; ["u05"; "u06"; "u07"; "u08"];
     ["u09"; "u10"; "u11"; "u12"]; ["u13"; "u14"; "u15"; "u16"]; ["u17"]]
  /\ snd (main (W := wordsep_re) sample_db seventeen empty_world)
     = Raise IndexError
  /\ map fst (out_dir (fst (main (W := wordsep_re) sample_db seventeen
                              empty_world)))
     = ["u04-u03-u02-u01-addr.jpg"; "u04-u03-u02-u01-cal.jpg";
        "u08-u07-u06-u05-addr.jpg"; "u08-u07-u06-u05-cal.jpg";
        "u12-u11-u10-u09-addr.jpg"; "u12-u11-u10-u09-cal.jpg";
        "u16-u15-u14-u13-addr.jpg"; "u16-u15-u14-u13-cal.jpg"]
  /\ pdfs (fst (main (W := wordsep_re) sample_db seventeen empty_world))
     = [].
Proof. repeat split; vm_compute; reflexivity. Qed.

(** ** Sorting the paths *)

Lemma insert_perm (x : string) (l : list string) :
  Permutation (Py.insert x l) (x :: l).
Proof.
  induction l as [|y l IH]; simpl; [reflexivity|].
  destruct (String.leb x y); [reflexivity|].
  rewrite IH. apply perm_swap.
Qed.

Lemma sorted_perm (l : list string) : Permutation (Py.sorted l) l.
Proof.
  induction l as [|x l IH]; simpl; [reflexivity|].
  rewrite insert_perm. now constructor.
Qed.

Lemma insert_sorted (x : string) (l : list string) :
  Sorted str_le l -> Sorted str_le (Py.insert x l).
Proof.
  induction l as [|y l IH]; simpl; intros H.
  - repeat constructor.
  - destruct (String.leb x y) eqn:E.
    + constructor; [exact H|]. constructor. exact E.
    + inversion H as [|? ? Hs Hh]; subst.
      constructor; [apply IH, Hs|].
      assert (Hyx : str_le y x).
      { destruct (String.leb_total x y) as [T|T]; [congruence|exact T]. }
      destruct l as [|z l]; simpl.
      * constructor. exact Hyx.
      * destruct (String.leb x z); constructor; [exact Hyx|].
        inversion Hh; assumption.
Qed.

Lemma sorted_sorted (l : list string) : Sorted str_le (Py.sorted l).
Proof.
  induction l as [|x l IH]; simpl; [constructor|]. now apply insert_sorted.
Qed.

Lemma compare_prefix (p a b : string) :
  String.compare (p ++ a) (p ++ b) = String.compare a b.
Proof.
  induction p as [|c p IH]; simpl; [reflexivity|].
  unfold Ascii.compare. rewrite N.compare_refl. exact IH.
Qed.

Lemma leb_prefix (p a b : string) :
  String.leb (p ++ a) (p ++ b) = String.leb a b.
Proof. unfold String.leb. now rewrite compare_prefix. Qed.

Lemma sorted_path_join (dir : string) (l : list string) :
  Py.sorted (map (path_join dir) l) = map (path_join dir) (Py.sorted l).
Proof.
  assert (I : forall x l, Py.insert (path_join dir x) (map (path_join dir) l)
                          = map (path_join dir) (Py.insert x l)).
  { intros x l0. induction l0 as [|y l0 IH]; simpl; [reflexivity|].
    unfold path_join at 1 2. rewrite !leb_prefix.
    destruct (String.leb x y); simpl; [reflexivity|]. now rewrite IH. }
  induction l as [|x l IH]; simpl; [reflexivity|]. now rewrite IH, I.
Qed.

(** ** Merging the sheets into documents *)

Lemma mod_150 (k j : nat) : j < 150 -> (150 * k + j) mod 150 = j.
Proof.
  intros H. rewrite Nat.add_comm, Nat.mul_comm, Nat.Div0.mod_add.
  now apply Nat.mod_small.
Qed.

Lemma open_sublist_loaded (r : list string) :
  forall k j first_image loaded,
    0 < j -> j + List.length r <= 150 ->
    open_sublist r (150 * k + j) first_image loaded
    = (150 * k + j + List.length r, first_image, loaded ++ r).
Proof.
  induction r as [|x r IH]; intros k j f loaded Hj Hl.
  - cbn [open_sublist List.length]. now rewrite Nat.add_0_r, app_nil_r.
  - cbn [open_sublist List.length] in *.
    rewrite mod_150 by lia.
    destruct (j =? 0)%nat eqn:E; [apply Nat.eqb_eq in E; lia|].
    rewrite <- Nat.add_assoc, (IH k (j + 1) f (loaded ++ [x])) by lia.
    rewrite <- app_assoc. cbn [app]. do 2 f_equal. lia.
Qed.

Lemma open_sublist_chunk (x : string) (r : list string) (k : nat)
  (first_image : option string) :
  List.length (x :: r) <= 150 ->
  open_sublist (x :: r) (150 * k) first_image []
  = (150 * k + List.length (x :: r), Some x, r).
Proof.
  intros H. cbn [open_sublist List.length] in *.
  replace (150 * k) with (150 * k + 0) at 1 by lia.
  rewrite mod_150 by lia. cbn [Nat.eqb].
  rewrite (open_sublist_loaded r k 1 (Some x) []) by lia.
  f_equal. f_equal. lia.
Qed.

Lemma merge_chunked (l : list string) :
  forall k first_image w,
  exists w',
    merge_sublists (chunked 150 l) k (150 * k) first_image w = (w', Ok tt)
    /\ out_dir w' = out_dir w
    /\ pdfs w' = pdfs w ++ spec_documents (S k) (chunked 150 l).
Proof.
  assert (P150 : 0 < 150) by lia.
  induction l as [|l Hl IH] using (chunked_ind 150 P150); intros k f w.
  - rewrite chunked_nil by lia. exists w. simpl. now rewrite app_nil_r.
  - rewrite (chunked_cons 150 P150 l Hl).
    destruct l as [|x l]; [congruence|].
    assert (Hf : exists r, firstn 150 (x :: l) = x :: r) by (simpl; eauto).
    destruct Hf as [r Hf]. rewrite Hf.
    assert (Hlen : List.length (x :: r) <= 150).
    { rewrite <- Hf, length_firstn. lia. }
    cbn [merge_sublists]. rewrite (open_sublist_chunk x r k f Hlen).
    unfold iobind, lift, save_pdf, print. cbn [Py.getlocal].
    cbn [out_dir pdfs stdout].
    destruct (skipn 150 (x :: l)) as [|y t] eqn:E.
    + rewrite chunked_nil by lia. cbn [merge_sublists ret spec_documents].
      eexists. split; [reflexivity|]. cbn [out_dir pdfs].
      split; [reflexivity|]. now rewrite Nat.add_1_r.
    + assert (L : List.length (x :: r) = 150).
      { rewrite <- Hf, length_firstn.
        assert (List.length (skipn 150 (x :: l)) > 0) by (rewrite E; simpl; lia).
        rewrite length_skipn in *. lia. }
      rewrite L. replace (150 * k + 150) with (150 * (k + 1)) by lia.
      match goal with |- context [merge_sublists _ _ _ ?f' ?w'] =>
        destruct (IH (k + 1) f' w') as (w2 & E2 & O2 & P2) end.
      exists w2. split; [exact E2|]. rewrite O2, P2. cbn [out_dir pdfs spec_documents].
      split; [reflexivity|].
      rewrite <- app_assoc, !Nat.add_1_r. reflexivity.
Qed.

Lemma chunked_320 {A : Type} (l : list A) :
  List.length l = 320 ->
  map (@List.length A) (chunked 150 l) = [150; 150; 20].
Proof.
  intros H. assert (P150 : 0 < 150) by lia.
  assert (N : forall l' : list A, 0 < List.length l' -> l' <> [])
    by (intros [|? ?]; simpl; [lia | discriminate]).
  rewrite (chunked_cons 150 P150 l) by (apply N; lia).
  rewrite (chunked_cons 150 P150 (skipn 150 l))
    by (apply N; rewrite length_skipn; lia).
  rewrite (chunked_cons 150 P150 (skipn 150 (skipn 150 l)))
    by (apply N; rewrite !length_skipn; lia).
  assert (E : skipn 150 (skipn 150 (skipn 150 l)) = []).
  { apply length_zero_iff_nil. rewrite !length_skipn. lia. }
  rewrite E, chunked_nil by lia.
  cbn [map]. rewrite !length_firstn, !length_skipn.
  repeat f_equal; lia.
Qed.

Lemma spec_documents_pages (n : nat) (chunks : list (list string)) :
  map (fun d => List.length (snd d)) (spec_documents n chunks)
  = map (@List.length string) chunks.
Proof.
  revert n. induction chunks as [|c r IH]; intros n; simpl; [reflexivity|].
  now rewrite IH.
Qed.

(** C4. The merge lists the files of [./out], sorts their paths, cuts the
    sorted list into consecutive runs of at most 150 (every run but the
    last of exactly 150) and saves one document per run, numbered from 1,
    whose pages are the run in its order.  With 320 sheets there are
    three documents, of 150, 150 and 20 pages. *)
Theorem merged_documents (w : world) :
  exists w' files chunks,
    convert_to_pdf w = (w', Ok tt)
    /\ out_dir w' = out_dir w
    /\ pdfs w' = pdfs w ++ spec_documents 1 chunks
    /\ Permutation files (map fst (out_dir w))
    /\ Sorted str_le files
    /\ List.concat chunks = map (path_join "./out") files
    /\ Sorted str_le (List.concat chunks)
    /\ Forall (fun c => 0 < List.length c <= 150) chunks
    /\ (forall i, S i < List.length chunks ->
                  List.length (nth i chunks []) = 150)
    /\ (List.length (out_dir w) = 320 ->
        map (fun d => List.length (snd d)) (spec_documents 1 chunks)
        = [150; 150; 20]
        /\ map fst (spec_documents 1 chunks)
           = ["./1-output.pdf"; "./2-output.pdf"; "./3-output.pdf"]).
Proof.
  assert (P150 : 0 < 150) by lia.
  set (paths := Py.sorted (map (path_join "./out") (map fst (out_dir w)))).
  destruct (merge_chunked paths 0 None w) as (w' & E & O & P).
  exists w', (Py.sorted (map fst (out_dir w))), (chunked 150 paths).
  split; [exact E|]. split; [exact O|]. split; [exact P|].
  split; [apply sorted_perm|]. split; [apply sorted_sorted|].
  rewrite (chunked_concat 150 P150).
  split; [apply sorted_path_join|]. split; [apply sorted_sorted|].
  split; [apply (chunked_sizes 150 P150)|].
  split; [apply (chunked_full 150 P150)|].
  intros L.
  assert (Lp : List.length paths = 320).
  { unfold paths.
    rewrite (Permutation_length (sorted_perm _)), !length_map. exact L. }
  pose proof (chunked_320 paths Lp) as C.
  split; [now rewrite spec_documents_pages|].
  destruct (chunked 150 paths) as [|c1 [|c2 [|c3 [|c4 r]]]]; try discriminate.
  reflexivity.
Qed.

Lemma merged_documents_witness :
  List.length (out_dir three_hundred_twenty) = 320
  /\ snd (convert_to_pdf three_hundred_twenty) = Ok tt
  /\ map (fun d => (fst d, List.length (snd d)))
         (pdfs (fst (convert_to_pdf three_hundred_twenty)))
     = [("./1-output.pdf", 150); ("./2-output.pdf", 150);
        ("./3-output.pdf", 20)].
Proof.
  split; [reflexivity|].
  destruct (merged_documents three_hundred_twenty)
    as (w' & files & chunks & E & _ & P & _ & _ & _ & _ & _ & _ & H).
  destruct (H eq_refl) as [H1 H2].
  rewrite E. split; [reflexivity|]. cbn [fst]. rewrite P. cbn [pdfs app].
  revert H1 H2. generalize (spec_documents 1 chunks). intros docs H1 H2.
  destruct docs as [|[p1 d1] [|[p2 d2] [|[p3 d3] [|? ?]]]]; try discriminate.
  simpl in *. congruence.
Defined.

(** ** Wrapping *)

Lemma append_assoc (a b c : string) : ((a ++ b) ++ c = a ++ b ++ c)%string.
Proof. induction a as [|x a IH]; simpl; [reflexivity | now rewrite IH]. Qed.

Lemma append_empty (a : string) : (a ++ "")%string = a.
Proof. induction a as [|x a IH]; simpl; [reflexivity | now rewrite IH]. Qed.

Lemma len_append (a b : string) : Py.len (a ++ b) = (Py.len a + Py.len b)%Z.
Proof.
  unfold Py.len. induction a as [|x a IH]; [reflexivity|].
  cbn [String.append String.length]. lia.
Qed.

Lemma len_nonneg (a : string) : (0 <= Py.len a)%Z.
Proof. unfold Py.len. lia. Qed.

Lemma cat_app (g h : list string) : Py.cat (g ++ h) = (Py.cat g ++ Py.cat h)%string.
Proof.
  induction g as [|x g IH]; simpl; [reflexivity|].
  now rewrite IH, append_assoc.
Qed.

Lemma blank_append (a b : string) : blank a -> blank b -> blank (a ++ b).
Proof.
  unfold blank, Py.strip_is_empty. induction a as [|x a IH]; simpl; [auto|].
  intros Ha Hb. apply andb_true_iff in Ha as [Hx Ha].
  rewrite Hx. simpl. auto.
Qed.

Section Wrapped.
Variable width : Z.

Lemma wrapped_app (c1 l1 c2 l2 : list string) :
  wrapped width c1 l1 -> wrapped width c2 l2 ->
  wrapped width (c1 ++ c2) (l1 ++ l2).
Proof.
  intros H1 H2. induction H1 as [|c chunks lines Hc _ IH|g chunks lines Hg Hw _ IH].
  - exact H2.
  - simpl. now constructor.
  - rewrite <- app_assoc. simpl. now constructor.
Qed.

Lemma wrapped_blank (b : string) : blank b -> wrapped width [b] [].
Proof. intros H. constructor; [exact H | constructor]. Qed.

Lemma wrapped_group (g : list string) :
  g <> [] ->
  (Py.len (Py.cat g) <= width)%Z \/ (exists c, g = [c] /\ (width < Py.len c)%Z) ->
  wrapped width g [Py.cat g].
Proof.
  intros Hg Hw. rewrite <- (app_nil_r g) at 1.
  constructor; [exact Hg | exact Hw | constructor].
Qed.

Lemma fill_line_spec (chunks : list string) :
  forall cur_line cur_len,
  exists g rest,
    textwrap.fill_line width chunks cur_line cur_len
    = (rest, cur_line ++ g, (cur_len + Py.len (Py.cat g))%Z)
    /\ chunks = g ++ rest
    /\ (g = [] \/ (cur_len + Py.len (Py.cat g) <= width)%Z).
Proof.
  induction chunks as [|c chunks IH]; intros cur_line cur_len.
  - exists [], []. simpl. rewrite app_nil_r, Z.add_0_r. auto.
  - cbn [textwrap.fill_line].
    destruct (cur_len + Py.len c <=? width)%Z eqn:E.
    + destruct (IH (cur_line ++ [c]) (cur_len + Py.len c)%Z)
        as (g & rest & F & Hc & Hw).
      exists (c :: g), rest. rewrite F, <- app_assoc. cbn [app Py.cat].
      rewrite len_append, Z.add_assoc.
      split; [reflexivity|]. split; [now rewrite Hc|]. right.
      destruct Hw as [-> | Hw].
      * simpl. apply Z.leb_le in E. change (Py.len "") with 0%Z. lia.
      * lia.
    + exists [], (c :: chunks). simpl. rewrite app_nil_r, Z.add_0_r. auto.
Qed.

Lemma drop_trailing_spec (g : list string) :
  exists t, g = textwrap.drop_trailing g ++ t
            /\ (t = [] \/ exists b, t = [b] /\ blank b).
Proof.
  unfold textwrap.drop_trailing. destruct g as [|x g].
  - exists []. auto.
  - destruct (Py.strip_is_empty (last (x :: g) "")) eqn:E.
    + exists [last (x :: g) ""]. split.
      * apply app_removelast_last. discriminate.
      * right. eexists. split; [reflexivity|exact E].
    + exists []. rewrite app_nil_r. auto.
Qed.

Lemma cat_prefix_len (g t : list string) :
  (Py.len (Py.cat g) <= Py.len (Py.cat (g ++ t)))%Z.
Proof. rewrite cat_app, len_append. pose proof (len_nonneg (Py.cat t)). lia. Qed.

(** What is left of a line once its trailing blank chunk is dropped
    is laid out as at most one line, and the blank chunk is dropped. *)
Lemma wrapped_trailing (g : list string) :
  (g = [] \/ (Py.len (Py.cat g) <= width)%Z
   \/ (exists c, g = [c] /\ (width < Py.len c)%Z)) ->
  wrapped width g
    (match textwrap.drop_trailing g with
     | [] => []
     | _ :: _ => [Py.cat (textwrap.drop_trailing g)]
     end).
Proof.
  intros Hg. destruct (drop_trailing_spec g) as (t & Eg & Ht).
  assert (Wt : wrapped width t []).
  { destruct Ht as [-> | (b & -> & Hb)];
      [constructor | now apply wrapped_blank]. }
  destruct (textwrap.drop_trailing g) as [|y g4].
  - rewrite Eg. exact Wt.
  - rewrite Eg at 1. change [Py.cat (y :: g4)] with ([Py.cat (y :: g4)] ++ []).
    apply wrapped_app; [|exact Wt].
    apply wrapped_group; [discriminate|].
    destruct Hg as [-> | [Hl | (c & Hc & Hl)]].
    + discriminate.
    + left. pose proof (cat_prefix_len (y :: g4) t) as P.
      rewrite <- Eg in P. lia.
    + right. exists c. split; [|exact Hl].
      rewrite Hc in Eg. destruct g4; [|destruct g4; discriminate].
      simpl in Eg. injection Eg as <-. reflexivity.
Qed.

Lemma wrap_pass_spec (chunks lines : list string) :
  exists delta dl rest,
    textwrap.wrap_pass width chunks lines = (rest, lines ++ dl)
    /\ chunks = delta ++ rest
    /\ wrapped width delta dl.
Proof.
  unfold textwrap.wrap_pass.
  set (chunks1 := match chunks with
                  | [] => chunks
                  | c :: rest => match lines with
                                 | [] => chunks
                                 | _ :: _ => if Py.strip_is_empty c then rest else chunks
                                 end
                  end).
  assert (H1 : exists d0, chunks = d0 ++ chunks1 /\ wrapped width d0 []).
  { subst chunks1. destruct chunks as [|c rest]; [exists []; split; [reflexivity|constructor]|].
    destruct lines; [exists []; split; [reflexivity|constructor]|].
    destruct (Py.strip_is_empty c) eqn:E.
    - exists [c]. split; [reflexivity | now apply wrapped_blank].
    - exists []. split; [reflexivity|constructor]. }
  destruct H1 as (d0 & E0 & W0).
  destruct (fill_line_spec chunks1 [] 0%Z) as (g & chunks2 & F & E1 & Hg).
  rewrite F. cbn [app]. rewrite Z.add_0_l in *.
  assert (H3 : exists chunks3 g3,
             match chunks2 with
             | [] => (chunks2, g)
             | c :: _ => if (width <? Py.len c)%Z
                         then textwrap.handle_long_word chunks2 g
                         else (chunks2, g)
             end = (chunks3, g3)
             /\ chunks1 = g3 ++ chunks3
             /\ (g3 = [] \/ (Py.len (Py.cat g3) <= width)%Z
                 \/ (exists c, g3 = [c] /\ (width < Py.len c)%Z))).
  { destruct chunks2 as [|c r].
    - exists [], g. repeat split; [exact E1 | tauto].
    - destruct (width <? Py.len c)%Z eqn:El.
      + unfold textwrap.handle_long_word. destruct g as [|y g].
        * exists r, [c]. split; [reflexivity|]. split; [exact E1|].
          right. right. exists c. apply Z.ltb_lt in El. auto.
        * exists (c :: r), (y :: g). split; [reflexivity|]. split; [exact E1|].
          destruct Hg as [Hg|Hg]; [discriminate|]. auto.
      + exists (c :: r), g. split; [reflexivity|]. split; [exact E1|]. tauto. }
  destruct H3 as (chunks3 & g3 & -> & E3 & H3).
  pose proof (wrapped_trailing g3 H3) as Wg.
  destruct (textwrap.drop_trailing g3) as [|y g4].
  - exists (d0 ++ g3), [], chunks3. rewrite app_nil_r.
    split; [reflexivity|]. split; [now rewrite <- app_assoc, <- E3|].
    change (@nil string) with (@nil string ++ []). now apply wrapped_app.
  - exists (d0 ++ g3), [Py.cat (y :: g4)], chunks3.
    split; [reflexivity|]. split; [now rewrite <- app_assoc, <- E3|].
    change [Py.cat (y :: g4)] with ([] ++ [Py.cat (y :: g4)]).
    now apply wrapped_app.
Qed.

Lemma wrap_loop_spec (chunks : list string) :
  forall lines,
  exists dl, textwrap.wrap_loop width chunks lines = lines ++ dl
             /\ wrapped width chunks dl.
Proof.
  remember (List.length chunks) as m eqn:Hm. revert chunks Hm.
  induction m as [m IH] using lt_wf_ind. intros chunks Hm lines.
  destruct chunks as [|c rest].
  - exists []. rewrite textwrap.wrap_loop_equation_1, app_nil_r.
    split; [reflexivity | constructor].
  - rewrite textwrap.wrap_loop_equation_2.
    pose proof (textwrap.wrap_pass_decreases width c rest lines) as D.
    destruct (wrap_pass_spec (c :: rest) lines) as (delta & dl & r & E & Ec & Wd).
    rewrite E in *. cbn [fst snd] in *.
    destruct (IH (List.length r)) with (chunks := r) (lines := lines ++ dl)
      as (dl' & E' & W'); [lia | reflexivity |].
    exists (dl ++ dl'). rewrite E', app_assoc. split; [reflexivity|].
    rewrite Ec. now apply wrapped_app.
Qed.

Lemma wrapped_widths (chunks lines : list string) :
  wrapped width chunks lines ->
  Forall (fun l => (Py.len l <= width)%Z
                   \/ ((width < Py.len l)%Z /\ In l chunks)) lines.
Proof.
  induction 1 as [|c chunks lines Hc _ IH|g chunks lines Hg Hw _ IH].
  - constructor.
  - eapply Forall_impl; [|exact IH]. simpl. tauto.
  - constructor.
    + destruct Hw as [Hw | (c & -> & Hw)]; [left; exact Hw|].
      right. simpl. rewrite append_empty. auto.
    + eapply Forall_impl; [|exact IH]. intros l [Hl | [Hl Hi]]; [auto|].
      right. split; [exact Hl|]. apply in_or_app. auto.
Qed.

Lemma wrapped_interleave (chunks lines : list string) :
  wrapped width chunks lines ->
  exists seps,
    List.length seps = S (List.length lines)
    /\ Forall blank seps
    /\ interleave seps lines = Py.cat chunks.
Proof.
  induction 1 as [|c chunks lines Hc _ IH|g chunks lines Hg Hw _ IH].
  - exists [""]. repeat split. repeat constructor.
  - destruct IH as (seps & Hl & Hb & Hi).
    destruct seps as [|s seps]; [discriminate|].
    exists ((c ++ s)%string :: seps). split; [exact Hl|].
    inversion Hb as [|? ? Hs Hb']; subst. split.
    + constructor; [now apply blank_append | exact Hb'].
    + cbn [Py.cat]. rewrite <- Hi. destruct lines; simpl.
      * reflexivity.
      * now rewrite append_assoc.
  - destruct IH as (seps & Hl & Hb & Hi).
    exists ("" :: seps). split; [simpl; now rewrite Hl|].
    split; [constructor; [reflexivity | exact Hb]|].
    cbn [interleave]. rewrite Hi, cat_app. reflexivity.
Qed.
End Wrapped.

(** *** Where the chunker cuts *)

Lemma last_char_append (a b : string) :
  last_char (a ++ b) = match last_char b with
                       | None => last_char a
                       | Some x => Some x
                       end.
Proof.
  induction a as [|c a IH]; simpl.
  - destruct (last_char b); reflexivity.
  - rewrite IH. destruct (last_char b); reflexivity.
Qed.

Lemma last_char_none (a : string) : last_char a = None -> a = "".
Proof.
  destruct a as [|c a]; simpl; [reflexivity|].
  destruct (last_char a); discriminate.
Qed.

Lemma seam_append (p a b : string) :
  a <> "" -> seam a b = true -> seam (p ++ a) b = true.
Proof.
  intros Ha. unfold seam. rewrite last_char_append.
  destruct (last_char a) eqn:E; [auto|].
  apply last_char_none in E. contradiction.
Qed.

Lemma seam_empty_r (a : string) : seam a "" = true.
Proof. unfold seam. destruct (last_char a); reflexivity. Qed.

(** Seamed chunks cut their text at seams only. *)
Lemma seamed_split (l1 : list string) :
  forall l2, seamed (l1 ++ l2) -> seam (Py.cat l1) (Py.cat l2) = true.
Proof.
  induction l1 as [|x l1 IH]; intros l2 H; [reflexivity|].
  destruct H as (Hx & Hs & Hr).
  destruct l1 as [|y l1].
  - simpl in *. rewrite append_empty. exact Hs.
  - cbn [Py.cat]. apply seam_append.
    + intros E. destruct Hr as (Hy & _). simpl in E.
      destruct y; [contradiction | discriminate].
    + apply IH. exact Hr.
Qed.

Lemma dashes_word_two (c : ascii) (r : string) :
  textwrap.dashes_word 0 (String c r) = true ->
  textwrap.is_hyphen c = true
  /\ match r with String z _ => textwrap.is_hyphen z | "" => false end = true.
Proof.
  cbn [textwrap.dashes_word]. destruct (textwrap.is_hyphen c); [|discriminate].
  intros H. split; [reflexivity|]. destruct r as [|z r]; [discriminate|].
  cbn [textwrap.dashes_word] in H.
  destruct (textwrap.is_hyphen z); [reflexivity | discriminate].
Qed.

Lemma last_char_snoc (cur : string) (c : ascii) :
  last_char (cur ++ String c "") = Some c.
Proof. rewrite last_char_append. reflexivity. Qed.

Lemma ends_seam (m : textwrap.mode) (p1 : option ascii) (cur : string)
  (c : ascii) (r : string) :
  scan_inv m p1 cur ->
  textwrap.ends m p1 c (String c r) = true ->
  seam cur (String c r) = true.
Proof.
  unfold seam. destruct m; cbn [scan_inv textwrap.ends].
  - intros ->. reflexivity.
  - intros [<- Hp] _. destruct (last_char cur) as [x|]; [|reflexivity].
    cbn in Hp. rewrite Hp. reflexivity.
  - intros [<- Hp] _. destruct (last_char cur) as [x|]; [|reflexivity].
    cbn [textwrap.before] in Hp. rewrite Hp. rewrite orb_true_r. reflexivity.
  - intros <- H. destruct (last_char cur) as [x|]; [|reflexivity].
    apply orb_true_iff in H as [H | H].
    + rewrite H. rewrite orb_true_r. reflexivity.
    + apply andb_true_iff in H as [_ H].
      apply dashes_word_two in H as [H1 H2].
      rewrite H1, H2. rewrite !orb_true_r. reflexivity.
  - intros [<- Hp] _. destruct (last_char cur) as [x|]; [|reflexivity].
    cbn [textwrap.before] in Hp. rewrite Hp. rewrite orb_true_r. reflexivity.
Qed.

Lemma starts_inv (p1 : option ascii) (c : ascii) (r : string) :
  scan_inv (textwrap.starts p1 c (String c r)) (Some c) (String c "").
Proof.
  unfold textwrap.starts. destruct (textwrap.is_whitespace c) eqn:Ew.
  - split; [reflexivity | exact Ew].
  - destruct (textwrap.before textwrap.is_word_punct p1
              && textwrap.dashes_word 0 (String c r)) eqn:Ed.
    + apply andb_true_iff in Ed as [_ Ed].
      apply dashes_word_two in Ed as [H _].
      split; [reflexivity | exact H].
    + reflexivity.
Qed.

Lemma continues_inv (m : textwrap.mode) (p1 : option ascii) (cur : string)
  (c : ascii) (s : string) :
  textwrap.ends m p1 c s = false ->
  scan_inv m (Some c) (cur ++ String c "").
Proof.
  destruct m; cbn [textwrap.ends scan_inv]; try discriminate.
  - intros H. apply negb_false_iff in H.
    split; [apply last_char_snoc | exact H].
  - intros H. apply negb_false_iff in H.
    split; [apply last_char_snoc | exact H].
  - intros _. apply last_char_snoc.
Qed.

Lemma hyphenates_inv (m : textwrap.mode) (p3 p2 p1 : option ascii)
  (cur : string) (c : ascii) (r : string) :
  textwrap.hyphenates m p3 p2 p1 c r = true ->
  scan_inv textwrap.Closed (Some c) (cur ++ String c "").
Proof.
  destruct m; cbn [textwrap.hyphenates]; try discriminate.
  intros H. apply andb_true_iff in H as [H _].
  apply andb_true_iff in H as [H _].
  split; [apply last_char_snoc | exact H].
Qed.

(** The scan ends a chunk at a seam only: the chunk under way, once
    complete, and the chunks after it are seamed. *)
Lemma split_from_seamed (s : string) :
  forall m p3 p2 p1 cur,
    scan_inv m p1 cur ->
    exists t rest,
      textwrap.split_from m p3 p2 p1 cur s = textwrap.emit (cur ++ t) rest
      /\ seam (cur ++ t) (Py.cat rest) = true
      /\ seamed rest.
Proof.
  induction s as [|c r IH]; intros m p3 p2 p1 cur Hinv.
  - exists "", []. cbn [textwrap.split_from]. rewrite append_empty.
    split; [reflexivity|]. split; [apply seam_empty_r | exact I].
  - cbn [textwrap.split_from].
    destruct (textwrap.hyphenates m p3 p2 p1 c r) eqn:Eh.
    + destruct (IH textwrap.Closed p2 p1 (Some c) (cur ++ String c "")%string
                  (hyphenates_inv _ _ _ _ cur _ _ Eh))
        as (t & rest & E & Hs & Hr).
      exists (String c t), rest. rewrite append_snoc in E, Hs. auto.
    + destruct (textwrap.ends m p1 c (String c r)) eqn:Ee.
      * destruct (IH (textwrap.starts p1 c (String c r)) p2 p1 (Some c)
                    (String c "") (starts_inv p1 c r))
          as (t & rest & E & Hs & Hr).
        exists "", (String c t :: rest). rewrite append_empty, E.
        split; [reflexivity|]. split.
        -- pose proof (split_from_cat r (textwrap.starts p1 c (String c r))
                         p2 p1 (Some c) (String c "")) as C.
           rewrite E, emit_cat in C. cbn [String.append] in C.
           injection C as C. cbn [Py.cat String.append]. rewrite C.
           exact (ends_seam m p1 cur c r Hinv Ee).
        -- split; [discriminate|]. split; [exact Hs | exact Hr].
      * destruct (IH m p2 p1 (Some c) (cur ++ String c "")%string
                    (continues_inv m p1 cur c _ Ee))
          as (t & rest & E & Hs & Hr).
        exists (String c t), rest. rewrite append_snoc in E, Hs. auto.
Qed.

Lemma emit_seamed (cur : string) (rest : list string) :
  seam cur (Py.cat rest) = true -> seamed rest ->
  seamed (textwrap.emit cur rest).
Proof.
  intros Hs Hr. destruct cur; [exact Hr|]. split; [discriminate|]. auto.
Qed.

(** The chunks of [wordsep_re] are seamed. *)
Lemma split_seamed (text : string) : seamed (textwrap.split text).
Proof.
  unfold textwrap.split.
  destruct (split_from_seamed text textwrap.Begin None None None "" eq_refl)
    as (t & rest & -> & Hs & Hr).
  now apply emit_seamed.
Qed.

Lemma cat_single (c : string) : Py.cat [c] = c.
Proof. simpl. apply append_empty. Qed.

(** The lines of a layout of seamed chunks begin and end at seams. *)
Lemma wrapped_cuts (width : Z) (chunks lines : list string) :
  wrapped width chunks lines ->
  forall pre,
    seamed (pre ++ chunks) ->
    exists seps,
      List.length seps = S (List.length lines)
      /\ Forall blank seps
      /\ interleave seps lines = Py.cat chunks
      /\ Forall (fun cut => seam (fst cut) (snd cut) = true)
                (cuts (Py.cat pre) seps lines).
Proof.
  induction 1 as [|c chunks lines Hc _ IH|g chunks lines Hg Hw _ IH];
    intros pre Hs.
  - exists [""]. repeat split; repeat constructor.
  - destruct (IH (pre ++ [c])) as (seps & Hl & Hb & Hi & Hcut).
    { now rewrite <- app_assoc. }
    destruct seps as [|s seps]; [discriminate|].
    exists ((c ++ s)%string :: seps). split; [exact Hl|].
    inversion Hb as [|? ? Hbs Hb']; subst. split.
    { constructor; [now apply blank_append | exact Hb']. }
    split.
    + cbn [Py.cat]. rewrite <- Hi. destruct lines; simpl.
      * reflexivity.
      * now rewrite append_assoc.
    + destruct lines as [|l lines]; [constructor|].
      cbn [cuts] in *. rewrite cat_app, cat_single in Hcut.
      rewrite !append_assoc in Hcut. rewrite !append_assoc. exact Hcut.
  - destruct (IH (pre ++ g)) as (seps & Hl & Hb & Hi & Hcut).
    { now rewrite <- app_assoc. }
    exists ("" :: seps). split; [simpl; now rewrite Hl|].
    split; [constructor; [reflexivity | exact Hb]|].
    split; [cbn [interleave]; rewrite Hi, cat_app; reflexivity|].
    cbn [cuts String.append]. rewrite append_empty, Hi.
    constructor; [|constructor].
    + cbn [fst snd]. rewrite <- cat_app. now apply seamed_split.
    + cbn [fst snd]. rewrite <- cat_app. apply seamed_split.
      now rewrite <- app_assoc.
    + rewrite <- cat_app. exact Hcut.
Qed.

Lemma expandtabs_no_tab (tabsize : nat) (s : string) :
  lacks "009" s -> Py.expandtabs s tabsize = s.
Proof.
  unfold Py.expandtabs. generalize 0. induction s as [|c s IH]; intros col; simpl.
  - reflexivity.
  - intros [Hc Hs]. apply Ascii.eqb_neq in Hc. rewrite Hc, (IH _ Hs). reflexivity.
Qed.

(** C3, as the code has it.  For a positive width the wrap returns
    lines such that: every line is at most [width] characters long or is
    a single chunk of the text that is itself longer than [width]; every
    line is a run of whole consecutive chunks of [wordsep_re]; the lines,
    put back between separators made of the blank chunks that were
    dropped at the wrap points, give the text with its tabs expanded,
    which is the text itself when it holds no tab; and in that text every
    line begins and ends at a seam: at an end of the text, next to a
    whitespace character, just after a hyphen or just before two
    hyphens.  So a word is cut nowhere but at its hyphens. *)
Theorem wrap_text_lines (string : string) (width : Z) :
  (0 < width)%Z ->
  exists lines,
    wrap_text (W := wordsep_re) string width = Ok lines
    /\ wrapped width (textwrap.split (Py.expandtabs string 8)) lines
    /\ Forall (fun l => (Py.len l <= width)%Z
                        \/ ((width < Py.len l)%Z
                            /\ In l (textwrap.split (Py.expandtabs string 8))))
              lines
    /\ exists seps,
        List.length seps = S (List.length lines)
        /\ Forall blank seps
        /\ interleave seps lines = Py.expandtabs string 8
        /\ (lacks "009" string -> interleave seps lines = string)
        /\ Forall (fun cut => seam (fst cut) (snd cut) = true)
                  (cuts "" seps lines).
Proof.
  intros Hw. unfold wrap_text, textwrap.wrap, textwrap.wrap_chunks.
  destruct (width <=? 0)%Z eqn:E; [apply Z.leb_le in E; lia|].
  cbn [wordsep_split wordsep_re].
  destruct (wrap_loop_spec width (textwrap.split (Py.expandtabs string 8)) [])
    as (dl & El & Wl).
  cbn [app] in El. exists dl. rewrite El. split; [reflexivity|].
  split; [exact Wl|]. split; [now apply wrapped_widths|].
  destruct (wrapped_cuts width _ _ Wl [] (split_seamed _))
    as (seps & Hl & Hb & Hi & Hcut).
  exists seps. rewrite split_cat in Hi. repeat split; auto.
  intros Ht. now rewrite Hi, expandtabs_no_tab.
Qed.

Lemma wrap_text_lines_witness :
  (0 < 7)%Z
  /\ exists lines,
      wrap_text (W := wordsep_re) "Wednesday   from   13 June 2018" 7
      = Ok lines
      /\ exists seps,
          List.length seps = S (List.length lines)
          /\ interleave seps lines = "Wednesday   from   13 June 2018"
          /\ Forall (fun cut => seam (fst cut) (snd cut) = true)
                    (cuts "" seps lines).
Proof.
  split; [reflexivity|].
  destruct (wrap_text_lines "Wednesday   from   13 June 2018" 7 eq_refl)
    as (lines & E & _ & _ & seps & L & _ & _ & R & C).
  exists lines. split; [exact E|]. exists seps. split; [exact L|].
  split; [|exact C].
  apply R. simpl. repeat split; discriminate.
Defined.

(** C3, as it is worded, fails twice: wrapped at 7 characters, the
    string of a Wednesday collection keeps the nine characters of
    "Wednesday" on one line, and "well-known" is split after its
    hyphen. *)
Lemma wrap_text_line_exceeds_width :
  (wrap_text (W := wordsep_re) "Wednesday   from   13 June 2018" 7
   = Ok ["Wednesday"; "from"; "13 June"; "2018"]
   /\ ~ Forall (fun l => (Py.len l <= 7)%Z)
               ["Wednesday"; "from"; "13 June"; "2018"])
  /\ wrap_text (W := wordsep_re) "well-known fact" 7
     = Ok ["well-"; "known"; "fact"].
Proof.
  split; [split|]; [vm_compute; reflexivity| |vm_compute; reflexivity].
  intros H. inversion H as [|? ? H1 _]. vm_compute in H1.
  apply H1. reflexivity.
Qed.

(** * Further properties of the program *)

(** ** The index remap of the calendar card *)

(** X1. The remap of [CalendarImage.__init__] is its own inverse on the
    indices it knows, never leaves an index in place and stays within
    1 to 4. *)
Theorem init_index_involution (index m : Z) :
  CalendarImage.init_index index = Some m ->
  CalendarImage.init_index m = Some index
  /\ m <> index /\ (1 <= m <= 4)%Z /\ (1 <= index <= 4)%Z.
Proof.
  unfold CalendarImage.init_index.
  destruct (Z.eqb_spec index 1) as [->|N1]; [intros [= <-]; repeat split; lia|].
  destruct (Z.eqb_spec index 2) as [->|N2]; [intros [= <-]; repeat split; lia|].
  destruct (Z.eqb_spec index 3) as [->|N3]; [intros [= <-]; repeat split; lia|].
  destruct (Z.eqb_spec index 4) as [->|N4]; [intros [= <-]; repeat split; lia|].
  discriminate.
Qed.

Lemma init_index_involution_witness :
  CalendarImage.init_index 3 = Some 4%Z
  /\ CalendarImage.init_index 4 = Some 3%Z.
Proof.
  split; [reflexivity|].
  exact (proj1 (init_index_involution 3 4 eq_refl)).
Defined.

Lemma init_index_outside (index : Z) :
  (index < 1 \/ 4 < index)%Z -> CalendarImage.init_index index = None.
Proof.
  intros H. unfold CalendarImage.init_index.
  destruct (Z.eqb_spec index 1); [lia|]. destruct (Z.eqb_spec index 2); [lia|].
  destruct (Z.eqb_spec index 3); [lia|]. destruct (Z.eqb_spec index 4); [lia|].
  reflexivity.
Qed.

(** X2. An index outside 1 to 4 leaves [self.index] unset, and the
    constructor of the calendar card raises [AttributeError], whatever
    the calendar. *)
Theorem calendar_card_index_out_of_range {W : WordSep} (g c : Calendar.t)
  (index : Z) :
  (index < 1 \/ 4 < index)%Z ->
  CalendarImage.init g c index = Raise AttributeError.
Proof.
  intros H. apply init_index_outside in H.
  unfold CalendarImage.init, CalendarImage.load_calendar_image.
  cbn [CalendarImage.calendar].
  destruct (String.eqb (Calendar.recycling_box_str c) ""); [|reflexivity].
  unfold CalendarImage.build_calendar_image.
  cbn [CalendarImage.image_type CalendarImage.calendar_image
       CalendarImage.index CalendarImage.calendar CalendarImage.index_font
       CalendarImage.calendar_font Py.getattr bind].
  cbn [String.eqb Ascii.eqb Bool.eqb andb].
  destruct (wrap_text_ok (Calendar.black_bin_str g) 7 eq_refl) as [l1 ->].
  destruct (wrap_text_ok (Calendar.recycling_bin_str g) 7 eq_refl) as [l2 ->].
  destruct (wrap_text_ok (Calendar.recycling_box_str g) 7 eq_refl) as [l3 ->].
  destruct (wrap_text_ok (Calendar.green_bin_str g) 7 eq_refl) as [l4 ->].
  rewrite H. reflexivity.
Qed.

Lemma calendar_card_index_out_of_range_witness :
  CalendarImage.init (W := wordsep_re) same_day_calendar
    same_day_calendar 5 = Raise AttributeError
  /\ CalendarImage.init (W := wordsep_re) same_day_calendar
       same_day_calendar 0 = Raise AttributeError.
Proof.
  split; apply (calendar_card_index_out_of_range (W := wordsep_re)); lia.
Defined.

(** ** When a calendar and an address can be made *)

Lemma from_june_inv (day : option string) (week : option Z) (s : string) :
  Calendar.from_june day week day = Ok s -> stream_ok day week.
Proof.
  unfold Calendar.from_june, Calendar.times7, Calendar.dates_item, bind.
  destruct week as [w|]; [|discriminate].
  destruct day as [d|]; [|discriminate].
  destruct (Calendar.lookup Calendar.dates d) as [i|] eqn:E; [|discriminate].
  intros _. exists d, i, w. auto.
Qed.

(** X3. A calendar is made for a UPRN exactly when the query returns a
    row whose refuse and recycling streams have a weekday from Monday to
    Friday and a week number, and whose garden-waste day is NULL or such
    a stream as well. *)
Theorem calendar_made_iff (CONN : database) (uprn : string) :
  (exists c, Calendar.init CONN uprn = Ok c)
  <-> exists r,
      CONN uprn = Some r
      /\ stream_ok (REFDay r) (REFWeek r)
      /\ stream_ok (RECYDay r) (RECYWeek r)
      /\ (GWDay r = None \/ stream_ok (GWDay r) (GWWeek r)).
Proof.
  split.
  - intros [c H]. unfold Calendar.init, Calendar.get_calendar_data in H.
    destruct (CONN uprn) as [r|]; [|discriminate]. exists r.
    split; [reflexivity|]. cbn [Py.getattr bind] in H.
    unfold Calendar.format_calendar_strings in H.
    cbn [Calendar.d_black_bin_day Calendar.d_black_bin_week
         Calendar.d_recycling_bin_day Calendar.d_recycling_bin_week
         Calendar.d_recycling_box_day Calendar.d_recycling_box_week
         Calendar.d_green_bin_day Calendar.d_green_bin_week] in H.
    destruct (Calendar.from_june (REFDay r) _ _) as [s1|] eqn:E1;
      [|discriminate].
    destruct (Calendar.from_june (RECYDay r) _ _) as [s2|] eqn:E2;
      [|discriminate].
    split; [eapply from_june_inv; eauto|].
    split; [eapply from_june_inv; eauto|].
    cbn [bind] in H.
    destruct (if Calendar.option_string_eqb _ _ then _ else _);
      [|discriminate]. cbn [bind] in H.
    destruct (GWDay r) as [d|] eqn:Eg; [|auto]. right.
    destruct (Calendar.from_june (Some d) _ _) as [s3|] eqn:E3;
      [|discriminate].
    eapply from_june_inv; eauto.
  - intros (r & Hr & H1 & H2 & H3).
    destruct (Calendar_init_ok CONN uprn r Hr H1 H2 H3) as (c & Hc & _).
    eauto.
Qed.

(** X4. How the constructor of a calendar fails: on a UPRN without a
    row it raises [AttributeError]; on a NULL refuse week [TypeError],
    before the day is looked at; on a refuse day that is NULL or no key
    of [dates], with a week present, [KeyError]. *)
Theorem calendar_failures (CONN : database) (uprn : string) :
  (CONN uprn = None -> Calendar.init CONN uprn = Raise AttributeError)
  /\ (forall r, CONN uprn = Some r -> REFWeek r = None ->
                Calendar.init CONN uprn = Raise TypeError)
  /\ (forall r w, CONN uprn = Some r -> REFWeek r = Some w ->
                  (forall d, REFDay r = Some d ->
                             Calendar.lookup Calendar.dates d = None) ->
                  Calendar.init CONN uprn = Raise KeyError).
Proof.
  unfold Calendar.init, Calendar.get_calendar_data.
  split; [intros ->; reflexivity|]. split.
  - intros r -> Hw. cbn [Py.getattr bind].
    unfold Calendar.format_calendar_strings, Calendar.from_june.
    cbn [Calendar.d_black_bin_day Calendar.d_black_bin_week].
    rewrite Hw. reflexivity.
  - intros r w -> Hw Hd. cbn [Py.getattr bind].
    unfold Calendar.format_calendar_strings, Calendar.from_june.
    cbn [Calendar.d_black_bin_day Calendar.d_black_bin_week].
    rewrite Hw. cbn [Calendar.times7 bind]. unfold Calendar.dates_item.
    destruct (REFDay r) as [d|]; [|reflexivity].
    rewrite (Hd d eq_refl). reflexivity.
Qed.

(** ** The address block *)

Lemma replace_br_lacks (new a s : string) :
  lacks "<" a ->
  Py.replace_from 0 "<br>" new (a ++ s)
  = (a ++ Py.replace_from 0 "<br>" new s)%string.
Proof.
  induction a as [|c a IH]; [reflexivity|].
  intros [Hc Ha]. cbn [String.append Py.replace_from Py.startswith].
  apply Ascii.eqb_neq in Hc. rewrite Hc. cbn [andb]. now rewrite (IH Ha).
Qed.

Lemma startswith_empty (s : string) : Py.startswith s "" = true.
Proof. destruct s; reflexivity. Qed.

Lemma replace_br_here (new s : string) :
  Py.replace_from 0 "<br>" new ("<br>" ++ s)
  = (new ++ Py.replace_from 0 "<br>" new s)%string.
Proof. cbn. now rewrite startswith_empty. Qed.

Lemma replace_br_join (new : string) (lines : list string) :
  Forall (lacks "<") lines ->
  Py.replace (Py.join "<br>" lines) "<br>" new = Py.join new lines.
Proof.
  unfold Py.replace. induction lines as [|x lines IH]; [reflexivity|].
  intros H. inversion H as [|? ? Hx Hl]; subst.
  destruct lines as [|y lines].
  - cbn [Py.join String.concat]. rewrite <- (append_empty x) at 1.
    rewrite (replace_br_lacks _ _ _ Hx). cbn. apply append_empty.
  - change (Py.join "<br>" (x :: y :: lines))
      with (x ++ "<br>" ++ Py.join "<br>" (y :: lines))%string.
    rewrite (replace_br_lacks _ _ _ Hx), replace_br_here, (IH Hl).
    reflexivity.
Qed.

(** X5. An address block of lines separated by [<br>], none of which
    holds a ['<'], becomes the same lines separated by line feeds: N
    breaks give N+1 lines, each unchanged. *)
Theorem address_block_lines (CONN : database) (uprn : string) (r : Row)
  (lines : list string) :
  CONN uprn = Some r ->
  addressBlock r = Some (Py.join "<br>" lines) ->
  Forall (lacks "<") lines ->
  Address.init CONN uprn
  = Ok {| Address.uprn := uprn;
          Address.address_block := Py.join (String "010" "") lines |}.
Proof.
  intros Hr Hb Hl. unfold Address.init, Address.get_address_data.
  rewrite Hr. cbn [Py.getattr bind]. rewrite Hb.
  unfold Address.format_address_string. cbn [Py.getattr bind].
  now rewrite (replace_br_join _ _ Hl).
Qed.

Lemma address_block_lines_witness :
  Address.init sample_db "100012345678"
  = Ok {| Address.uprn := "100012345678";
          Address.address_block :=
            Py.join (String "010" "") ["1 High Street"; "Anytown"; "AB1 2CD"] |}.
Proof.
  apply (address_block_lines sample_db "100012345678" sample_row
           ["1 High Street"; "Anytown"; "AB1 2CD"]).
  - reflexivity.
  - reflexivity.
  - repeat constructor; simpl; repeat split; discriminate.
Defined.

(** An address cannot be made for a UPRN without a row or with a NULL
    address block: the constructor raises [AttributeError], and it
    raises nothing else. *)
Lemma address_failures (CONN : database) (uprn : string) :
  ((CONN uprn = None \/ exists r, CONN uprn = Some r /\ addressBlock r = None)
   <-> Address.init CONN uprn = Raise AttributeError)
  /\ forall e, Address.init CONN uprn = Raise e -> e = AttributeError.
Proof.
  unfold Address.init, Address.get_address_data, Address.format_address_string.
  destruct (CONN uprn) as [r|]; cbn [Py.getattr bind].
  - destruct (addressBlock r) as [b|] eqn:E; cbn [Py.getattr bind].
    + split; [|discriminate]. split; [|discriminate].
      intros [H | (r' & [= <-] & H)]; congruence.
    + split; [|congruence]. split; [reflexivity|]. intros _. right. eauto.
  - split; [|congruence]. split; [reflexivity | auto].
Qed.

(** ** The two sides taken alone *)

Lemma prepend_uprns_rev (l : list AddressImage.t) (filename : list string) :
  AddressSide.prepend_uprns l filename
  = rev (map (fun i => Address.uprn (AddressImage.address i)) l) ++ filename.
Proof.
  revert filename. induction l as [|i l IH]; intros filename; [reflexivity|].
  cbn [AddressSide.prepend_uprns map rev]. rewrite IH, <- app_assoc. reflexivity.
Qed.

Lemma positions_index (position : nat) :
  (position < 4 -> exists xy, Py.index positions position = Ok xy)
  /\ (4 <= position -> Py.index positions position = Raise IndexError).
Proof.
  unfold Py.index, positions.
  destruct position as [|[|[|[|p]]]]; cbn [nth_error];
    try (split; intros; [eauto | lia]).
  split; intros; [lia | destruct p; reflexivity].
Qed.

Lemma build_address_side_fits (l : list AddressImage.t) :
  forall position sheet,
    position + List.length l <= 4 ->
    exists sheet', AddressSide.build_address_side position l sheet = Ok sheet'.
Proof.
  induction l as [|i l IH]; intros position sheet H; cbn [AddressSide.build_address_side].
  - eauto.
  - cbn [List.length] in H.
    destruct (proj1 (positions_index position)) as [xy ->]; [lia|].
    cbn [bind]. apply IH. lia.
Qed.

Lemma build_address_side_over (l : list AddressImage.t) :
  forall position sheet,
    position <= 4 -> 4 < position + List.length l ->
    AddressSide.build_address_side position l sheet = Raise IndexError.
Proof.
  induction l as [|i l IH]; intros position sheet Hp H;
    cbn [AddressSide.build_address_side List.length] in *; [lia|].
  destruct (Nat.eq_dec position 4) as [->|N].
  - reflexivity.
  - destruct (proj1 (positions_index position)) as [xy ->]; [lia|].
    cbn [bind]. apply IH; lia.
Qed.

(** X7. The address side takes up to four cards: with cards whose
    UPRNs are numbers it is saved under the UPRNs of its cards in
    reverse order and the tag [addr], joined by ['-']; with more than
    four cards it raises [IndexError] and saves nothing. *)
Theorem address_side_name (l : list AddressImage.t) (w : world) :
  (List.length l <= 4 ->
   Forall (fun i => is_uprn (Address.uprn (AddressImage.address i)) = true) l ->
   exists w' side,
     AddressSide.init l w = (w', Ok side)
     /\ AddressSide.new_file side
        = ("./out/"
           ++ Py.join "-"
                (rev (map (fun i => Address.uprn (AddressImage.address i)) l)
                 ++ ["addr"])
           ++ ".jpg")%string
     /\ In (Py.join "-"
              (rev (map (fun i => Address.uprn (AddressImage.address i)) l)
               ++ ["addr"]) ++ ".jpg")%string
           (map fst (out_dir w')))
  /\ (4 < List.length l -> AddressSide.init l w = (w, Raise IndexError)).
Proof.
  unfold AddressSide.init, iobind, lift, save_image, ret. split.
  - intros H _.
    destruct (build_address_side_fits l 0 (PIL.open_sheet "./in/blank_sra3.jpg"))
      as [sheet ->]; [simpl; lia|].
    rewrite prepend_uprns_rev. do 2 eexists. split; [reflexivity|].
    cbn [AddressSide.new_file out_dir]. split; [reflexivity | apply write_In].
  - intros H. rewrite build_address_side_over; [reflexivity | lia | simpl; lia].
Qed.

Lemma address_side_name_witness :
  let card u n :=
    AddressImage.init {| Address.uprn := u; Address.address_block := "1 High Street" |} n in
  exists w' side,
    AddressSide.init [card "100012345671" 1%Z; card "100012345672" 2%Z] empty_world
    = (w', Ok side)
    /\ AddressSide.new_file side = "./out/100012345672-100012345671-addr.jpg"
    /\ In "100012345672-100012345671-addr.jpg" (map fst (out_dir w')).
Proof.
  intros card.
  apply (proj1 (address_side_name
                  [card "100012345671" 1%Z; card "100012345672" 2%Z] empty_world)).
  - simpl. lia.
  - repeat constructor.
Defined.

Lemma build_calendar_side_fits (l : list CalendarImage.t) :
  forall position sheet,
    Forall (fun i => CalendarImage.image i <> None) l ->
    position + List.length l <= 4 ->
    exists sheet', CalendarSide.build_calendar_side position l sheet = Ok sheet'.
Proof.
  induction l as [|i l IH]; intros position sheet F H;
    cbn [CalendarSide.build_calendar_side].
  - eauto.
  - cbn [List.length] in H. inversion F as [|? ? Hi Fl]; subst.
    destruct (CalendarImage.image i) as [card|]; [|congruence].
    cbn [Py.getattr bind].
    destruct (proj1 (positions_index position)) as [xy ->]; [lia|].
    cbn [bind]. apply IH; [exact Fl | lia].
Qed.

Lemma build_calendar_side_over (l : list CalendarImage.t) :
  forall position sheet,
    Forall (fun i => CalendarImage.image i <> None) l ->
    position <= 4 -> 4 < position + List.length l ->
    CalendarSide.build_calendar_side position l sheet = Raise IndexError.
Proof.
  induction l as [|i l IH]; intros position sheet F Hp H;
    cbn [CalendarSide.build_calendar_side List.length] in *; [lia|].
  inversion F as [|? ? Hi Fl]; subst.
  destruct (CalendarImage.image i) as [card|]; [|congruence].
  cbn [Py.getattr bind].
  destruct (Nat.eq_dec position 4) as [->|N].
  - reflexivity.
  - destruct (proj1 (positions_index position)) as [xy ->]; [lia|].
    cbn [bind]. apply IH; [exact Fl | lia | lia].
Qed.

(** X8. The calendar side takes exactly four finished cards: with fewer
    or more it raises [IndexError] and saves nothing. *)
Theorem calendar_side_needs_four (l : list CalendarImage.t) (w : world) :
  Forall (fun i => CalendarImage.image i <> None) l ->
  List.length l <> 4 ->
  CalendarSide.init l w = (w, Raise IndexError).
Proof.
  intros F H. unfold CalendarSide.init, iobind, lift.
  destruct (Nat.lt_ge_cases 4 (List.length l)) as [Hgt | Hle].
  - rewrite build_calendar_side_over; [reflexivity | exact F | lia | simpl; lia].
  - destruct (build_calendar_side_fits l 0 (PIL.open_sheet "./in/blank_sra3.jpg") F)
      as [sheet ->]; [simpl; lia|].
    destruct l as [|a [|b [|c [|d [|e l]]]]]; cbn [List.length] in *;
      try reflexivity; lia.
Qed.

Lemma calendar_side_needs_four_witness :
  CalendarSide.init [] empty_world = (empty_world, Raise IndexError).
Proof.
  apply calendar_side_needs_four; [constructor | discriminate].
Defined.

(** ** One group: both sheets or none *)

Lemma CalendarImage_init_image {W : WordSep} (g c : Calendar.t) (index : Z)
  (ci : CalendarImage.t) :
  CalendarImage.init g c index = Ok ci ->
  CalendarImage.image ci <> None.
Proof.
  unfold CalendarImage.init.
  destruct (CalendarImage.build_calendar_image _ _); [|discriminate].
  intros [= <-]. discriminate.
Qed.

Lemma calendar_card_of {W : WordSep} (CONN : database) (number : Z)
  (uprn : string) (ci : CalendarImage.t) :
  (calendar <- Calendar.init CONN uprn ;;
   CalendarImage.init calendar calendar number) = Ok ci ->
  CalendarImage.image ci <> None.
Proof.
  destruct (Calendar.init CONN uprn) as [c|]; [|discriminate].
  cbn [bind]. apply CalendarImage_init_image.
Qed.

Lemma join_snoc (sep : string) (l : list string) (x : string) :
  l <> [] -> Py.join sep (l ++ [x]) = (Py.join sep l ++ sep ++ x)%string.
Proof.
  induction l as [|a l IH]; [congruence|]. intros _.
  destruct l as [|b l]; [reflexivity|].
  change (Py.join sep ((a :: b :: l) ++ [x]))
    with (a ++ sep ++ Py.join sep ((b :: l) ++ [x]))%string.
  rewrite IH by discriminate.
  change (Py.join sep (a :: b :: l)) with (a ++ sep ++ Py.join sep (b :: l))%string.
  now rewrite !append_assoc.
Qed.

Lemma endswith_append (p suffix : string) :
  Py.endswith (p ++ suffix) suffix = true.
Proof.
  induction p as [|c p IH].
  - destruct suffix; cbn [String.append Py.endswith]; now rewrite String.eqb_refl.
  - cbn [String.append Py.endswith]. rewrite IH.
    now destruct (String.eqb _ _).
Qed.

Lemma mapM_length {A B : Type} (f : A -> outcome B) (l : list A) (bs : list B) :
  mapM f l = Ok bs -> List.length bs = List.length l.
Proof.
  revert bs. induction l as [|a l IH]; intros bs; cbn [mapM].
  - intros [= <-]. reflexivity.
  - destruct (f a); [|discriminate]. cbn [bind].
    destruct (mapM f l) as [bs'|]; [|discriminate]. cbn [bind].
    intros [= <-]. cbn [List.length]. now rewrite (IH bs' eq_refl).
Qed.

Lemma enumerate_length {A : Type} (l : list A) (start : Z) :
  List.length (Py.enumerate l start) = List.length l.
Proof.
  revert start. induction l as [|a l IH]; intros start; [reflexivity|].
  cbn [Py.enumerate List.length]. now rewrite IH.
Qed.

Ltac raised := left; eexists; reflexivity.

(** The states a group can leave: the one it found, or that one with
    the address sheet and then the calendar sheet written, and both
    paths printed. *)
Lemma process_group_cases {W : WordSep} (CONN : database) (index : Z)
  (uprn_list : list string) (w : world) :
  (exists e, process_group CONN index uprn_list w = (w, Raise e))
  \/ (exists pa pc sa sc la lc,
         process_group CONN index uprn_list w
         = ({| out_dir := write (pc ++ "-cal.jpg")%string sc
                            (write (pa ++ "-addr.jpg")%string sa (out_dir w));
               pdfs := pdfs w;
               stdout := (stdout w ++ [la]) ++ [lc] |}, Ok tt)).
Proof.
  unfold process_group, iobind, lift.
  destruct (Py.index uprn_list 1) as [u1|] eqn:I1; [|raised].
  destruct (Py.index uprn_list 0) as [u0|]; [|raised].
  destruct (Py.index uprn_list 3) as [u3|]; [|raised].
  destruct (Py.index uprn_list 2) as [u2|]; [|raised].
  destruct (mapM _ (Py.enumerate uprn_list 1)) as [address_images|] eqn:EA;
    [|raised].
  cbn [Py.enumerate mapM].
  destruct (bind (Calendar.init CONN u1) _) as [i1|] eqn:E1;
    [|cbn [bind]; raised].
  cbn [bind].
  destruct (bind (Calendar.init CONN u0) _) as [i2|] eqn:E2;
    [|cbn [bind]; raised].
  cbn [bind].
  destruct (bind (Calendar.init CONN u3) _) as [i3|] eqn:E3;
    [|cbn [bind]; raised].
  cbn [bind].
  destruct (bind (Calendar.init CONN u2) _) as [i4|] eqn:E4;
    [|cbn [bind]; raised].
  cbn [bind].
  apply calendar_card_of in E1, E2, E3, E4.
  unfold AddressSide.init, iobind, lift, save_image, ret.
  destruct (AddressSide.build_address_side 0 address_images _) as [sa|];
    [|raised].
  right.
  unfold CalendarSide.init, iobind, lift, save_image, ret, print.
  destruct (build_calendar_side_fits [i1; i2; i3; i4] 0
              (PIL.open_sheet "./in/blank_sra3.jpg")) as [sc ->];
    [repeat constructor; assumption | simpl; lia |].
  cbn [map Py.index nth_error out_dir pdfs stdout].
  assert (NA : address_images <> []).
  { apply mapM_length in EA. rewrite enumerate_length in EA.
    unfold Py.index in I1. destruct uprn_list; [discriminate|].
    destruct address_images; discriminate. }
  rewrite prepend_uprns_rev.
  rewrite join_snoc
    by (destruct address_images; [congruence | cbn [map rev];
        intros C; apply app_eq_nil in C as [_ C]; discriminate]).
  change (Py.join "-" [?a; ?b; ?c; ?d; "cal"]) with (Py.join "-" ([a; b; c; d] ++ ["cal"])).
  rewrite join_snoc by discriminate.
  rewrite !append_assoc.
  do 6 eexists.
  change ("-" ++ "addr" ++ ".jpg")%string with "-addr.jpg".
  change ("-" ++ "cal" ++ ".jpg")%string with "-cal.jpg".
  reflexivity.
Qed.

(** X9. A group never leaves one sheet without the other: either it
    raises and the files are as they were, or it ends normally and both
    the address sheet and the calendar sheet are in [./out]. *)
Theorem group_writes_both_or_none {W : WordSep} (CONN : database) (index : Z)
  (uprn_list : list string) (w : world) :
  (exists e, process_group CONN index uprn_list w = (w, Raise e))
  \/ (exists w' na nc,
         process_group CONN index uprn_list w = (w', Ok tt)
         /\ Py.endswith na "-addr.jpg" = true
         /\ Py.endswith nc "-cal.jpg" = true
         /\ In na (map fst (out_dir w'))
         /\ In nc (map fst (out_dir w'))
         /\ pdfs w' = pdfs w).
Proof.
  destruct (process_group_cases CONN index uprn_list w)
    as [H | (pa & pc & sa & sc & la & lc & E)]; [left; exact H | right].
  eexists. exists (pa ++ "-addr.jpg")%string, (pc ++ "-cal.jpg")%string.
  split; [exact E|]. cbn [out_dir pdfs].
  split; [apply endswith_append|]. split; [apply endswith_append|].
  split; [apply write_keeps, write_In|]. split; [apply write_In | reflexivity].
Qed.

Lemma write_names {A : Type} (name other : string) (a : A)
  (dir : list (string * A)) :
  In other (map fst (write name a dir))
  <-> other = name \/ In other (map fst dir).
Proof.
  induction dir as [|[n b] dir IH]; cbn [write map fst In].
  - intuition congruence.
  - destruct (String.eqb_spec n name) as [->|N]; cbn [map fst In].
    + intuition congruence.
    + rewrite IH. intuition congruence.
Qed.

Lemma convert_to_pdf_ok (w : world) :
  exists w',
    convert_to_pdf w = (w', Ok tt)
    /\ out_dir w' = out_dir w
    /\ pdfs w'
       = pdfs w ++ spec_documents 1
           (chunked 150 (Py.sorted (map (path_join "./out")
                                        (map fst (out_dir w))))).
Proof. exact (merge_chunked _ 0 None w). Qed.

Lemma mapM_raises {A B : Type} (f : A -> outcome B) (l : list A) (e0 : exn) :
  (forall a e, f a = Raise e -> e = e0) ->
  (exists a e, In a l /\ f a = Raise e) ->
  mapM f l = Raise e0.
Proof.
  intros Only. induction l as [|x l IH]; intros (a & e & Ha & Fa).
  - destruct Ha.
  - cbn [mapM]. destruct (f x) as [b|e'] eqn:Fx.
    + cbn [bind]. destruct Ha as [<- | Ha]; [congruence|].
      rewrite IH by eauto. reflexivity.
    + cbn [bind]. now rewrite (Only x e' Fx).
Qed.

(** X6. A group of four in which some UPRN has no row, or a NULL
    address block, stops with [AttributeError] while the addresses are
    fetched: no calendar is fetched and no sheet is written. *)
Theorem group_without_address (CONN : database) {W : WordSep} (index : Z)
  (u0 u1 u2 u3 : string) (w : world) :
  (exists u, In u [u0; u1; u2; u3]
             /\ (CONN u = None
                 \/ exists r, CONN u = Some r /\ addressBlock r = None)) ->
  process_group CONN index [u0; u1; u2; u3] w = (w, Raise AttributeError).
Proof.
  intros (u & Hu & Hn). unfold process_group, iobind, lift.
  cbn [Py.index nth_error].
  rewrite (mapM_raises _ _ AttributeError); [reflexivity | |].
  - intros [number uprn] e.
    destruct (Address.init CONN uprn) as [a|e'] eqn:E; cbn [bind];
      [discriminate|].
    intros [= <-]. exact (proj2 (address_failures CONN uprn) e' E).
  - apply (proj1 (proj1 (address_failures CONN u))) in Hn.
    assert (In1 : forall k, exists n, In (n, u) (Py.enumerate [u0; u1; u2; u3] k)).
    { intros k. cbn [Py.enumerate].
      destruct Hu as [<- | [<- | [<- | [<- | []]]]]; eexists; simpl; eauto 6. }
    destruct (In1 1%Z) as [n Hin].
    exists (n, u), AttributeError. split; [exact Hin|]. now rewrite Hn.
Qed.

Lemma group_without_address_witness :
  process_group (fun u => if String.eqb u "1003" then None else Some sample_row)
    (W := wordsep_re) 1 ["1001"; "1002"; "1003"; "1004"] empty_world
  = (empty_world, Raise AttributeError).
Proof.
  apply group_without_address. exists "1003". split; [simpl; auto|].
  left. reflexivity.
Defined.

(** ** The order of the merge *)

Lemma str_le_trans (a b c : string) : str_le a b -> str_le b c -> str_le a c.
Proof.
  unfold str_le, String.leb. revert b c.
  induction a as [|x a IH]; intros [|y b] [|z c]; cbn [String.compare];
    try (intros; reflexivity); try discriminate.
  unfold Ascii.compare.
  destruct (N.compare_spec (N_of_ascii x) (N_of_ascii y)) as [Exy|Lxy|Gxy];
    destruct (N.compare_spec (N_of_ascii y) (N_of_ascii z)) as [Eyz|Lyz|Gyz];
    destruct (N.compare_spec (N_of_ascii x) (N_of_ascii z)) as [Exz|Lxz|Gxz];
    try discriminate; try reflexivity; try lia.
  apply IH.
Qed.

Lemma str_le_antisym (a b : string) : str_le a b -> str_le b a -> a = b.
Proof. apply String.leb_antisym. Qed.

Lemma sorted_head_least (x : string) (l : list string) :
  Sorted str_le (x :: l) -> forall y, In y (x :: l) -> str_le x y.
Proof.
  intros S. apply Sorted_StronglySorted in S;
    [|intros a b c; apply str_le_trans].
  inversion S as [|? ? _ F]; subst. intros y [<- | Hy].
  - destruct (String.leb_total x x); assumption.
  - rewrite Forall_forall in F. now apply F.
Qed.

Lemma sorted_unique (l1 l2 : list string) :
  Sorted str_le l1 -> Sorted str_le l2 -> Permutation l1 l2 -> l1 = l2.
Proof.
  revert l2. induction l1 as [|x l1 IH]; intros l2 S1 S2 P.
  - apply Permutation_nil in P. now subst.
  - destruct l2 as [|y l2];
      [apply Permutation_sym, Permutation_nil in P; discriminate|].
    assert (x = y).
    { apply str_le_antisym.
      - apply (sorted_head_least x l1 S1). apply (Permutation_in _ (Permutation_sym P)).
        now left.
      - apply (sorted_head_least y l2 S2). apply (Permutation_in _ P). now left. }
    subst y. f_equal. apply IH.
    + now inversion S1.
    + now inversion S2.
    + now apply Permutation_cons_inv in P.
Qed.

Lemma sorted_permutation (l1 l2 : list string) :
  Permutation l1 l2 -> Py.sorted l1 = Py.sorted l2.
Proof.
  intros P. apply sorted_unique; try apply sorted_sorted.
  rewrite !sorted_perm. exact P.
Qed.

(** X11. The documents do not depend on the order in which the directory
    lists its files: two listings of the same files give the same
    documents, page for page. *)
Theorem merge_ignores_listing_order (w1 w2 : world) :
  Permutation (map fst (out_dir w1)) (map fst (out_dir w2)) ->
  pdfs w1 = pdfs w2 ->
  pdfs (fst (convert_to_pdf w1)) = pdfs (fst (convert_to_pdf w2))
  /\ snd (convert_to_pdf w1) = snd (convert_to_pdf w2).
Proof.
  intros P E.
  destruct (convert_to_pdf_ok w1) as (w1' & -> & _ & P1).
  destruct (convert_to_pdf_ok w2) as (w2' & -> & _ & P2).
  cbn [fst snd]. split; [|reflexivity].
  rewrite P1, P2, E. do 3 f_equal. apply sorted_permutation.
  now apply Permutation_map.
Qed.

Lemma merge_ignores_listing_order_witness :
  let w1 := {| out_dir := [("b-addr.jpg", PIL.open_sheet "x");
                           ("a-cal.jpg", PIL.open_sheet "y")];
               pdfs := []; stdout := [] |} in
  let w2 := {| out_dir := [("a-cal.jpg", PIL.open_sheet "y");
                           ("b-addr.jpg", PIL.open_sheet "x")];
               pdfs := []; stdout := [] |} in
  pdfs (fst (convert_to_pdf w1)) = pdfs (fst (convert_to_pdf w2))
  /\ snd (convert_to_pdf w1) = snd (convert_to_pdf w2).
Proof.
  apply merge_ignores_listing_order; [apply perm_swap | reflexivity].
Defined.

Lemma spec_documents_length (n : nat) (chunks : list (list string)) :
  List.length (spec_documents n chunks) = List.length chunks.
Proof.
  revert n. induction chunks as [|c r IH]; intros n; simpl; [reflexivity|].
  now rewrite IH.
Qed.

Lemma spec_documents_snd (n : nat) (chunks : list (list string)) :
  map snd (spec_documents n chunks) = chunks.
Proof.
  revert n. induction chunks as [|c r IH]; intros n; simpl; [reflexivity|].
  now rewrite IH.
Qed.

Lemma spec_documents_nonempty (n : nat) (chunks : list (list string)) :
  Forall (fun c => c <> []) chunks ->
  Forall (fun d => snd d <> []) (spec_documents n chunks).
Proof.
  revert n. induction chunks as [|c r IH]; intros n F; simpl.
  - constructor.
  - inversion F; subst. constructor; [assumption | now apply IH].
Qed.

Lemma chunked_count {A : Type} (n : nat) (l : list A) :
  List.length (chunked n l) = (List.length l + n - 1) / n.
Proof.
  unfold chunked, Py.range_step. now rewrite !length_map, length_seq.
Qed.

(** X12. The merge of [n] files always ends normally, saves
    [(n + 149) / 150] documents, none for an empty directory, and their
    pages are [n] in all: every file is a page of exactly one document
    as often as it is listed. *)
Theorem merge_counts (w : world) :
  exists w' docs,
    convert_to_pdf w = (w', Ok tt)
    /\ pdfs w' = pdfs w ++ docs
    /\ List.length docs = (List.length (out_dir w) + 149) / 150
    /\ Permutation (List.concat (map snd docs))
                   (map (path_join "./out") (map fst (out_dir w)))
    /\ Forall (fun d => snd d <> []) docs.
Proof.
  destruct (convert_to_pdf_ok w) as (w' & E & _ & P).
  eexists. eexists. split; [exact E|]. split; [exact P|].
  assert (P150 : 0 < 150) by lia.
  rewrite spec_documents_length, spec_documents_snd, chunked_count,
    (chunked_concat 150 P150), (Permutation_length (sorted_perm _)), !length_map.
  split; [f_equal; lia|]. split; [apply sorted_perm|].
  apply spec_documents_nonempty.
  eapply Forall_impl; [|apply (chunked_sizes 150 P150)].
  intros c Hc ->. simpl in Hc. lia.
Qed.

(** ** The whole run *)

(** A number holds no ['-']. *)
Lemma all_digits_lacks (u : string) : all_digits u = true -> lacks "-" u.
Proof.
  induction u as [|c u IH]; cbn [all_digits lacks]; [trivial|].
  intros H. apply andb_true_iff in H as [Hc Hu]. split; [|exact (IH Hu)].
  intros ->. discriminate.
Qed.

Lemma is_uprn_lacks (u : string) : is_uprn u = true -> lacks "-" u.
Proof.
  unfold is_uprn. intros H. apply andb_true_iff in H as [H _].
  now apply all_digits_lacks.
Qed.

Lemma uprns_lack (l : list string) :
  Forall (fun u => is_uprn u = true) l -> Forall (lacks "-") l.
Proof. apply Forall_impl, is_uprn_lacks. Qed.

Lemma batch_uprns (n : nat) : Forall (fun u => is_uprn u = true) (firstn n batch).
Proof.
  assert (F : Forall (fun u => is_uprn u = true) batch)
    by (repeat constructor).
  rewrite <- (firstn_skipn n batch) in F. now apply Forall_app in F.
Defined.

(** The groups are processed in turn, each full group leaving its two
    sheets in [./out]; a column whose length is no multiple of four ends
    in a short group, on which the loop raises. *)
Lemma process_groups_files {W : WordSep} (CONN : database) (l : list string) :
  (forall u, In u l -> exists r, CONN u = Some r /\ row_ok r) ->
  forall k w,
  exists w',
    process_groups CONN (Py.enumerate (chunked 4 l) k) w
    = (w', if (List.length l mod 4 =? 0)%nat then Ok tt else Raise IndexError)
    /\ pdfs w' = pdfs w
    /\ forall f,
        In f (map fst (out_dir w'))
        <-> In f (map fst (out_dir w))
            \/ In f (List.concat
                       (map sheet_names
                          (filter (fun g => (List.length g =? 4)%nat)
                                  (chunked 4 l)))).
Proof.
  assert (P4 : 0 < 4) by lia.
  induction l as [|l Hl IH] using (chunked_ind 4 P4); intros H k w.
  - rewrite chunked_nil by lia. exists w. split; [reflexivity|].
    split; [reflexivity|]. simpl. tauto.
  - rewrite (chunked_cons 4 P4 l Hl).
    cbn [Py.enumerate process_groups]. unfold iobind at 1.
    destruct l as [|u0 l]; [congruence|].
    destruct l as [|u1 [|u2 [|u3 t]]];
      try (rewrite process_group_short by (cbn [firstn List.length]; lia);
           exists w; split; [reflexivity|]; split; [reflexivity|];
           cbn [skipn firstn]; rewrite chunked_nil by lia;
           cbn [filter List.length Nat.eqb map List.concat In]; tauto).
    cbn [firstn skipn] in *.
    destruct (process_group_ok CONN k u0 u1 u2 u3 w) as (sa & sc & E & _).
    { intros u Hu. apply H. simpl in *. tauto. }
    rewrite E.
    match goal with |- context [process_groups _ _ ?w1] =>
      destruct (IH (fun u Hu => H u (or_intror (or_intror (or_intror (or_intror Hu)))))
                  (k + 1)%Z w1) as (w' & E' & P' & F') end.
    exists w'. rewrite E'. split; [|split; [exact P'|]].
    + f_equal. cbn [List.length].
      replace (S (S (S (S (List.length t))))) with (List.length t + 1 * 4) by lia.
      now rewrite Nat.Div0.mod_add.
    + intros f. rewrite F'. cbn [out_dir]. rewrite !write_names.
      cbn [filter List.length Nat.eqb map List.concat sheet_names rev app In].
      intuition congruence.
Qed.

Lemma full_groups_all (l : list string) :
  List.length l mod 4 = 0 ->
  filter (fun g => (List.length g =? 4)%nat) (chunked 4 l) = chunked 4 l.
Proof.
  assert (P4 : 0 < 4) by lia.
  induction l as [|l Hl IH] using (chunked_ind 4 P4); intros R.
  - now rewrite chunked_nil by lia.
  - rewrite (chunked_cons 4 P4 l Hl).
    destruct l as [|u0 [|u1 [|u2 [|u3 t]]]]; try discriminate R; [congruence|].
    cbn [firstn skipn filter List.length Nat.eqb]. f_equal. apply IH.
    cbn [List.length] in R.
    replace (S (S (S (S (List.length t))))) with (List.length t + 1 * 4) in R by lia.
    now rewrite Nat.Div0.mod_add in R.
Qed.

(** X13. With usable rows and UPRNs that are numbers, a multiple of
    four of them, the run ends normally: [./out] holds what it held and
    the two sheets of every group, and the merge saves its documents,
    whose pages are the files of [./out]. *)
Theorem main_completes {W : WordSep} (CONN : database)
  (uprn_col : list string) (w : world) :
  (forall u, In u uprn_col -> exists r, CONN u = Some r /\ row_ok r) ->
  Forall (fun u => is_uprn u = true) uprn_col ->
  List.length uprn_col mod 4 = 0 ->
  exists w' docs,
    main CONN uprn_col w = (w', Ok tt)
    /\ (forall f, In f (map fst (out_dir w'))
                  <-> In f (map fst (out_dir w))
                      \/ In f (List.concat (map sheet_names (get_uprns uprn_col))))
    /\ pdfs w' = pdfs w ++ docs
    /\ List.length docs = (List.length (out_dir w') + 149) / 150
    /\ Permutation (List.concat (map snd docs))
                   (map (path_join "./out") (map fst (out_dir w'))).
Proof.
  intros H _ R. unfold main, iobind. rewrite get_uprns_chunked.
  destruct (process_groups_files CONN uprn_col H 1%Z w) as (w1 & E & P & F).
  rewrite (full_groups_all uprn_col R) in F.
  apply Nat.eqb_eq in R. rewrite R in E. rewrite E.
  destruct (convert_to_pdf_ok w1) as (w' & E' & O & P').
  exists w'. eexists. split; [exact E'|]. rewrite P', P, O.
  split; [exact F|]. split; [reflexivity|].
  assert (P150 : 0 < 150) by lia.
  rewrite spec_documents_length, spec_documents_snd, chunked_count,
    (chunked_concat 150 P150), (Permutation_length (sorted_perm _)), !length_map.
  split; [f_equal; lia | apply sorted_perm].
Qed.

Lemma main_completes_witness :
  exists w' docs,
    main (W := wordsep_re) sample_db (firstn 8 batch) empty_world = (w', Ok tt)
    /\ (forall f, In f (map fst (out_dir w'))
                  <-> In f (map fst (out_dir empty_world))
                      \/ In f (List.concat (map sheet_names (get_uprns (firstn 8 batch)))))
    /\ pdfs w' = pdfs empty_world ++ docs
    /\ List.length docs = (List.length (out_dir w') + 149) / 150
    /\ Permutation (List.concat (map snd docs))
                   (map (path_join "./out") (map fst (out_dir w'))).
Proof.
  apply (main_completes (W := wordsep_re)).
  - apply sample_rows.
  - apply batch_uprns.
  - reflexivity.
Defined.

(** X14. With usable rows and UPRNs that are numbers, no multiple of
    four of them, the run stops with [IndexError] at the short last
    group: [./out] holds what it held and the two sheets of every full
    group, and nothing is merged, no document is saved. *)
Theorem main_stops_at_short_group {W : WordSep} (CONN : database)
  (uprn_col : list string) (w : world) :
  (forall u, In u uprn_col -> exists r, CONN u = Some r /\ row_ok r) ->
  Forall (fun u => is_uprn u = true) uprn_col ->
  List.length uprn_col mod 4 <> 0 ->
  exists w',
    main CONN uprn_col w = (w', Raise IndexError)
    /\ pdfs w' = pdfs w
    /\ forall f, In f (map fst (out_dir w'))
                 <-> In f (map fst (out_dir w))
                     \/ In f (List.concat (map sheet_names (full_groups uprn_col))).
Proof.
  intros H _ R. unfold main, iobind, full_groups. rewrite get_uprns_chunked.
  destruct (process_groups_files CONN uprn_col H 1%Z w) as (w' & E & P & F).
  apply Nat.eqb_neq in R. rewrite R in E. rewrite E. eauto.
Qed.

Lemma main_stops_at_short_group_witness :
  exists w',
    main (W := wordsep_re) sample_db batch empty_world = (w', Raise IndexError)
    /\ pdfs w' = pdfs empty_world
    /\ forall f, In f (map fst (out_dir w'))
                 <-> In f (map fst (out_dir empty_world))
                     \/ In f (List.concat (map sheet_names (full_groups batch))).
Proof.
  apply (main_stops_at_short_group (W := wordsep_re)).
  - apply sample_rows.
  - apply (batch_uprns 9).
  - discriminate.
Defined.

(** X15. [get_uprns] keeps every identifier: its sublists, end to end,
    are the column; there are [(n + 3) / 4] of them, each of one to four
    identifiers and every one but the last of exactly four. *)
Theorem get_uprns_sublists (uprn_col : list string) :
  List.concat (get_uprns uprn_col) = uprn_col
  /\ List.length (get_uprns uprn_col) = (List.length uprn_col + 3) / 4
  /\ Forall (fun g => 0 < List.length g <= 4) (get_uprns uprn_col)
  /\ forall i, S i < List.length (get_uprns uprn_col) ->
               List.length (nth i (get_uprns uprn_col) []) = 4.
Proof.
  assert (P4 : 0 < 4) by lia. rewrite get_uprns_chunked.
  split; [apply (chunked_concat 4 P4)|].
  split; [rewrite chunked_count; f_equal; lia|].
  split; [apply (chunked_sizes 4 P4) | apply (chunked_full 4 P4)].
Qed.

(** ** More on wrapping *)

Lemma fill_line_all (width : Z) (chunks : list string) :
  forall cur_line cur_len,
    (cur_len + Py.len (Py.cat chunks) <= width)%Z ->
    textwrap.fill_line width chunks cur_line cur_len
    = ([], cur_line ++ chunks, (cur_len + Py.len (Py.cat chunks))%Z).
Proof.
  induction chunks as [|c chunks IH]; intros cur_line cur_len H.
  - cbn. now rewrite app_nil_r, Z.add_0_r.
  - cbn [textwrap.fill_line Py.cat] in *. rewrite len_append in H.
    pose proof (len_nonneg (Py.cat chunks)) as N.
    destruct (cur_len + Py.len c <=? width)%Z eqn:E;
      [|apply Z.leb_gt in E; lia].
    rewrite IH by lia. rewrite <- app_assoc, len_append, Z.add_assoc.
    reflexivity.
Qed.

(** X16. A text that fits the width is not broken: the wrap gives at
    most one line, which is the text (tabs expanded) less a trailing
    blank chunk. *)
Theorem wrap_text_fits {W : WordSep} (text : string) (width : Z) :
  (0 < width)%Z ->
  (Py.len (Py.expandtabs text 8) <= width)%Z ->
  exists tail,
    blank tail
    /\ ((wrap_text text width = Ok [] /\ Py.expandtabs text 8 = tail)
        \/ exists line,
            wrap_text text width = Ok [line]
            /\ (line ++ tail)%string = Py.expandtabs text 8).
Proof.
  intros Hw Hl. unfold wrap_text, textwrap.wrap, textwrap.wrap_chunks.
  destruct (width <=? 0)%Z eqn:E; [apply Z.leb_le in E; lia|].
  pose proof (wordsep_cat (Py.expandtabs text 8)) as C.
  destruct (wordsep_split (Py.expandtabs text 8)) as [|c rest] eqn:S.
  - exists "". split; [reflexivity|]. left.
    rewrite textwrap.wrap_loop_equation_1. now rewrite <- C.
  - rewrite textwrap.wrap_loop_equation_2.
    assert (P : textwrap.wrap_pass width (c :: rest) []
                = ([], match textwrap.drop_trailing (c :: rest) with
                       | [] => []
                       | g => [Py.cat g]
                       end)).
    { unfold textwrap.wrap_pass.
      rewrite fill_line_all by (rewrite Z.add_0_l, C; exact Hl).
      cbn [app]. destruct (textwrap.drop_trailing (c :: rest)); reflexivity. }
    rewrite P. cbn [fst snd]. rewrite textwrap.wrap_loop_equation_1.
    destruct (drop_trailing_spec (c :: rest)) as (t & Eg & Ht).
    exists (Py.cat t). split.
    { destruct Ht as [-> | (b & -> & Hb)]; [reflexivity|].
      cbn [Py.cat]. now rewrite append_empty. }
    destruct (textwrap.drop_trailing (c :: rest)) as [|y g].
    + left. split; [reflexivity|]. rewrite <- C, Eg. reflexivity.
    + right. eexists. split; [reflexivity|].
      rewrite <- C, Eg at 1. now rewrite cat_app.
Qed.

Lemma wrap_text_fits_witness :
  exists tail,
    blank tail
    /\ ((wrap_text (W := wordsep_re) "13 June " 8 = Ok []
         /\ Py.expandtabs "13 June " 8 = tail)
        \/ exists line,
            wrap_text (W := wordsep_re) "13 June " 8 = Ok [line]
            /\ (line ++ tail)%string = Py.expandtabs "13 June " 8).
Proof.
  apply (wrap_text_fits (W := wordsep_re)); [reflexivity|].
  vm_compute. discriminate.
Defined.

Lemma append_is_empty (a b : string) :
  (a ++ b)%string = "" -> a = "" /\ b = "".
Proof. destruct a; [auto | discriminate]. Qed.

Lemma interleave_empty (lines : list string) :
  forall seps, interleave seps lines = "" ->
               List.length seps = S (List.length lines) ->
               Py.cat lines = "".
Proof.
  induction lines as [|l lines IH]; intros seps H L; [reflexivity|].
  destruct seps as [|s seps]; [discriminate|].
  cbn [interleave] in H. apply append_is_empty in H as [_ H].
  apply append_is_empty in H as [-> H].
  cbn [Py.cat String.append]. apply (IH seps H). simpl in L. lia.
Qed.

Lemma wrap_text_empty {W : WordSep} (width : Z) :
  (0 < width)%Z ->
  exists lines, wrap_text "" width = Ok lines /\ Py.cat lines = "".
Proof.
  intros Hw. unfold wrap_text, textwrap.wrap, textwrap.wrap_chunks.
  destruct (width <=? 0)%Z eqn:E; [apply Z.leb_le in E; lia|].
  destruct (wrap_loop_spec width (wordsep_split (Py.expandtabs "" 8)) [])
    as (dl & El & Wl).
  cbn [app] in El. exists dl. split; [now rewrite El|].
  destruct (wrapped_interleave width _ _ Wl) as (seps & Hl & _ & Hi).
  rewrite wordsep_cat in Hi. exact (interleave_empty dl seps Hi Hl).
Qed.

(** X17. On a card for bins and box collected on the same day, the text
    box pasted over the recycling box, at (935, 710), holds no
    character: nothing is drawn there. *)
Theorem same_collection_box_is_blank {W : WordSep} (c : Calendar.t)
  (index m : Z) :
  Calendar.recycling_box_str c = "" ->
  CalendarImage.init_index index = Some m ->
  exists ci card lines,
    CalendarImage.init c c index = Ok ci
    /\ CalendarImage.image ci = Some card
    /\ stamped_at 935 710 card = [PIL.Lines lines]
    /\ Py.cat lines = "".
Proof.
  intros Hb Hi.
  unfold CalendarImage.init, CalendarImage.load_calendar_image.
  cbn [CalendarImage.calendar]. rewrite Hb. cbn [String.eqb].
  unfold CalendarImage.build_calendar_image.
  cbn [CalendarImage.image_type CalendarImage.calendar_image
       CalendarImage.index CalendarImage.calendar CalendarImage.index_font
       CalendarImage.calendar_font Py.getattr bind].
  cbn [String.eqb Ascii.eqb Bool.eqb andb].
  destruct (wrap_text_ok (Calendar.black_bin_str c) 7 eq_refl) as [l1 ->].
  destruct (wrap_text_ok (Calendar.recycling_bin_str c) 7 eq_refl) as [l2 ->].
  rewrite Hb.
  destruct (wrap_text_empty 7 eq_refl) as (l3 & -> & E3).
  destruct (wrap_text_ok (Calendar.green_bin_str c) 7 eq_refl) as [l4 ->].
  rewrite Hi. cbn [bind Py.getattr].
  do 2 eexists. exists l3. split; [reflexivity|].
  cbn [CalendarImage.image]. split; [reflexivity|].
  split; [reflexivity | exact E3].
Qed.

Lemma same_collection_box_is_blank_witness :
  exists ci card lines,
    CalendarImage.init (W := wordsep_re) same_day_calendar
      same_day_calendar 1 = Ok ci
    /\ CalendarImage.image ci = Some card
    /\ stamped_at 935 710 card = [PIL.Lines lines]
    /\ Py.cat lines = "".
Proof.
  apply (same_collection_box_is_blank (W := wordsep_re)
           same_day_calendar 1 2); reflexivity.
Defined.

(** ** The reconciliation script *)

Lemma substring_prefix (p s : string) :
  String.substring 0 (String.length p) (p ++ s) = p.
Proof.
  induction p as [|c p IH]; cbn [String.length String.append String.substring].
  - destruct s; reflexivity.
  - now rewrite IH.
Qed.

Lemma length_append (a b : string) :
  String.length (a ++ b) = String.length a + String.length b.
Proof. induction a as [|c a IH]; simpl; [reflexivity | now rewrite IH]. Qed.

Lemma drop_last_append (p suffix : string) :
  Py.drop_last (String.length suffix) (p ++ suffix) = p.
Proof.
  unfold Py.drop_last. rewrite length_append, Nat.add_sub.
  apply substring_prefix.
Qed.

Lemma endswith_inv (s suffix : string) :
  Py.endswith s suffix = true -> exists p, s = (p ++ suffix)%string.
Proof.
  induction s as [|c s IH]; cbn [Py.endswith].
  - destruct (String.eqb_spec "" suffix) as [<-|N]; [|discriminate].
    exists "". reflexivity.
  - destruct (String.eqb_spec (String c s) suffix) as [<-|N].
    + exists "". reflexivity.
    + intros H. destruct (IH H) as [p ->]. exists (String c p). reflexivity.
Qed.

Lemma append_same_length (p q a b : string) :
  String.length a = String.length b ->
  (p ++ a)%string = (q ++ b)%string -> a = b.
Proof.
  revert q. induction p as [|c p IH]; intros q L H.
  - destruct q as [|d q]; [exact H|].
    apply (f_equal String.length) in H.
    cbn [String.append String.length] in H. rewrite length_append in H. lia.
  - destruct q as [|d q].
    + apply (f_equal String.length) in H.
      cbn [String.append String.length] in H. rewrite length_append in H. lia.
    + cbn [String.append] in H. injection H as _ H. now apply (IH q).
Qed.

Lemma cal_is_no_addr (p : string) :
  Py.endswith (p ++ "-cal.jpg") "-addr.jpg" = false.
Proof.
  destruct (Py.endswith (p ++ "-cal.jpg") "-addr.jpg") eqn:E; [|reflexivity].
  apply endswith_inv in E as [q E].
  change "-cal.jpg" with ("-ca" ++ "l.jpg")%string in E.
  change "-addr.jpg" with ("-add" ++ "r.jpg")%string in E.
  rewrite <- !append_assoc in E.
  apply append_same_length in E; [discriminate | reflexivity].
Qed.

Lemma proc_uprns_app (l1 l2 : list string) :
  get_lost_uprns.proc_uprns (l1 ++ l2)
  = get_lost_uprns.proc_uprns l1 ++ get_lost_uprns.proc_uprns l2.
Proof.
  unfold get_lost_uprns.proc_uprns.
  now rewrite filter_app, !map_app, concat_app.
Qed.

Lemma proc_uprns_In (listing : list string) (u : string) :
  In u (get_lost_uprns.proc_uprns listing)
  <-> exists f, In f listing /\ In u (get_lost_uprns.proc_uprns [f]).
Proof.
  induction listing as [|f listing IH].
  - simpl. split; [tauto | intros (f & [] & _)].
  - change (f :: listing) with ([f] ++ listing).
    rewrite proc_uprns_app, in_app_iff, IH. split.
    + intros [H | (g & Hg & H)]; [exists f | exists g]; simpl; auto.
    + intros (g & [<- | Hg] & H); [left; exact H | right; eauto].
Qed.

Lemma proc_uprns_addr (l : list string) :
  l <> [] -> Forall (lacks "-") l ->
  get_lost_uprns.proc_uprns [(Py.join "-" (l ++ ["addr"]) ++ ".jpg")%string] = l.
Proof.
  intros N F. rewrite (join_snoc "-" l "addr" N), !append_assoc.
  change ("-" ++ "addr" ++ ".jpg")%string with "-addr.jpg".
  unfold get_lost_uprns.proc_uprns. cbn [filter].
  rewrite endswith_append. cbn [map List.concat].
  rewrite (drop_last_append _ "-addr.jpg"), app_nil_r.
  now apply split_join.
Qed.

Lemma proc_uprns_cal (l : list string) :
  l <> [] ->
  get_lost_uprns.proc_uprns [(Py.join "-" (l ++ ["cal"]) ++ ".jpg")%string] = [].
Proof.
  intros N. rewrite (join_snoc "-" l "cal" N), !append_assoc.
  change ("-" ++ "cal" ++ ".jpg")%string with "-cal.jpg".
  unfold get_lost_uprns.proc_uprns. cbn [filter].
  now rewrite cal_is_no_addr.
Qed.

(** X18. The names a group's two sheets are saved under give the
    group back: the script reads the four UPRNs off the address sheet's
    name, in the reverse of their input order, and passes over the
    calendar sheet. *)
Theorem script_reads_group (u0 u1 u2 u3 : string) :
  Forall (lacks "-") [u0; u1; u2; u3] ->
  get_lost_uprns.proc_uprns
    [(Py.join "-" [u3; u2; u1; u0; "addr"] ++ ".jpg")%string;
     (Py.join "-" [u3; u2; u1; u0; "cal"] ++ ".jpg")%string]
  = [u3; u2; u1; u0].
Proof.
  intros F.
  assert (F' : Forall (lacks "-") [u3; u2; u1; u0]).
  { rewrite Forall_forall in *. intros u Hu. apply F. simpl in *. tauto. }
  pose proof (proc_uprns_addr [u3; u2; u1; u0]) as A.
  pose proof (proc_uprns_cal [u3; u2; u1; u0]) as C.
  cbn [app] in A, C.
  match goal with |- get_lost_uprns.proc_uprns [?a; ?b] = _ =>
    change [a; b] with ([a] ++ [b]) end.
  rewrite proc_uprns_app, A, C by (discriminate || exact F').
  reflexivity.
Qed.

Lemma script_reads_group_witness :
  get_lost_uprns.proc_uprns
    ["1004-1003-1002-1001-addr.jpg"; "1004-1003-1002-1001-cal.jpg"]
  = ["1004"; "1003"; "1002"; "1001"].
Proof.
  apply (script_reads_group "1001" "1002" "1003" "1004").
  repeat constructor; simpl; repeat split; discriminate.
Defined.

Lemma not_in_spec (uprn_set : list string) (u : string) :
  get_lost_uprns.not_in uprn_set u = true <-> ~ In u uprn_set.
Proof.
  unfold get_lost_uprns.not_in. rewrite negb_true_iff.
  split.
  - intros H C. assert (E : existsb (String.eqb u) uprn_set = true).
    { apply existsb_exists. exists u. split; [exact C | apply String.eqb_refl]. }
    congruence.
  - intros H. destruct (existsb (String.eqb u) uprn_set) eqn:E; [|reflexivity].
    apply existsb_exists in E as (v & Hv & Ev). apply String.eqb_eq in Ev.
    subst. contradiction.
Qed.

Lemma first_fields (rows : list (list string)) :
  (Forall (fun row => row <> []) rows ->
   mapM (fun row => Py.index row 0) rows
   = Ok (map (fun row => hd "" row) rows))
  /\ (In [] rows -> mapM (fun row => Py.index row 0) rows = Raise IndexError).
Proof.
  induction rows as [|row rows [IH1 IH2]]; split.
  - reflexivity.
  - intros [].
  - intros F. inversion F as [|? ? Hr Fr]; subst. cbn [mapM map].
    destruct row as [|x row]; [congruence|]. cbn. now rewrite (IH1 Fr).
  - intros [-> | H]; [reflexivity|]. cbn [mapM].
    destruct row as [|x row]; [reflexivity|]. cbn. now rewrite (IH2 H).
Qed.

(** X19. The report of the script is the set difference it is meant to
    be: the first fields of the batch rows that are read off no address
    sheet's name, in the order of the batch; a row without a field, as
    a blank line gives, makes it raise [IndexError]. *)
Theorem uprn_diff_is_difference (listing : list string)
  (csv_read : list (list string)) :
  (Forall (fun row => row <> []) csv_read ->
   exists diff,
     get_lost_uprns.uprn_diff listing csv_read = Ok diff
     /\ diff = filter (get_lost_uprns.not_in (get_lost_uprns.proc_uprns listing))
                      (map (fun row => hd "" row) csv_read)
     /\ forall u, In u diff
                  <-> In u (map (fun row => hd "" row) csv_read)
                      /\ ~ In u (get_lost_uprns.proc_uprns listing))
  /\ (In [] csv_read ->
      get_lost_uprns.uprn_diff listing csv_read = Raise IndexError).
Proof.
  unfold get_lost_uprns.uprn_diff. split.
  - intros F. rewrite (proj1 (first_fields csv_read) F). cbn [bind].
    eexists. split; [reflexivity|]. split; [reflexivity|].
    intros u. rewrite filter_In, not_in_spec. tauto.
  - intros H. now rewrite (proj2 (first_fields csv_read) H).
Qed.

Lemma proc_uprns_write {A : Type} (name : string) (a : A)
  (dir : list (string * A)) (u : string) :
  In u (get_lost_uprns.proc_uprns (map fst (write name a dir)))
  <-> In u (get_lost_uprns.proc_uprns [name])
      \/ In u (get_lost_uprns.proc_uprns (map fst dir)).
Proof.
  rewrite (proc_uprns_In (map fst (write name a dir))),
    (proc_uprns_In (map fst dir)). split.
  - intros (f & Hf & H). apply write_names in Hf as [-> | Hf]; eauto.
  - intros [H | (f & Hf & H)].
    + exists name. split; [apply write_In | exact H].
    + exists f. split; [now apply write_keeps | exact H].
Qed.

(** What the script reads off [./out] after the groups were processed:
    what it read before, and the identifiers of the full groups. *)
Lemma process_groups_processed {W : WordSep} (CONN : database)
  (l : list string) :
  (forall u, In u l -> exists r, CONN u = Some r /\ row_ok r) ->
  Forall (lacks "-") l ->
  forall k w,
  exists w' r,
    process_groups CONN (Py.enumerate (chunked 4 l) k) w = (w', r)
    /\ forall u,
        In u (get_lost_uprns.proc_uprns (map fst (out_dir w')))
        <-> In u (get_lost_uprns.proc_uprns (map fst (out_dir w)))
            \/ In u (firstn (4 * (List.length l / 4)) l).
Proof.
  assert (P4 : 0 < 4) by lia.
  induction l as [|l Hl IH] using (chunked_ind 4 P4); intros H F k w.
  - rewrite chunked_nil by lia. exists w, (Ok tt). split; [reflexivity|].
    simpl. tauto.
  - rewrite (chunked_cons 4 P4 l Hl).
    cbn [Py.enumerate process_groups]. unfold iobind at 1.
    destruct l as [|u0 l]; [congruence|].
    destruct l as [|u1 [|u2 [|u3 t]]];
      try (rewrite process_group_short by (cbn [firstn List.length]; lia);
           exists w, (Raise IndexError); split; [reflexivity|];
           rewrite Nat.div_small by (cbn [List.length]; lia);
           rewrite Nat.mul_0_r; cbn [firstn In]; tauto).
    + cbn [firstn skipn] in *.
      destruct (process_group_ok CONN k u0 u1 u2 u3 w) as (sa & sc & E & _).
      { intros u Hu. apply H. simpl in *. tauto. }
      rewrite E.
      assert (Ft : Forall (lacks "-") t).
      { rewrite Forall_forall in *. intros u Hu. apply F. simpl. tauto. }
      assert (F4 : Forall (lacks "-") [u3; u2; u1; u0]).
      { rewrite Forall_forall in *. intros u Hu. apply F. simpl in *. tauto. }
      match goal with |- context [process_groups _ _ ?w1] =>
        destruct (IH (fun u Hu => H u (or_intror (or_intror (or_intror (or_intror Hu)))))
                    Ft (k + 1)%Z w1) as (w' & r & E' & P') end.
      exists w', r. split; [exact E'|]. intros u. rewrite P'. cbn [out_dir].
      rewrite !proc_uprns_write.
      pose proof (proc_uprns_addr [u3; u2; u1; u0]) as A.
      pose proof (proc_uprns_cal [u3; u2; u1; u0]) as C.
      cbn [app] in A, C. rewrite A, C by (discriminate || exact F4).
      cbn [List.length].
      replace (S (S (S (S (List.length t))))) with (List.length t + 1 * 4) by lia.
      rewrite Nat.div_add by lia.
      replace (4 * (List.length t / 4 + 1))
        with (S (S (S (S (4 * (List.length t / 4)))))) by lia.
      cbn [firstn In]. tauto.
Qed.

Lemma NoDup_app_disjoint {A : Type} (a b : list A) (u : A) :
  NoDup (a ++ b) -> In u b -> ~ In u a.
Proof.
  induction a as [|x a IH]; intros N Hb; [tauto|].
  cbn [app] in N. inversion N as [|? ? Hx Na]; subst.
  intros [<- | Ha]; [apply Hx, in_or_app; auto | exact (IH Na Hb Ha)].
Qed.

Lemma filter_none {A : Type} (f : A -> bool) (l : list A) :
  (forall u, In u l -> f u = false) -> filter f l = [].
Proof.
  induction l as [|x l IH]; intros H; [reflexivity|]. cbn [filter].
  rewrite (H x) by (now left). apply IH. intros u Hu. apply H. now right.
Qed.

Lemma filter_all {A : Type} (f : A -> bool) (l : list A) :
  (forall u, In u l -> f u = true) -> filter f l = l.
Proof.
  induction l as [|x l IH]; intros H; [reflexivity|]. cbn [filter].
  rewrite (H x) by (now left). f_equal. apply IH. intros u Hu. apply H. now right.
Qed.

Lemma filter_remainder (seen l : list string) (m : nat) :
  NoDup l ->
  (forall u, In u seen <-> In u (firstn m l)) ->
  filter (get_lost_uprns.not_in seen) l = skipn m l.
Proof.
  intros N S. rewrite <- (firstn_skipn m l) at 1. rewrite filter_app.
  rewrite filter_none, filter_all; [reflexivity | |].
  - intros u Hu. apply not_in_spec. rewrite S.
    apply (NoDup_app_disjoint (firstn m l) (skipn m l)); [|exact Hu].
    now rewrite firstn_skipn.
  - intros u Hu. destruct (get_lost_uprns.not_in seen u) eqn:E; [|reflexivity].
    apply not_in_spec in E. exfalso. apply E, S, Hu.
Qed.

(** X20. Run after [main] on the same column, the script reports
    exactly the identifiers [main] left without a sheet: when the rows
    are usable, the UPRNs distinct numbers, and [./out] empty at the
    start, the report is the tail of the column that does not fill a
    group of four. *)
Theorem script_reports_remainder {W : WordSep} (CONN : database)
  (uprn_col : list string) (w : world) :
  out_dir w = [] ->
  (forall u, In u uprn_col -> exists r, CONN u = Some r /\ row_ok r) ->
  Forall (fun u => is_uprn u = true) uprn_col ->
  NoDup uprn_col ->
  get_lost_uprns.uprn_diff
    (map fst (out_dir (fst (main CONN uprn_col w))))
    (map (fun u => [u]) uprn_col)
  = Ok (skipn (4 * (List.length uprn_col / 4)) uprn_col).
Proof.
  intros O H F N. apply uprns_lack in F.
  assert (S : forall u,
             In u (get_lost_uprns.proc_uprns
                     (map fst (out_dir (fst (main CONN uprn_col w)))))
             <-> In u (firstn (4 * (List.length uprn_col / 4)) uprn_col)).
  { unfold main, iobind. rewrite get_uprns_chunked.
    destruct (process_groups_processed CONN uprn_col H F 1%Z w)
      as (w1 & r & E & P).
    rewrite E. rewrite O in P. intros u.
    assert (Q : In u (get_lost_uprns.proc_uprns (map fst (out_dir w1)))
                <-> In u (firstn (4 * (List.length uprn_col / 4)) uprn_col)).
    { rewrite P. simpl. tauto. }
    destruct r as [[]|e]; cbn [fst]; [|exact Q].
    destruct (convert_to_pdf_ok w1) as (w' & -> & Ow & _). cbn [fst].
    now rewrite Ow. }
  unfold get_lost_uprns.uprn_diff.
  rewrite (proj1 (first_fields (map (fun u => [u]) uprn_col))).
  - cbn [bind]. rewrite map_map. cbn [hd]. rewrite map_id.
    f_equal. now apply filter_remainder.
  - apply Forall_forall. intros row Hr. apply in_map_iff in Hr as (u & <- & _).
    discriminate.
Qed.

Lemma batch_NoDup : NoDup batch.
Proof.
  assert (E : nodup String.string_dec batch = batch) by (vm_compute; reflexivity).
  rewrite <- E. apply NoDup_nodup.
Defined.

Lemma script_reports_remainder_witness :
  get_lost_uprns.uprn_diff
    (map fst (out_dir (fst (main (W := wordsep_re) sample_db batch
                              empty_world))))
    (map (fun u => [u]) batch)
  = Ok ["100012345679"].
Proof.
  apply (script_reports_remainder (W := wordsep_re) sample_db batch
           empty_world).
  - reflexivity.
  - apply sample_rows.
  - apply (batch_uprns 9).
  - apply batch_NoDup.
Defined.

(** ** No sheet written over *)

Lemma write_fresh {A : Type} (name : string) (a : A) (dir : list (string * A)) :
  ~ In name (map fst dir) -> write name a dir = dir ++ [(name, a)].
Proof.
  induction dir as [|[n b] dir IH]; cbn [write map fst In app]; intros H.
  - reflexivity.
  - destruct (String.eqb_spec n name) as [->|N]; [tauto|].
    rewrite IH by tauto. reflexivity.
Qed.

Lemma append_inj_l (a b s : string) : (a ++ s = b ++ s)%string -> a = b.
Proof.
  intros H. rewrite <- (drop_last_append a s), <- (drop_last_append b s).
  now rewrite H.
Qed.

(** The name of a sheet gives its group and its side back. *)
Lemma sheet_name_inj (g h : list string) (s t : string) :
  Forall (lacks "-") g -> Forall (lacks "-") h -> lacks "-" s -> lacks "-" t ->
  (Py.join "-" (rev g ++ [s]) ++ ".jpg")%string
  = (Py.join "-" (rev h ++ [t]) ++ ".jpg")%string ->
  g = h /\ s = t.
Proof.
  intros Fg Fh Ls Lt E. apply append_inj_l in E.
  apply (f_equal (Py.split "-")) in E.
  rewrite !split_join in E.
  - apply app_inj_tail in E as [E ->]. split; [|reflexivity].
    now rewrite <- (rev_involutive g), E, rev_involutive.
  - intros C. apply app_eq_nil in C as [_ C]. discriminate.
  - apply Forall_app. split; [now apply Forall_rev | now constructor].
  - intros C. apply app_eq_nil in C as [_ C]. discriminate.
  - apply Forall_app. split; [now apply Forall_rev | now constructor].
Qed.

Lemma chunked_In {A : Type} (l g : list A) (x : A) :
  In g (chunked 4 l) -> In x g -> In x l.
Proof.
  intros Hg Hx. rewrite <- (chunked_concat 4 (ltac:(lia) : 0 < 4) l).
  apply in_concat. eauto.
Qed.

Lemma process_groups_listing {W : WordSep} (CONN : database) (l : list string) :
  (forall u, In u l -> exists r, CONN u = Some r /\ row_ok r) ->
  Forall (lacks "-") l ->
  NoDup l ->
  forall k w,
    (forall f g, In f (map fst (out_dir w)) -> In g (chunked 4 l) ->
                 ~ In f (sheet_names g)) ->
    exists w' r,
      process_groups CONN (Py.enumerate (chunked 4 l) k) w = (w', r)
      /\ map fst (out_dir w')
         = map fst (out_dir w)
           ++ List.concat
                (map sheet_names
                   (filter (fun g => (List.length g =? 4)%nat) (chunked 4 l))).
Proof.
  assert (P4 : 0 < 4) by lia.
  induction l as [|l Hl IH] using (chunked_ind 4 P4); intros H F N k w D.
  - rewrite chunked_nil by lia. exists w, (Ok tt). split; [reflexivity|].
    simpl. now rewrite app_nil_r.
  - rewrite (chunked_cons 4 P4 l Hl) in *.
    cbn [Py.enumerate process_groups]. unfold iobind at 1.
    destruct l as [|u0 l]; [congruence|].
    destruct l as [|u1 [|u2 [|u3 t]]];
      try (rewrite process_group_short by (cbn [firstn List.length]; lia);
           exists w, (Raise IndexError); split; [reflexivity|];
           cbn [skipn firstn]; rewrite chunked_nil by lia;
           cbn [filter List.length Nat.eqb map List.concat];
           now rewrite app_nil_r).
    cbn [firstn skipn] in *.
    destruct (process_group_ok CONN k u0 u1 u2 u3 w) as (sa & sc & E & _).
    { intros u Hu. apply H. simpl in *. tauto. }
    rewrite E.
    assert (Ft : Forall (lacks "-") t).
    { rewrite Forall_forall in *. intros u Hu. apply F. simpl. tauto. }
    assert (F4 : Forall (lacks "-") [u0; u1; u2; u3]).
    { rewrite Forall_forall in *. intros u Hu. apply F. simpl in *. tauto. }
    assert (Nt : NoDup t).
    { do 4 (inversion N as [|? ? _ N']; subst; clear N; rename N' into N).
      exact N. }
    assert (N0 : ~ In u0 t).
    { inversion N as [|? ? N0 _]; subst. simpl in N0. tauto. }
    set (na := (Py.join "-" [u3; u2; u1; u0; "addr"] ++ ".jpg")%string) in *.
    set (nc := (Py.join "-" [u3; u2; u1; u0; "cal"] ++ ".jpg")%string) in *.
    assert (Da : ~ In na (map fst (out_dir w))).
    { intros C. apply (D na [u0; u1; u2; u3] C); [now left | now left]. }
    assert (Dc : ~ In nc (map fst (out_dir w))).
    { intros C. apply (D nc [u0; u1; u2; u3] C); [now left | right; now left]. }
    assert (Nac : nc <> na).
    { intros C. apply (sheet_name_inj [u0; u1; u2; u3] [u0; u1; u2; u3]) in C
        as [_ C]; simpl; try tauto; try discriminate;
        repeat split; discriminate. }
    assert (W1 : map fst (write nc sc (write na sa (out_dir w)))
                 = map fst (out_dir w) ++ [na; nc]).
    { rewrite (write_fresh na) by exact Da.
      rewrite (write_fresh nc).
      - rewrite !map_app, <- app_assoc. reflexivity.
      - rewrite map_app, in_app_iff. simpl. intros [C | [C | []]];
          [exact (Dc C) | exact (Nac (eq_sym C))]. }
    match goal with |- context [process_groups _ _ ?w1] =>
      destruct (IH (fun u Hu => H u (or_intror (or_intror (or_intror (or_intror Hu)))))
                  Ft Nt (k + 1)%Z w1) as (w' & r & E' & L') end.
    { cbn [out_dir]. rewrite W1. intros f g Hf Hg Hs.
      apply in_app_iff in Hf as [Hf | Hf].
      - apply (D f g Hf); [now right | exact Hs].
      - assert (Fg : Forall (lacks "-") g).
        { rewrite Forall_forall in *. intros u Hu. apply Ft.
          exact (chunked_In t g u Hg Hu). }
        assert (G : g = [u0; u1; u2; u3]).
        { unfold sheet_names in Hs. subst na nc. simpl in Hf, Hs.
          destruct Hf as [<- | [<- | []]]; destruct Hs as [Hs | [Hs | []]];
            apply (sheet_name_inj g [u0; u1; u2; u3]) in Hs as [Hs _];
            auto; simpl; repeat split; discriminate. }
        apply N0. apply (chunked_In t g u0 Hg). rewrite G. now left. }
    exists w', r. split; [exact E'|]. rewrite L'. cbn [out_dir]. rewrite W1.
    cbn [filter List.length Nat.eqb map List.concat].
    rewrite <- app_assoc. reflexivity.
Qed.

Lemma full_groups_count (l : list string) :
  List.length (filter (fun g => (List.length g =? 4)%nat) (chunked 4 l))
  = List.length l / 4.
Proof.
  assert (P4 : 0 < 4) by lia.
  induction l as [|l Hl IH] using (chunked_ind 4 P4).
  - now rewrite chunked_nil by lia.
  - rewrite (chunked_cons 4 P4 l Hl).
    destruct l as [|u0 l]; [congruence|].
    destruct l as [|u1 [|u2 [|u3 t]]];
      try (cbn [skipn firstn]; rewrite chunked_nil by lia; reflexivity).
    cbn [firstn skipn filter List.length Nat.eqb] in *. rewrite IH.
    replace (S (S (S (S (List.length t))))) with (List.length t + 1 * 4) by lia.
    rewrite Nat.div_add by lia. lia.
Qed.

Lemma sheet_names_count (groups : list (list string)) :
  List.length (List.concat (map sheet_names groups)) = 2 * List.length groups.
Proof.
  induction groups as [|g groups IH]; [reflexivity|].
  cbn [map List.concat sheet_names app List.length]. lia.
Qed.

(** X10. With distinct UPRNs no sheet is written over another: when the
    rows are usable, the UPRNs distinct numbers, and [./out] empty at
    the start, the run leaves exactly the two sheets of every full
    group, two files for every four UPRNs. *)
Theorem main_overwrites_no_sheet {W : WordSep} (CONN : database)
  (uprn_col : list string) (w : world) :
  out_dir w = [] ->
  (forall u, In u uprn_col -> exists r, CONN u = Some r /\ row_ok r) ->
  Forall (fun u => is_uprn u = true) uprn_col ->
  NoDup uprn_col ->
  Permutation (map fst (out_dir (fst (main CONN uprn_col w))))
              (List.concat (map sheet_names (full_groups uprn_col)))
  /\ List.length (out_dir (fst (main CONN uprn_col w)))
     = 2 * (List.length uprn_col / 4).
Proof.
  intros O H F N. apply uprns_lack in F.
  assert (L : map fst (out_dir (fst (main CONN uprn_col w)))
              = List.concat (map sheet_names (full_groups uprn_col))).
  { unfold main, iobind, full_groups. rewrite get_uprns_chunked.
    destruct (process_groups_listing CONN uprn_col H F N 1%Z w)
      as (w1 & r & E & L).
    { rewrite O. intros f g []. }
    rewrite E. rewrite O in L. cbn [map app] in L.
    destruct r as [[]|e]; cbn [fst]; [|exact L].
    destruct (convert_to_pdf_ok w1) as (w' & -> & Ow & _). cbn [fst].
    now rewrite Ow. }
  split; [now rewrite L|].
  rewrite <- (length_map fst), L. unfold full_groups.
  rewrite get_uprns_chunked, sheet_names_count, full_groups_count. reflexivity.
Qed.

Lemma main_overwrites_no_sheet_witness :
  Permutation
    (map fst (out_dir (fst (main (W := wordsep_re) sample_db batch empty_world))))
    (List.concat (map sheet_names (full_groups batch)))
  /\ List.length (out_dir (fst (main (W := wordsep_re) sample_db batch
                                  empty_world)))
     = 2 * (List.length batch / 4).
Proof.
  apply (main_overwrites_no_sheet (W := wordsep_re)).
  - reflexivity.
  - apply sample_rows.
  - apply (batch_uprns 9).
  - apply batch_NoDup.
Defined.
